(** * ai-life-analytics: a shallow embedding of the backend

    The backend is a FastAPI application over two SQL tables ([Entry] and
    [User]).  Every endpoint reads the whole table into a Python list and
    computes on it, so the embedding represents a table by the list of its
    rows in the order the query returns them, and an endpoint by a function
    on that list.

    Numbers.  Python [int] is [Z].  A Python [float] is an IEEE-754 double,
    represented by the rational number it denotes.  The arithmetic on
    floats is embedded twice.

    - Modules [Binary64], [Predict64] and [Main64] follow the code in
      double precision: every operation returns the double nearest to the
      exact result, ties to the even neighbour, and [round(x, n)] rounds
      the double it is given.  [np.mean] and scikit-learn's regression are
      library routines and are parameters.  The properties that pin down a
      returned number are stated on these modules.
    - Modules [Py], [Predict] and [Main] read the same code with exact
      rational arithmetic.  They carry the properties of shape, order and
      bounds that do not hinge on the last bit of a sum.

    Infinities and NaN are outside both readings: the numbers handled are
    finite, and a result beyond the largest double is not modelled.  The
    one exception is the NaN that scipy's [pearsonr] returns, which has a
    value of its own ([NaN] of [maybe_nan]). *)

From Stdlib Require Import ZArith QArith Qround Qabs Qpower String Ascii Bool List.
From Stdlib Require Import DecimalString DecimalNat DecimalZ Lia Lqa.
From Stdlib Require Import Sorted Permutation.
Import ListNotations.

Local Open Scope Z_scope.
Set Warnings "-register-all".

(* ================================================================== *)
(** ** Python and numpy primitives *)

Module Py.

(** [sum(l)] over ints and over floats. *)
Definition sumZ (l : list Z) : Z := fold_right Z.add 0 l.
Definition sumQ (l : list Q) : Q := fold_right Qplus 0%Q l.

Definition lenQ {A} (l : list A) : Q := inject_Z (Z.of_nat (length l)).

(** [np.mean(l)]; the callers guard against the empty list. *)
Definition np_mean (l : list Q) : Q := (sumQ l / lenQ l)%Q.

(** [np.mean] of a list of ints: numpy converts to float first. *)
Definition np_mean_int (l : list Z) : Q := np_mean (map inject_Z l).

(** [sum(l) / len(l)] on a list of ints (true division). *)
Definition div_mean (l : list Z) : Q := (inject_Z (sumZ l) / lenQ l)%Q.

(** Nearest integer, ties to even. *)
Definition round_half_even (q : Q) : Z :=
  let f := Qfloor q in
  match Qcompare (q - inject_Z f) (1 # 2) with
  | Lt => f
  | Gt => f + 1
  | Eq => if Z.even f then f else f + 1
  end.

Definition pow10 (n : nat) : positive := Z.to_pos (10 ^ Z.of_nat n).

(** [round(q, ndigits)]. *)
Definition round (q : Q) (ndigits : nat) : Q :=
  Qred (round_half_even (q * inject_Z (Zpos (pow10 ndigits))) # pow10 ndigits).

(** [int(q)] on a float: truncation towards zero. *)
Definition int (q : Q) : Z :=
  if Qle_bool 0 q then Qfloor q else Qceiling q.

(** [a < b] and [a <= b] on floats. *)
Definition ltb (a b : Q) : bool := negb (Qle_bool b a).
Definition leb (a b : Q) : bool := Qle_bool a b.

(** [max(a, b)] and [min(a, b)]: the first argument is kept unless the
    second is strictly greater (resp. smaller). *)
Definition max (a b : Q) : Q := if ltb a b then b else a.
Definition min (a b : Q) : Q := if ltb b a then b else a.

(** [l[-n:]] *)
Definition last_n {A} (n : nat) (l : list A) : list A :=
  skipn (length l - n) l.

(** [str(z)] on an int and on a natural number. *)
Definition str_int (z : Z) : string :=
  DecimalString.NilZero.string_of_int (Z.to_int z).
Definition str_nat (n : nat) : string :=
  DecimalString.NilZero.string_of_uint (Nat.to_uint n).

(** [max(iterable, key=...)]: the first element whose key is maximal. *)
Fixpoint max_by_from {A} (key : A -> Q) (best : A) (l : list A) : A :=
  match l with
  | [] => best
  | x :: l' =>
      max_by_from key (if ltb (key best) (key x) then x else best) l'
  end.

Definition max_by {A} (key : A -> Q) (l : list A) : option A :=
  match l with
  | [] => None
  | x :: l' => Some (max_by_from key x l')
  end.

End Py.

(* ================================================================== *)
(** ** IEEE-754 binary64 *)

Module Binary64.
Local Open Scope Q_scope.

(** The binade of a non-zero number: the [e] with [2^e <= |q| < 2^(e+1)]. *)
Definition ilog2 (q : Q) : Z :=
  let e := (Z.log2 (Z.abs (Qnum q)) - Z.log2 (Zpos (Qden q)))%Z in
  if Qle_bool (2 ^ e) (Qabs q) then e else (e - 1)%Z.

(** The exponent of the unit in the last place: 53 significant bits,
    and no unit finer than [2^-1074] (the subnormal numbers). *)
Definition ulp_exponent (q : Q) : Z := Z.max (ilog2 q - 52) (-1074).

(** The double nearest to [q], ties to the even significand. *)
Definition rnd (q : Q) : Q :=
  if Qeq_bool q 0 then 0
  else
    let u := 2 ^ ulp_exponent q in
    Qred (inject_Z (Py.round_half_even (q / u)) * u).

(** [a + b], [a - b], [a * b] and [a / b] on floats. *)
Definition add (a b : Q) : Q := rnd (a + b).
Definition sub (a b : Q) : Q := rnd (a - b).
Definition mul (a b : Q) : Q := rnd (a * b).
Definition div (a b : Q) : Q := rnd (a / b).

(** [float(z)] on an int, also where an int meets a float in an
    operation. *)
Definition of_int (z : Z) : Q := rnd (inject_Z z).

(** [a / b] on two ints: the double nearest to the quotient. *)
Definition truediv (a b : Z) : Q := rnd (inject_Z a / inject_Z b).

(** [round(x, ndigits)] on a float: the decimal with [ndigits] places
    nearest to the double [x], ties to even, then the double nearest to
    that decimal. *)
Definition round (x : Q) (ndigits : nat) : Q :=
  let scale := inject_Z (10 ^ Z.of_nat ndigits) in
  rnd (inject_Z (Py.round_half_even (x * scale)) / scale).

(** The float a decimal literal denotes. *)
Definition literal (q : Q) : Q := rnd q.

End Binary64.

(* ================================================================== *)
(** ** ml/predict.py *)

Module Predict.

(** What [train_and_predict] reads of an entry: the two attributes, each
    possibly [None] (the columns are nullable). *)
Record entry := mk_entry {
  sleep_hours : option Q;
  productivity : option Z
}.

Record Prediction := mk_prediction {
  predicted_productivity : Q;
  mode : string;
  confidence : Z
}.

(** The list comprehension building [data]. *)
Fixpoint data_of (entries : list entry) : list (Q * Z) :=
  match entries with
  | [] => []
  | e :: rest =>
      match sleep_hours e, productivity e with
      | Some s, Some p => (s, p) :: data_of rest
      | _, _ => data_of rest
      end
  end.

(** [LinearRegression().fit(X, y)] with one feature: sklearn centres both
    columns and solves the least-squares problem, taking the solution of
    least norm (slope 0) when the feature is constant.  Returns
    (coefficient, intercept). *)
Definition linear_regression_fit (xs ys : list Q) : Q * Q :=
  let mx := Py.np_mean xs in
  let my := Py.np_mean ys in
  let sxx := Py.sumQ (map (fun x => (x - mx) * (x - mx))%Q xs) in
  let sxy :=
    Py.sumQ (map (fun xy => (fst xy - mx) * (snd xy - my))%Q (combine xs ys)) in
  let coef := if Qeq_bool sxx 0 then 0%Q else (sxy / sxx)%Q in
  (coef, (my - coef * mx)%Q).

(** [model.predict([[x]])[0]]. *)
Definition linear_regression_predict (model : Q * Q) (x : Q) : Q :=
  (fst model * x + snd model)%Q.

Definition train_and_predict (entries : list entry) (target : Q)
  : Prediction :=
  let data := data_of entries in
  if (length data =? 0)%nat then
    mk_prediction 5 "no-data" 20
  else if (length data <? 4)%nat then
    let avg := Py.np_mean_int (map snd data) in
    let confidence := Z.min 60 (30 + Z.of_nat (length data) * 10) in
    mk_prediction (Py.round avg 2) "average" confidence
  else
    let X := map fst data in
    let y := map (fun d => inject_Z (snd d)) data in
    let model := linear_regression_fit X y in
    let prediction := linear_regression_predict model target in
    let prediction := Py.max 1 (Py.min 10 prediction) in
    mk_prediction (Py.round prediction 2) "regression" 75.

End Predict.

(* ================================================================== *)
(** ** Exceptions *)

Inductive exn :=
| KeyError (key : string)
| TypeError
| ValueError
| HTTPException (status_code : Z) (detail : string)
| LibraryError.

(** A computation that returns or raises. *)
Inductive Exc (A : Type) :=
| Ok (a : A)
| Raise (e : exn).
Arguments Ok {A} a.
Arguments Raise {A} e.

Definition bind {A B} (m : Exc A) (k : A -> Exc B) : Exc B :=
  match m with
  | Ok a => k a
  | Raise e => Raise e
  end.

Notation "x <- m ;; k" := (bind m (fun x => k))
  (at level 61, m at next level, right associativity).

(** [try: body  except Exception: handler]. *)
Definition try_except {A} (body : Exc A) (handler : exn -> Exc A) : Exc A :=
  match body with
  | Ok a => Ok a
  | Raise e => handler e
  end.

Fixpoint mapM {A B} (f : A -> Exc B) (l : list A) : Exc (list B) :=
  match l with
  | [] => Ok []
  | x :: l' => y <- f x ;; ys <- mapM f l' ;; Ok (y :: ys)
  end.

(* ================================================================== *)
(** ** database.py *)

Module Database.

(** [datetime.date]. *)
Record Date := mk_date { year : nat; month : nat; day : nat }.

Definition date_leb (a b : Date) : bool :=
  if (year a <? year b)%nat then true
  else if (year b <? year a)%nat then false
  else if (month a <? month b)%nat then true
  else if (month b <? month a)%nat then false
  else (day a <=? day b)%nat.

(** A row of table [entries], as [add_entry] stores it: every column
    filled from the validated request body. *)
Record Entry := mk_entry {
  id : Z;
  date : Date;
  sleep_hours : Q;
  mood : Z;
  productivity : Z
}.

(** A row of table [users]. *)
Record User := mk_user {
  user_id : Z;
  email : string;
  hashed_password : string;
  is_active : bool
}.

(** [pwd_context]: passlib's bcrypt context.  Hashing draws a fresh salt,
    which the embedding makes an explicit argument. *)
Class CryptContext := {
  Salt : Type;
  hash : Salt -> string -> string;
  verify : string -> string -> bool
}.

Definition hash_password {crypt : CryptContext} (salt : Salt) (password : string)
  : string := hash salt password.

Definition verify_password {crypt : CryptContext} (password hashed : string)
  : bool := verify password hashed.

(** The two tables, rows in the order an unordered query returns them. *)
Record Session := mk_session {
  entries : list Entry;
  users : list User
}.

(** [db.query(Entry).filter(Entry.id == entry_id).first()] *)
Definition first_entry_by_id (entry_id : Z) (db : Session) : option Entry :=
  find (fun e => id e =? entry_id) (entries db).

(** [db.query(User).filter(User.email == email).first()] *)
Definition first_user_by_email (em : string) (db : Session) : option User :=
  find (fun u => String.eqb (email u) em) (users db).

(** [db.delete(entry); db.commit()]: the row with that primary key goes. *)
Definition delete (e : Entry) (db : Session) : Session :=
  mk_session (filter (fun x => negb (id x =? id e)) (entries db)) (users db).

(** The next value of the autoincrement key of [users]. *)
Definition next_user_id (db : Session) : Z :=
  1 + fold_right Z.max 0 (map user_id (users db)).

(** [db.add(user); db.commit()] *)
Definition add_user (em hashed : string) (db : Session) : Session :=
  mk_session (entries db)
             (users db ++ [mk_user (next_user_id db) em hashed true]).

(** [.order_by(Entry.date)]: rows by ascending date, equal dates in table
    order. *)
Fixpoint insert_by_date (e : Entry) (l : list Entry) : list Entry :=
  match l with
  | [] => [e]
  | x :: l' =>
      if date_leb (date x) (date e) then x :: insert_by_date e l'
      else e :: x :: l'
  end.

Definition order_by_date (l : list Entry) : list Entry :=
  fold_left (fun acc e => insert_by_date e acc) l [].

Definition date_eqb (a b : Date) : bool :=
  (year a =? year b)%nat && (month a =? month b)%nat
  && (day a =? day b)%nat.

(** The next value of the integer primary key of [entries]. *)
Definition next_entry_id (db : Session) : Z :=
  1 + fold_right Z.max 0 (map id (entries db)).

(** [db.add(new_entry); db.commit(); db.refresh(new_entry)]: the stored
    row, with its key. *)
Definition add_entry_row (d : Date) (sleep : Q) (m p : Z) (db : Session)
  : Session * Entry :=
  let row := mk_entry (next_entry_id db) d sleep m p in
  (mk_session (entries db ++ [row]) (users db), row).

(** SQLite keeps an INTEGER in 64 bits; the driver refuses a larger
    Python int when the row is written. *)
Definition sqlite_integer (z : Z) : bool :=
  (- 2 ^ 63 <=? z) && (z <? 2 ^ 63).

(** [db.query(Entry).delete(); db.commit()] *)
Definition delete_entries (db : Session) : Session :=
  mk_session [] (users db).

End Database.

(* ================================================================== *)
(** ** The [csv] module, default (excel) dialect *)

Module Csv.

Definition quotechar : ascii := ascii_of_nat 34.
Definition CR : ascii := ascii_of_nat 13.
Definition LF : ascii := ascii_of_nat 10.
Definition delimiter : ascii := ","%char.

Definition lineterminator : string := String CR (String LF EmptyString).

(** QUOTE_MINIMAL: a field is quoted when it holds the delimiter, the
    quote character or a character of the line terminator. *)
Definition special (c : ascii) : bool :=
  Ascii.eqb c delimiter || Ascii.eqb c quotechar
  || Ascii.eqb c CR || Ascii.eqb c LF.

Fixpoint has_special (s : string) : bool :=
  match s with
  | EmptyString => false
  | String c s' => special c || has_special s'
  end.

(** Quote characters inside a quoted field are doubled. *)
Fixpoint double_quotes (s : string) : string :=
  match s with
  | EmptyString => EmptyString
  | String c s' =>
      if Ascii.eqb c quotechar
      then String quotechar (String quotechar (double_quotes s'))
      else String c (double_quotes s')
  end.

Definition write_field (s : string) : string :=
  if has_special s
  then String quotechar (double_quotes s ++ String quotechar EmptyString)
  else s.

Fixpoint join_fields (fields : list string) : string :=
  match fields with
  | [] => EmptyString
  | [f] => write_field f
  | f :: rest => write_field f ++ String delimiter (join_fields rest)
  end.

(** [writer.writerow(fields)]: the text appended to the output.  A row
    made of one empty field is written as a pair of quotes. *)
Definition writerow (fields : list string) : string :=
  match fields with
  | [EmptyString] =>
      String quotechar (String quotechar lineterminator)
  | _ => join_fields fields ++ lineterminator
  end.

(** The reader's automaton, on the character stream. *)
Inductive state :=
| StartRecord | StartField | InField
| InQuotedField | QuoteInQuotedField | EatCRNL.

Definition snoc (s : string) (c : ascii) : string :=
  s ++ String c EmptyString.

Definition is_newline (c : ascii) : bool := Ascii.eqb c CR || Ascii.eqb c LF.

(** [reader_go st field fields input]: [field] is the text of the current
    field so far and [fields] the fields of the current record so far. *)
Fixpoint reader_go (st : state) (field : string) (fields : list string)
    (input : string) : list (list string) :=
  match input with
  | EmptyString =>
      match st with
      | StartRecord | EatCRNL => []
      | _ => [fields ++ [field]]
      end
  | String c rest =>
      match st with
      | StartRecord | StartField =>
          if is_newline c then
            match st with
            | StartRecord => reader_go EatCRNL EmptyString [] rest
            | _ => (fields ++ [field]) :: reader_go EatCRNL EmptyString [] rest
            end
          else if Ascii.eqb c quotechar then
            reader_go InQuotedField field fields rest
          else if Ascii.eqb c delimiter then
            reader_go StartField EmptyString (fields ++ [field]) rest
          else reader_go InField (snoc field c) fields rest
      | InField =>
          if is_newline c then
            (fields ++ [field]) :: reader_go EatCRNL EmptyString [] rest
          else if Ascii.eqb c delimiter then
            reader_go StartField EmptyString (fields ++ [field]) rest
          else reader_go InField (snoc field c) fields rest
      | InQuotedField =>
          if Ascii.eqb c quotechar then
            reader_go QuoteInQuotedField field fields rest
          else reader_go InQuotedField (snoc field c) fields rest
      | QuoteInQuotedField =>
          if Ascii.eqb c quotechar then
            reader_go InQuotedField (snoc field c) fields rest
          else if Ascii.eqb c delimiter then
            reader_go StartField EmptyString (fields ++ [field]) rest
          else if is_newline c then
            (fields ++ [field]) :: reader_go EatCRNL EmptyString [] rest
          else reader_go InField (snoc field c) fields rest
      | EatCRNL =>
          if is_newline c then reader_go EatCRNL EmptyString [] rest
          else if Ascii.eqb c quotechar then
            reader_go InQuotedField EmptyString [] rest
          else if Ascii.eqb c delimiter then
            reader_go StartField EmptyString [EmptyString] rest
          else reader_go InField (String c EmptyString) [] rest
      end
  end.

(** [list(csv.reader(...))] on the exported text. *)
Definition reader (input : string) : list (list string) :=
  reader_go StartRecord EmptyString [] input.

End Csv.

(* ================================================================== *)
(** ** Library routines the endpoints call *)

(** A float that may be NaN. *)
Inductive maybe_nan :=
| Num (q : Q)
| NaN.

(** [scipy.stats.pearsonr(x, y)[0]]: the coefficient, which is NaN when
    one of the two series is constant. *)
Class Scipy := { pearsonr : list Z -> list Z -> maybe_nan }.

(** [datetime.strptime(s, "%Y-%m-%d").date()]: the date, or the message
    of the [ValueError] raised. *)
Class Datetime := { strptime_ymd : string -> Database.Date + string }.

(** [str(x)] and [float(s)] on floats, [int(s)] on strings. *)
Class FloatText := {
  float_str : Q -> string;
  float_of_str : string -> option Q;
  int_of_str : string -> option Z
}.

(** [np.mean] on a list of floats and on a list of ints: numpy's own
    summation in doubles, then the division by the count. *)
Class Numpy := {
  np_mean : list Q -> Q;
  np_mean_int : list Z -> Q
}.

(** [LinearRegression().fit(X, y).predict([[x]])[0]] with one feature:
    scikit-learn's least-squares fit, in doubles. *)
Class LinearModel := { fit_predict : list Q -> list Z -> Q -> Q }.

(* ================================================================== *)
(** ** main.py *)

Module Main.
Import Database.

(** A message, possibly with one formatted number inside (an f-string). *)
Inductive Text :=
| Plain (s : string)
| WithNumber (before : string) (x : Q) (after : string).

(** *** /ai/insights *)

Definition insights_not_enough : string :=
  "You’re just getting started. Add a few more daily entries and I’ll begin spotting meaningful patterns for you.".

Definition ai_insights (db : Session) : list Text :=
  let entries := order_by_date (entries db) in
  if (length entries <? 3)%nat then [Plain insights_not_enough]
  else
    let sleep_vals := map sleep_hours entries in
    let prod_vals := map productivity entries in
    let mood_vals := map mood entries in
    let avg_sleep := Py.round (Py.np_mean sleep_vals) 2 in
    let avg_prod := Py.round (Py.np_mean_int prod_vals) 2 in
    let avg_mood := Py.round (Py.np_mean_int mood_vals) 2 in
    let recent_sleep := Py.np_mean (Py.last_n 3 sleep_vals) in
    let recent_prod := Py.np_mean_int (Py.last_n 3 prod_vals) in
    (if Py.ltb avg_sleep 6 then
       [WithNumber "Your average sleep is around " avg_sleep
          " hours, which is below the recommended range. This could be quietly impacting your focus and energy levels."]
     else if Py.leb 7 avg_sleep then
       [WithNumber "You’re averaging about " avg_sleep
          " hours of sleep — that’s a solid foundation for sustained productivity."]
     else [])
    ++ (if Py.ltb recent_sleep avg_sleep && Py.ltb recent_prod avg_prod then
          [Plain "In the last few days, both sleep and productivity have dipped together. This pattern often appears just before burnout — it might be a good time to slow down and reset."]
        else [])
    ++ (if Py.leb 7 avg_prod then
          [Plain "Your productivity levels are consistently strong. Whatever routine you’re following lately seems to be working well — try to protect it."]
        else if Py.ltb avg_prod 5 then
          [Plain "Productivity has been on the lower side overall. Small changes like better sleep timing or short breaks could make a noticeable difference."]
        else [])
    ++ (if Py.leb 6 avg_mood && Py.leb 6 avg_prod then
          [Plain "There’s a positive link between your mood and productivity — on days you feel better mentally, you tend to perform better too."]
        else [])
    ++ [Plain "Remember: trends matter more than single days. Consistency beats perfection — keep tracking, and the patterns will become clearer over time."].

(** *** /ml/predict *)

Definition predict (sleep : Q) (db : Session) : Predict.Prediction :=
  Predict.train_and_predict
    (map (fun e => Predict.mk_entry (Some (sleep_hours e))
                                    (Some (productivity e)))
         (entries db))
    sleep.

(** *** /analysis/best-sleep-range *)

(** [buckets[k].append(p)] on the [defaultdict(list)]; keys stay in the
    order of their first use. *)
Fixpoint bucket_append (k : Q) (p : Z) (buckets : list (Q * list Z))
  : list (Q * list Z) :=
  match buckets with
  | [] => [(k, [p])]
  | (k', ps) :: rest =>
      if Qeq_bool k' k then (k', ps ++ [p]) :: rest
      else (k', ps) :: bucket_append k p rest
  end.

Definition buckets_of (entries : list Entry) : list (Q * list Z) :=
  fold_left
    (fun buckets e =>
       bucket_append (Py.round (sleep_hours e) 1) (productivity e) buckets)
    entries [].

Inductive BestSleepRange :=
| NoEntries
| Best (best_sleep_range : Q) (average_productivity : Q).

Definition best_sleep_range (db : Session) : Exc BestSleepRange :=
  let entries := entries db in
  match entries with
  | [] => Ok NoEntries
  | _ =>
      let buckets := buckets_of entries in
      match Py.max_by (fun x => Py.div_mean (snd x)) buckets with
      | None => Raise ValueError
      | Some best => Ok (Best (fst best) (Py.round (Py.div_mean (snd best)) 2))
      end
  end.

(** *** /analysis/burnout-score *)

Record BurnoutScore := mk_burnout {
  score : Z;
  level : string;
  message : string
}.

Definition burnout_score (db : Session) : BurnoutScore :=
  let entries := entries db in
  match entries with
  | [] => mk_burnout 0 "Unknown" "Not enough data"
  | _ =>
      let avg_sleep := Py.np_mean (map sleep_hours entries) in
      let avg_prod := Py.np_mean_int (map productivity entries) in
      let score :=
        Py.int (Py.max 0 (Py.min 100
                  ((10 - avg_sleep) * 8 + (10 - avg_prod) * 6)%Q)) in
      if score >? 70 then
        mk_burnout score "High"
          "You're at high risk of burnout. Consider rest and workload adjustment."
      else if score >? 40 then
        mk_burnout score "Moderate"
          "Some signs of fatigue detected. Small changes could help."
      else
        mk_burnout score "Low"
          "Burnout risk is low. You're managing things well."
  end.

(** *** /analysis/mood-productivity-correlation *)

Record Correlation := mk_correlation {
  correlation : option maybe_nan;
  strength : option string;
  corr_message : string
}.

(** [abs(corr) > t]: no comparison with NaN holds. *)
Definition abs_above (corr : maybe_nan) (t : Q) : bool :=
  match corr with
  | Num r => Py.ltb t (Qabs r)
  | NaN => false
  end.

(** [round(corr, 2)]: NaN stays NaN. *)
Definition round_corr (corr : maybe_nan) : maybe_nan :=
  match corr with
  | Num r => Num (Py.round r 2)
  | NaN => NaN
  end.

Definition correlation_not_enough : Correlation :=
  mk_correlation None None
    "Not enough data to analyze mood and productivity relationship.".

Definition mood_productivity_correlation {scipy : Scipy} (db : Session)
  : Correlation :=
  let entries := entries db in
  if (length entries <? 3)%nat then correlation_not_enough
  else
    let moods := map mood entries in
    let prods := map productivity entries in
    let corr := pearsonr moods prods in
    let strength : string :=
      (if abs_above corr (6 # 10) then "Strong"
       else if abs_above corr (3 # 10) then "Moderate"
       else "Weak")%string in
    mk_correlation (Some (round_corr corr)) (Some strength)
      (strength ++ " relationship between mood and productivity detected.")%string.

(** *** /analysis/recommendations *)

Definition recommendations_not_enough : string :=
  "Track your sleep, mood, and productivity for a few more days to unlock personalized recommendations.".

Definition rec_sleep_less : string :=
  "You’ve been sleeping less than ideal. Try going to bed 30–45 minutes earlier for the next few days and see how your energy responds.".
Definition rec_productivity_lower : string :=
  "Productivity has been lower recently. Consider breaking tasks into smaller chunks or scheduling demanding work during your most alert hours.".
Definition rec_sleep_dipped : string :=
  "Your sleep has dipped recently compared to your average. This could explain recent fatigue — prioritizing rest now may prevent burnout later.".
Definition rec_balanced : string :=
  "Your habits look balanced overall. Focus on maintaining consistency rather than pushing harder.".

Definition recommendations (db : Session) : list string :=
  let entries := order_by_date (entries db) in
  if (length entries <? 3)%nat then [recommendations_not_enough]
  else
    let avg_sleep := Py.np_mean (map sleep_hours entries) in
    let avg_prod := Py.np_mean_int (map productivity entries) in
    let recent_sleep :=
      Py.np_mean (map sleep_hours (Py.last_n 3 entries)) in
    let recs : list string :=
      (if Py.ltb avg_sleep 6 then [rec_sleep_less] else [])
      ++ (if Py.ltb avg_prod 5 then [rec_productivity_lower] else [])
      ++ (if Py.ltb recent_sleep avg_sleep then [rec_sleep_dipped] else []) in
    match recs with
    | [] => [rec_balanced]
    | _ => recs
    end.

(** *** DELETE /entries/{entry_id} *)

Definition delete_entry (entry_id : Z) (db : Session) : Session * string :=
  let db' :=
    match first_entry_by_id entry_id db with
    | Some entry => delete entry db
    | None => db
    end in
  (db', "Entry deleted"%string).

(** *** /auth/register and /auth/login *)

Definition register {crypt : CryptContext} (salt : Salt) (email password : string)
    (db : Session) : Session * Exc string :=
  match first_user_by_email email db with
  | Some _ => (db, Raise (HTTPException 400 "Email exists"))
  | None =>
      (add_user email (hash_password salt password) db,
       Ok "Registered"%string)
  end.

Record LoginSuccess := mk_login {
  login_message : string;
  login_email : string
}.

Definition login {crypt : CryptContext} (em password : string) (db : Session)
  : Exc LoginSuccess :=
  match first_user_by_email em db with
  | None => Raise (HTTPException 401 "Invalid credentials")
  | Some user =>
      if negb (verify_password password (hashed_password user))
      then Raise (HTTPException 401 "Invalid credentials")
      else Ok (mk_login "Login success" (email user))
  end.

(** *** /export/csv *)

Fixpoint zeros (n : nat) : string :=
  match n with
  | O => EmptyString
  | S n' => String "0" (zeros n')
  end.

(** [%0wd] *)
Definition zero_padded (width n : nat) : string :=
  let s := Py.str_nat n in
  (zeros (width - String.length s) ++ s)%string.

(** [str(d)] on a date: ISO format. *)
Definition date_str (d : Date) : string :=
  (zero_padded 4 (year d) ++ "-" ++ zero_padded 2 (month d) ++ "-"
   ++ zero_padded 2 (day d))%string.

Definition csv_header : list string :=
  ["Date"; "Sleep Hours"; "Mood"; "Productivity"]%string.

(** The fields of an entry's row, each through [str]. *)
Definition csv_row {text : FloatText} (e : Entry) : list string :=
  [date_str (date e); float_str (sleep_hours e);
   Py.str_int (mood e); Py.str_int (productivity e)].

(** The body of the response: the header row, then a row per entry. *)
Definition export_csv {text : FloatText} (db : Session) : string :=
  fold_left (fun output e => (output ++ Csv.writerow (csv_row e))%string)
            (entries db) (Csv.writerow csv_header).

(** *** POST /add-entry *)

(** The validated request body. *)
Record EntryCreate := mk_entry_create {
  new_date : string;
  new_sleep_hours : Q;
  new_mood : Z;
  new_productivity : Z
}.

Record EntryAdded := mk_entry_added {
  added_message : string;
  added_id : Z
}.

(** Everything happens inside [try ... except Exception as e], which
    answers 400 with [str(e)]: a date that does not parse, and a commit
    that fails because an int does not fit the column.  Nothing is stored
    then. *)
Definition add_entry {dt : Datetime} (entry : EntryCreate) (db : Session)
  : Session * Exc EntryAdded :=
  match strptime_ymd (new_date entry) with
  | inl parsed_date =>
      if sqlite_integer (new_mood entry)
         && sqlite_integer (new_productivity entry)
      then
        let '(db', new_entry) :=
          add_entry_row parsed_date (new_sleep_hours entry) (new_mood entry)
                        (new_productivity entry) db in
        (db', Ok (mk_entry_added "Entry added" (id new_entry)))
      else
        (db, Raise (HTTPException 400
                      "Python int too large to convert to SQLite INTEGER"))
  | inr e => (db, Raise (HTTPException 400 e))
  end.

(** *** GET /entries and GET /entries/by-date/{date} *)

Definition get_entries (db : Session) : list Entry :=
  order_by_date (entries db).

(** The date is parsed outside any [try]: a bad date propagates. *)
Definition get_entries_by_date {dt : Datetime} (date_text : string)
    (db : Session) : Exc (list Entry) :=
  match strptime_ymd date_text with
  | inl selected_date =>
      Ok (filter (fun e => date_eqb (date e) selected_date) (entries db))
  | inr _ => Raise ValueError
  end.

(** *** /analysis/sleep-productivity-heatmap *)

(** [heatmap[k] += 1] on the [defaultdict(int)]. *)
Fixpoint heatmap_incr (k : Z) (heatmap : list (Z * Z)) : list (Z * Z) :=
  match heatmap with
  | [] => [(k, 0 + 1)]
  | (k', v) :: rest =>
      if k' =? k then (k', v + 1) :: rest
      else (k', v) :: heatmap_incr k rest
  end.

(** Tuples compare lexicographically. *)
Definition item_leb (a b : Z * Z) : bool :=
  (fst a <? fst b) || ((fst a =? fst b) && (snd a <=? snd b)).

Fixpoint insert_item (x : Z * Z) (l : list (Z * Z)) : list (Z * Z) :=
  match l with
  | [] => [x]
  | y :: l' => if item_leb x y then x :: y :: l' else y :: insert_item x l'
  end.

(** [sorted(items)] *)
Definition sorted_items (l : list (Z * Z)) : list (Z * Z) :=
  fold_right insert_item [] l.

(** [int(round(x))] *)
Definition sleep_cell (e : Entry) : Z := Py.round_half_even (sleep_hours e).

(** The list under "data": (sleep, count) pairs. *)
Definition sleep_productivity_heatmap (db : Session) : list (Z * Z) :=
  let heatmap :=
    fold_left (fun heatmap e => heatmap_incr (sleep_cell e) heatmap)
              (entries db) [] in
  sorted_items heatmap.

(** *** /analysis/burnout *)

Inductive BurnoutAnalysis :=
| NoAnalysis
| Analysis (average_sleep average_productivity : Q) (message : string).

Definition burnout_high_risk : string :=
  "High burnout risk detected. Your body and mind may need recovery time.".
Definition burnout_sleep_deprivation : string :=
  "Sleep deprivation detected. This may affect focus and mood.".
Definition burnout_manageable : string :=
  "Burnout risk appears manageable. Keep maintaining healthy habits.".

Definition burnout_analysis (db : Session) : BurnoutAnalysis :=
  let entries := entries db in
  match entries with
  | [] => NoAnalysis
  | _ =>
      let avg_sleep := Py.np_mean (map sleep_hours entries) in
      let avg_prod := Py.np_mean_int (map productivity entries) in
      let message :=
        if Py.ltb avg_sleep 6 && Py.ltb avg_prod 5 then burnout_high_risk
        else if Py.ltb avg_sleep 6 then burnout_sleep_deprivation
        else burnout_manageable in
      Analysis (Py.round avg_sleep 2) (Py.round avg_prod 2) message
  end.

(** *** DELETE /entries *)

Definition delete_all (db : Session) : Session * string :=
  (delete_entries db, "All entries deleted"%string).

(** *** /analysis/burnout-trend *)

Record TrendPoint := mk_point {
  point_date : string;
  point_burnout_score : Z
}.

(** The score of one entry, before [min(100, int(score))]. *)
Definition trend_penalty (e : Entry) : Q :=
  let score := 0%Q in
  let score :=
    if Py.ltb (sleep_hours e) 6
    then (score + (6 - sleep_hours e) * 10)%Q else score in
  let score :=
    if productivity e <? 5
    then (score + inject_Z ((5 - productivity e) * 10))%Q else score in
  score.

(** [e.date.strftime("%Y-%m-%d")], for the four-digit years. *)
Definition strftime_ymd (d : Date) : string := date_str d.

Definition burnout_trend (db : Session) : list TrendPoint :=
  map (fun e => mk_point (strftime_ymd (date e))
                         (Z.min 100 (Py.int (trend_penalty e))))
      (order_by_date (entries db)).

(** *** /export/json *)

(** The list under "entries": date, sleep_hours, mood, productivity. *)
Definition export_json (db : Session) : list (Date * Q * Z * Z) :=
  map (fun e => (date e, sleep_hours e, mood e, productivity e))
      (entries db).

End Main.

(* ================================================================== *)
(** ** ml/predict.py and main.py in double precision *)

Module Predict64.
Import Predict.

Definition train_and_predict {np : Numpy} {lm : LinearModel}
    (entries : list entry) (sleep_hours : Q) : Prediction :=
  let data := data_of entries in
  if (length data =? 0)%nat then
    mk_prediction 5 "no-data" 20
  else if (length data <? 4)%nat then
    let avg := np_mean_int (map snd data) in
    let confidence := Z.min 60 (30 + Z.of_nat (length data) * 10) in
    mk_prediction (Binary64.round avg 2) "average" confidence
  else
    let X := map fst data in
    let y := map snd data in
    let prediction := fit_predict X y sleep_hours in
    let prediction := Py.max 1 (Py.min 10 prediction) in
    mk_prediction (Binary64.round prediction 2) "regression" 75.

End Predict64.

Module Main64.
Import Database Main.

(** *** /analysis/best-sleep-range *)

Definition buckets_of (entries : list Entry) : list (Q * list Z) :=
  fold_left
    (fun buckets e =>
       bucket_append (Binary64.round (sleep_hours e) 1) (productivity e)
                     buckets)
    entries [].

(** [sum(x[1]) / len(x[1])] *)
Definition bucket_mean (x : Q * list Z) : Q :=
  Binary64.truediv (Py.sumZ (snd x)) (Z.of_nat (length (snd x))).

Definition best_sleep_range (db : Session) : Exc BestSleepRange :=
  let entries := entries db in
  match entries with
  | [] => Ok NoEntries
  | _ =>
      let buckets := buckets_of entries in
      match Py.max_by bucket_mean buckets with
      | None => Raise ValueError
      | Some best => Ok (Best (fst best) (Binary64.round (bucket_mean best) 2))
      end
  end.

(** *** /analysis/burnout-score *)

Definition burnout_score {np : Numpy} (db : Session) : BurnoutScore :=
  let entries := entries db in
  match entries with
  | [] => mk_burnout 0 "Unknown" "Not enough data"
  | _ =>
      let avg_sleep := np_mean (map sleep_hours entries) in
      let avg_prod := np_mean_int (map productivity entries) in
      let score :=
        Py.int (Py.max 0 (Py.min 100
                  (Binary64.add (Binary64.mul (Binary64.sub 10 avg_sleep) 8)
                                (Binary64.mul (Binary64.sub 10 avg_prod) 6)))) in
      if score >? 70 then
        mk_burnout score "High"
          "You're at high risk of burnout. Consider rest and workload adjustment."
      else if score >? 40 then
        mk_burnout score "Moderate"
          "Some signs of fatigue detected. Small changes could help."
      else
        mk_burnout score "Low"
          "Burnout risk is low. You're managing things well."
  end.

(** *** /analysis/burnout-trend *)

(** The running [score]: the int 0 until a float is added to it. *)
Inductive number :=
| Int (z : Z)
| Float (x : Q).

(** [score += x] with a float and with an int. *)
Definition plus_float (score : number) (x : Q) : number :=
  match score with
  | Int z => Float (Binary64.add (Binary64.of_int z) x)
  | Float y => Float (Binary64.add y x)
  end.

Definition plus_int (score : number) (k : Z) : number :=
  match score with
  | Int z => Int (z + k)
  | Float y => Float (Binary64.add y (Binary64.of_int k))
  end.

(** [int(score)] *)
Definition int (score : number) : Z :=
  match score with
  | Int z => z
  | Float x => Py.int x
  end.

(** The score of one entry, before [min(100, int(score))]. *)
Definition trend_penalty (e : Entry) : number :=
  let score := Int 0 in
  let score :=
    if Py.ltb (sleep_hours e) 6
    then plus_float score (Binary64.mul (Binary64.sub 6 (sleep_hours e)) 10)
    else score in
  let score :=
    if productivity e <? 5
    then plus_int score ((5 - productivity e) * 10)
    else score in
  score.

Definition burnout_trend (db : Session) : list TrendPoint :=
  map (fun e => mk_point (strftime_ymd (date e))
                         (Z.min 100 (int (trend_penalty e))))
      (order_by_date (entries db)).

End Main64.

(* ================================================================== *)
(** ** Dynamically typed payloads *)

(** The Python values the clustering helpers receive and return: the
    payloads are plain dicts and lists, with no declared type. *)
Inductive value :=
| VNone
| VInt (z : Z)
| VFloat (q : Q)
| VStr (s : string)
| VList (l : list value)
| VDict (d : list (string * value)).

Definition dict := list (string * value).

(** [d.get(k)] *)
Fixpoint dict_get (d : dict) (k : string) : option value :=
  match d with
  | [] => None
  | (k', v) :: rest => if String.eqb k' k then Some v else dict_get rest k
  end.

(** [v[k]] with a string key. *)
Definition subscript (v : value) (k : string) : Exc value :=
  match v with
  | VDict d =>
      match dict_get d k with
      | Some x => Ok x
      | None => Raise (KeyError k)
      end
  | _ => Raise TypeError
  end.

(** [float(v)] and [int(v)]. *)
Definition py_float {text : FloatText} (v : value) : Exc Q :=
  match v with
  | VInt z => Ok (inject_Z z)
  | VFloat q => Ok q
  | VStr s =>
      match float_of_str s with
      | Some q => Ok q
      | None => Raise ValueError
      end
  | _ => Raise TypeError
  end.

Definition py_int {text : FloatText} (v : value) : Exc Z :=
  match v with
  | VInt z => Ok z
  | VFloat q => Ok (Py.int q)
  | VStr s =>
      match int_of_str s with
      | Some z => Ok z
      | None => Raise ValueError
      end
  | _ => Raise TypeError
  end.

(** [len(v)] *)
Definition py_len (v : value) : Exc nat :=
  match v with
  | VStr s => Ok (String.length s)
  | VList l => Ok (length l)
  | VDict d => Ok (length d)
  | _ => Raise TypeError
  end.

(** The items [for x in v] visits. *)
Definition py_iter (v : value) : Exc (list value) :=
  match v with
  | VStr s => Ok (map (fun c => VStr (String c EmptyString))
                      (list_ascii_of_string s))
  | VList l => Ok l
  | VDict d => Ok (map (fun kv => VStr (fst kv)) d)
  | _ => Raise TypeError
  end.

Fixpoint foldM {A B} (f : B -> A -> Exc B) (l : list A) (acc : B) : Exc B :=
  match l with
  | [] => Ok acc
  | x :: l' => acc' <- f acc x ;; foldM f l' acc'
  end.

(* ================================================================== *)
(** ** ml/clustering.py *)

(** [KMeans(n_clusters=2, random_state=42, n_init=10).fit_predict(X)]:
    the labels, or an exception. *)
Class Sklearn := { kmeans_fit_predict : list (list Q) -> Exc (list Z) }.

(** [print(...)] of the diagnostic for an exception: it returns, or it
    raises when the output stream cannot take the text. *)
Class Stdout := { print : exn -> Exc unit }.

Module Clustering.

Definition feature_row {text : FloatText} (d : value) : Exc (list Q) :=
  s <- (x <- subscript d "sleep_hours" ;; py_float x) ;;
  m <- (x <- subscript d "mood" ;; py_float x) ;;
  p <- (x <- subscript d "productivity" ;; py_float x) ;;
  Ok [s; m; p].

(** [clusters.setdefault(key, []).append(item)] *)
Fixpoint setdefault_append (key : string) (item : value)
    (clusters : list (string * list value)) : list (string * list value) :=
  match clusters with
  | [] => [(key, [item])]
  | (k, items) :: rest =>
      if String.eqb k key then (k, items ++ [item]) :: rest
      else (k, items) :: setdefault_append key item rest
  end.

(** One turn of the loop over [zip(labels, data)]. *)
Definition add_day {text : FloatText} (clusters : list (string * list value))
    (labelled : Z * value) : Exc (list (string * list value)) :=
  let label := fst labelled in
  let day := snd labelled in
  s <- (x <- subscript day "sleep_hours" ;; py_float x) ;;
  m <- (x <- subscript day "mood" ;; py_int x) ;;
  p <- (x <- subscript day "productivity" ;; py_int x) ;;
  Ok (setdefault_append (Py.str_int label)
        (VDict [("sleep_hours"%string, VFloat s); ("mood"%string, VInt m);
                ("productivity"%string, VInt p)])
        clusters).

(** The body of the [try]. *)
Definition cluster_days_try {text : FloatText} {sklearn : Sklearn} (data : list value)
  : Exc (list (string * list value)) :=
  X <- mapM feature_row data ;;
  labels <- kmeans_fit_predict X ;;
  foldM add_day (combine labels data) [].

Definition clusters_value (clusters : list (string * list value)) : value :=
  VDict (map (fun kv => (fst kv, VList (snd kv))) clusters).

(** [cluster_days] on a list, whose items may be any value, when the
    handler's [print] returns. *)
Definition cluster_days {text : FloatText} {sklearn : Sklearn} (data : list value)
  : Exc value :=
  if match data with [] => true | _ => false end
     || (length data <? 3)%nat
  then Ok (VDict [])
  else
    try_except
      (clusters <- cluster_days_try data ;; Ok (clusters_value clusters))
      (fun e => Ok (VDict [])).

(** [bool(v)], as [not data] reads it. *)
Definition truthy (v : value) : bool :=
  match v with
  | VNone => false
  | VInt z => negb (z =? 0)
  | VFloat q => negb (Qeq_bool q 0)
  | VStr EmptyString => false
  | VStr _ => true
  | VList [] => false
  | VList _ => true
  | VDict [] => false
  | VDict _ => true
  end.

(** The body of the [try], on whatever [data] is. *)
Definition cluster_days_body {text : FloatText} {sklearn : Sklearn}
    (data : value) : Exc value :=
  days <- py_iter data ;;
  clusters <- cluster_days_try days ;;
  Ok (clusters_value clusters).

(** [cluster_days(data)] on any Python value: the guard, with its call
    of [len], comes before the [try]; the handler prints before it
    returns. *)
Definition cluster_days_untyped {text : FloatText} {sklearn : Sklearn}
    {out : Stdout} (data : value) : Exc value :=
  if negb (truthy data) then Ok (VDict [])
  else
    n <- py_len data ;;
    if (n <? 3)%nat then Ok (VDict [])
    else
      try_except (cluster_days_body data)
                 (fun e => _ <- print e ;; Ok (VDict [])).

End Clustering.

(* ================================================================== *)
(** ** services/ai_insights.py *)

Module AiInsights.

Definition not_enough : string := "Not enough data to generate insights.".

(** Which [return] statement produced the result. *)
Inductive Explained :=
| Message (v : value)          (* Case 1: [clustered_data.get(...)] *)
| NotEnough                    (* Case 2: the fixed string *)
| Insights (l : list string).  (* the per-cluster sentences *)

(** The Python value returned. *)
Definition returned (r : Explained) : value :=
  match r with
  | Message v => v
  | NotEnough => VStr not_enough
  | Insights l => VList (map VStr l)
  end.

(** Keys of [cluster_summary]: hashable values, compared as Python does. *)
Definition key_eqb (a b : value) : bool :=
  match a, b with
  | VNone, VNone => true
  | VInt x, VInt y => x =? y
  | VInt x, VFloat q | VFloat q, VInt x => Qeq_bool (inject_Z x) q
  | VFloat p, VFloat q => Qeq_bool p q
  | VStr s, VStr t => String.eqb s t
  | _, _ => false
  end.

Definition hashable (v : value) : bool :=
  match v with
  | VList _ | VDict _ => false
  | _ => true
  end.

Definition summary := list (value * (list value * list value)).

(** [cluster_summary.setdefault(c, {"sleep": [], "productivity": []})] *)
Fixpoint summary_setdefault (c : value) (s : summary) : summary :=
  match s with
  | [] => [(c, ([], []))]
  | (k, v) :: rest =>
      if key_eqb k c then s else (k, v) :: summary_setdefault c rest
  end.

Fixpoint summary_append_sleep (c x : value) (s : summary) : summary :=
  match s with
  | [] => []
  | (k, (sl, pr)) :: rest =>
      if key_eqb k c then (k, (sl ++ [x], pr)) :: rest
      else (k, (sl, pr)) :: summary_append_sleep c x rest
  end.

Fixpoint summary_append_productivity (c x : value) (s : summary) : summary :=
  match s with
  | [] => []
  | (k, (sl, pr)) :: rest =>
      if key_eqb k c then (k, (sl, pr ++ [x])) :: rest
      else (k, (sl, pr)) :: summary_append_productivity c x rest
  end.

(** One turn of the first loop. *)
Definition summarise (s : summary) (day : value) : Exc summary :=
  c <- subscript day "cluster" ;;
  if negb (hashable c) then Raise TypeError
  else
    let s := summary_setdefault c s in
    sl <- subscript day "sleep_hours" ;;
    let s := summary_append_sleep c sl s in
    pr <- subscript day "productivity" ;;
    Ok (summary_append_productivity c pr s).

(** [sum(l)] on a list of values. *)
Fixpoint py_sum (l : list value) : Exc Q :=
  match l with
  | [] => Ok 0%Q
  | VInt z :: l' => r <- py_sum l' ;; Ok (inject_Z z + r)%Q
  | VFloat q :: l' => r <- py_sum l' ;; Ok (q + r)%Q
  | _ :: _ => Raise TypeError
  end.

(** [f"{c}"] *)
Definition format_key {text : FloatText} (c : value) : string :=
  match c with
  | VNone => "None"
  | VInt z => Py.str_int z
  | VFloat q => float_str q
  | VStr s => s
  | _ => EmptyString
  end.

(** One turn of the second loop. *)
Definition narrate {text : FloatText} (item : value * (list value * list value))
  : Exc string :=
  let c := fst item in
  total_sleep <- py_sum (fst (snd item)) ;;
  let avg_sleep := (total_sleep / Py.lenQ (fst (snd item)))%Q in
  total_prod <- py_sum (snd (snd item)) ;;
  if Py.ltb avg_sleep 6 then
    Ok ("Cluster " ++ format_key c
        ++ ": These are low-energy days. Low sleep is linked to lower productivity.")%string
  else
    Ok ("Cluster " ++ format_key c
        ++ ": These are high-performance days. Good sleep supports better productivity.")%string.

Definition explain_clusters {text : FloatText} (clustered_data : value)
  : Exc Explained :=
  match clustered_data with
  | VDict d =>
      Ok (Message (match dict_get d "message" with
                   | Some v => v
                   | None => VStr not_enough
                   end))
  | _ =>
      n <- py_len clustered_data ;;
      if (n <? 2)%nat then Ok NotEnough
      else
        days <- py_iter clustered_data ;;
        cluster_summary <- foldM summarise days [] ;;
        insights <- mapM narrate cluster_summary ;;
        Ok (Insights insights)
  end.

End AiInsights.

(* ================================================================== *)
(** ** Vocabulary of the statements *)

(** The value is a [str]. *)
Definition is_str (v : value) : bool :=
  match v with
  | VStr _ => true
  | _ => false
  end.

(** What a call returned, when it did. *)
Definition result_value (r : Exc AiInsights.Explained) : option value :=
  match r with
  | Ok x => Some (AiInsights.returned x)
  | Raise _ => None
  end.

(** Every character of the string satisfies [p]. *)
Fixpoint all_chars (p : ascii -> bool) (s : string) : bool :=
  match s with
  | EmptyString => true
  | String c s' => p c && all_chars p s'
  end.

(** The text needs no quoting in a CSV row. *)
Definition plain (s : string) : bool :=
  all_chars (fun c => negb (Csv.special c)) s.

Definition is_digit (c : ascii) : bool :=
  match DecimalString.uint_of_char c (Some Decimal.Nil) with
  | Some _ => true
  | None => false
  end.

(** The texts one after the other. *)
Definition concat_text (l : list string) : string :=
  fold_right String.append EmptyString l.

(** The pieces of [s] between the occurrences of [c]. *)
Fixpoint split_on (c : ascii) (s : string) : list string :=
  match s with
  | EmptyString => [EmptyString]
  | String a s' =>
      if Ascii.eqb a c then EmptyString :: split_on c s'
      else
        match split_on c s' with
        | [] => [String a EmptyString]
        | piece :: pieces => String a piece :: pieces
        end
  end.

(** Reading back the text of a natural number, of an int and of a date. *)
Definition parse_nat (s : string) : option nat :=
  option_map Nat.of_uint (DecimalString.NilZero.uint_of_string s).

Definition parse_int (s : string) : option Z :=
  option_map Z.of_int (DecimalString.NilZero.int_of_string s).

Definition parse_date (s : string) : option Database.Date :=
  match split_on "-" s with
  | [y; m; d] =>
      match parse_nat y, parse_nat m, parse_nat d with
      | Some y', Some m', Some d' => Some (Database.mk_date y' m' d')
      | _, _, _ => None
      end
  | _ => None
  end.

(** The (date, sleep_hours, mood, productivity) tuple of an entry. *)
Definition entry_tuple (e : Database.Entry) : Database.Date * Q * Z * Z :=
  (Database.date e, Database.sleep_hours e, Database.mood e,
   Database.productivity e).

(** Reading a data row of the export back into a tuple. *)
Definition parse_row {text : FloatText} (fields : list string)
  : option (Database.Date * Q * Z * Z) :=
  match fields with
  | [d; s; m; p] =>
      match parse_date d, float_of_str s, parse_int m, parse_int p with
      | Some d', Some s', Some m', Some p' => Some (d', s', m', p')
      | _, _, _, _ => None
      end
  | _ => None
  end.

(** The float of the entry prints to plain text that reads back. *)
Definition float_text_ok {text : FloatText} (e : Database.Entry) : Prop :=
  plain (float_str (Database.sleep_hours e)) = true
  /\ float_of_str (float_str (Database.sleep_hours e))
     = Some (Database.sleep_hours e).

(** The bucket of an entry: its sleep hours rounded to one decimal. *)
Definition sleep_bucket (e : Database.Entry) : Q :=
  Py.round (Database.sleep_hours e) 1.

(** The productivity values of the entries of bucket [k], in order. *)
Definition bucket_members (k : Q) (entries : list Database.Entry) : list Z :=
  map Database.productivity
      (filter (fun e => Qeq_bool (sleep_bucket e) k) entries).

(** The distinct keys of a list, each at its first occurrence. *)
Fixpoint first_occurrences (seen keys : list Q) : list Q :=
  match keys with
  | [] => []
  | k :: rest =>
      if existsb (Qeq_bool k) seen then first_occurrences seen rest
      else k :: first_occurrences (k :: seen) rest
  end.

(** Keys pairwise different, as the dict keeps them. *)
Inductive distinct : list Q -> Prop :=
| distinct_nil : distinct []
| distinct_cons k ks :
    existsb (Qeq_bool k) ks = false -> distinct ks -> distinct (k :: ks).

(** The entries grouped by bucket, buckets in first-encountered order. *)
Definition grouped (entries : list Database.Entry) : list (Q * list Z) :=
  map (fun k => (k, bucket_members k entries))
      (first_occurrences [] (map sleep_bucket entries)).

(** The same with any key in place of the bucket. *)
Definition members_by (key : Database.Entry -> Q) (k : Q)
    (entries : list Database.Entry) : list Z :=
  map Database.productivity
      (filter (fun e => Qeq_bool (key e) k) entries).

Definition grouped_by (key : Database.Entry -> Q)
    (entries : list Database.Entry) : list (Q * list Z) :=
  map (fun k => (k, members_by key k entries))
      (first_occurrences [] (map key entries)).

(** The mean of a list of ints as a double: [sum(l) / len(l)]. *)
Definition mean64 (l : list Z) : Q :=
  Binary64.rnd (inject_Z (Py.sumZ l) / inject_Z (Z.of_nat (length l))).

(** The bucket of an entry in double precision. *)
Definition sleep_bucket64 (e : Database.Entry) : Q :=
  Binary64.round (Database.sleep_hours e) 1.

(** [clamp(lo, hi, x)] as the specification writes it. *)
Definition clamp (lo hi x : Q) : Q :=
  if Qlt_le_dec x lo then lo else if Qlt_le_dec hi x then hi else x.

(** The averages over all entries. *)
Definition avg_sleep (db : Database.Session) : Q :=
  (Py.sumQ (map Database.sleep_hours (Database.entries db))
   / Py.lenQ (Database.entries db))%Q.

Definition avg_productivity (db : Database.Session) : Q :=
  (inject_Z (Py.sumZ (map Database.productivity (Database.entries db)))
   / Py.lenQ (Database.entries db))%Q.

(** The burnout formula before clamping. *)
Definition burnout_raw (db : Database.Session) : Q :=
  ((10 - avg_sleep db) * 8 + (10 - avg_productivity db) * 6)%Q.

(** The burnout formula in double precision, before clamping. *)
Definition burnout_formula64 (avg_sleep avg_productivity : Q) : Q :=
  Binary64.add (Binary64.mul (Binary64.sub 10 avg_sleep) 8)
               (Binary64.mul (Binary64.sub 10 avg_productivity) 6).

(** The score of a trend point. *)
Definition trend_score64 (e : Database.Entry) : Z :=
  Z.min 100 (Main64.int (Main64.trend_penalty e)).

(** The number a running score stands for. *)
Definition value_of (score : Main64.number) : Q :=
  match score with
  | Main64.Int z => inject_Z z
  | Main64.Float x => x
  end.

(** The sleep penalty [(6 - sleep) * 10], in doubles. *)
Definition sleep_penalty (e : Database.Entry) : Q :=
  Binary64.mul (Binary64.sub 6 (Database.sleep_hours e)) 10.

(** Every key of the dict [cluster_days] builds is a printed label. *)
Definition label_keys (clusters : list (string * list value)) : Prop :=
  Forall (fun kv => exists z, fst kv = Py.str_int z) clusters.

(** Entry [a] is dated no later than entry [b]. *)
Definition by_date (a b : Database.Entry) : Prop :=
  Database.date_leb (Database.date a) (Database.date b) = true.

(** The entries carry pairwise different keys. *)
Definition unique_ids (db : Database.Session) : Prop :=
  NoDup (map Database.id (Database.entries db)).

(** The users carry pairwise different emails. *)
Definition unique_emails (db : Database.Session) : Prop :=
  NoDup (map Database.email (Database.users db)).

(** How many entries fall in cell [k] of the heatmap. *)
Definition cell_count (k : Z) (entries : list Database.Entry) : Z :=
  Z.of_nat (length (filter (fun e => Main.sleep_cell e =? k) entries)).

(** [heatmap[k]], 0 when the key is absent. *)
Fixpoint heatmap_get (k : Z) (heatmap : list (Z * Z)) : Z :=
  match heatmap with
  | [] => 0
  | (k', v) :: rest => if k' =? k then v else heatmap_get k rest
  end.

(** Keys in strictly increasing order. *)
Definition key_lt (a b : Z * Z) : Prop := fst a < fst b.

(** The closing insight. *)
Definition insights_closing : string :=
  "Remember: trends matter more than single days. Consistency beats perfection — keep tracking, and the patterns will become clearer over time.".

(** The value is a number. *)
Definition is_number (v : value) : bool :=
  match v with
  | VInt _ | VFloat _ => true
  | _ => false
  end.

(** A day the narrator can read: a dict with a hashable "cluster" and
    numeric "sleep_hours" and "productivity". *)
Definition narratable (day : value) : bool :=
  match day with
  | VDict d =>
      match dict_get d "cluster", dict_get d "sleep_hours",
            dict_get d "productivity" with
      | Some c, Some s, Some p =>
          AiInsights.hashable c && is_number s && is_number p
      | _, _, _ => false
      end
  | _ => false
  end.

(** The number of records over all clusters. *)
Definition total_size (clusters : list (string * list value)) : nat :=
  fold_right (fun kv n => (length (snd kv) + n)%nat) 0%nat clusters.

(** A record as [cluster_days] stores it: exactly the three keys. *)
Definition stored_record (v : value) : Prop :=
  exists s m p,
    v = VDict [("sleep_hours"%string, VFloat s); ("mood"%string, VInt m);
               ("productivity"%string, VInt p)].

(* ================================================================== *)
(** ** Sample data used by the worked examples *)

Module Sample.
Import Database.

Definition day1 : Date := mk_date 2024 1 5.
Definition day2 : Date := mk_date 2024 1 6.
Definition day3 : Date := mk_date 2024 1 7.

Definition e1 : Entry := mk_entry 1 day1 (15 # 2) 6 5.
Definition e2 : Entry := mk_entry 2 day2 8 7 5.
Definition e3 : Entry := mk_entry 3 day3 (15 # 2) 5 6.
Definition e4 : Entry := mk_entry 4 day3 8 8 5.

(** A context that stores the password behind its salt. *)
#[global] Instance plain_crypt : CryptContext := {
  Salt := string;
  hash := fun salt password => (salt ++ "$" ++ password)%string;
  verify := fun password hashed =>
    match index 0 "$" hashed with
    | Some n =>
        String.eqb password
          (substring (S n) (String.length hashed - S n) hashed)
    | None => false
    end
}.

Definition alice : User := mk_user 1 "alice@example.org" "pepper$secret" true.

Definition db0 : Session := mk_session [e1; e2] [alice].

(** Four days of 8 hours, productivity 5, 5, 5 and 6. *)
Definition db_quarter : Session :=
  mk_session [mk_entry 1 day1 8 5 5; mk_entry 2 day2 8 5 5;
              mk_entry 3 day3 8 5 5; mk_entry 4 day3 8 5 6] [].

(** Buckets 7.5 (mean 5.5), 8.0 (mean 6) and 6.1 (mean 6): the first of
    the two best is 8.0. *)
Definition db_buckets : Session :=
  mk_session [mk_entry 1 day1 (15 # 2) 6 5; mk_entry 2 day2 8 7 6;
              mk_entry 3 day3 (749 # 100) 5 6;
              mk_entry 4 day3 (609 # 100) 8 6] [].

(** Two short nights with low productivity. *)
Definition db_tired : Session :=
  mk_session [mk_entry 1 day1 4 3 2; mk_entry 2 day2 5 4 3] [].

(** Three short nights. *)
Definition db_tired' : Session :=
  mk_session [mk_entry 1 day1 4 3 2; mk_entry 2 day2 5 4 3;
              mk_entry 3 day3 (9 # 2) 4 4] [].

(** Good nights first, then three short ones. *)
Definition db_dip : Session :=
  mk_session [mk_entry 1 day1 9 7 7; mk_entry 2 day1 9 7 7;
              mk_entry 3 day2 7 6 6; mk_entry 4 day2 7 6 6;
              mk_entry 5 day3 7 6 6] [].

(** Histories for the predictor. *)
Definition obs (s : Q) (p : Z) : Predict.entry :=
  Predict.mk_entry (Some s) (Some p).

Definition two_pairs : list Predict.entry :=
  [obs 7 4; Predict.mk_entry None (Some 9); obs 8 6].

Definition on_a_line : list Predict.entry :=
  [obs 0 1; obs 1 2; obs 2 3; obs 3 4].

(** The text of the floats that occur in the samples. *)
#[global] Instance sample_text : FloatText := {
  float_str := fun q =>
    if Qeq_bool q (15 # 2) then "7.5"%string
    else if Qeq_bool q 8 then "8.0"%string
    else "nan"%string;
  float_of_str := fun s =>
    if String.eqb s "7.5" then Some (15 # 2)%Q
    else if String.eqb s "8.0" then Some 8%Q
    else None;
  int_of_str := fun s =>
    option_map Z.of_int (DecimalString.NilZero.int_of_string s)
}.

(** A k-means that puts the days with less than 6 hours of sleep under
    label 0 and the others under label 1. *)
#[global] Instance threshold_kmeans : Sklearn := {
  kmeans_fit_predict := fun X =>
    Ok (map (fun row => if Py.ltb (hd 0%Q row) 6 then 0 else 1) X)
}.

Definition day_dict (s : Q) (m p : Z) : value :=
  VDict [("sleep_hours"%string, VFloat s); ("mood"%string, VInt m);
         ("productivity"%string, VInt p)].

Definition three_days : list value :=
  [day_dict 5 4 3; day_dict 8 7 8; day_dict (15 # 2) 6 7].

(** A date parser for the sample dates. *)
#[global] Instance sample_datetime : Datetime := {
  strptime_ymd := fun s =>
    if String.eqb s "2024-01-05" then inl day1
    else if String.eqb s "2024-01-06" then inl day2
    else if String.eqb s "2024-01-07" then inl day3
    else inr "time data does not match format '%Y-%m-%d'"%string
}.

(** numpy on a short list (fewer than eight items): the items are added
    one after the other, in doubles, and the sum is divided by the
    count. *)
Definition mean_in_order (l : list Q) : Q :=
  Binary64.div (fold_left Binary64.add l 0%Q)
               (Binary64.of_int (Z.of_nat (length l))).

#[global] Instance in_order : Numpy := {
  np_mean := mean_in_order;
  np_mean_int := fun l => mean_in_order (map Binary64.of_int l)
}.

(** A least-squares line by the centred normal equations, in doubles. *)
#[global] Instance normal_equations : LinearModel := {
  fit_predict := fun xs ys x =>
    let ys := map Binary64.of_int ys in
    let mx := mean_in_order xs in
    let my := mean_in_order ys in
    let sxx :=
      fold_left (fun acc a =>
                   Binary64.add acc (Binary64.mul (Binary64.sub a mx)
                                                  (Binary64.sub a mx)))
                xs 0%Q in
    let sxy :=
      fold_left (fun acc ab =>
                   Binary64.add acc (Binary64.mul (Binary64.sub (fst ab) mx)
                                                  (Binary64.sub (snd ab) my)))
                (combine xs ys) 0%Q in
    let coef := if Qeq_bool sxx 0 then 0%Q else Binary64.div sxy sxx in
    let intercept := Binary64.sub my (Binary64.mul coef mx) in
    Binary64.add (Binary64.mul coef x) intercept
}.

(** A standard output that takes any text, and one that cannot encode
    the diagnostic (the UnicodeEncodeError it raises is a ValueError). *)
#[global] Instance utf8_stdout : Stdout := { print := fun _ => Ok tt }.

Definition ascii_stdout : Stdout := {| print := fun _ => Raise ValueError |}.

(** An entry whose sleep is given as a decimal literal. *)
Definition night (i : Z) (d : Date) (sleep : Q) (m p : Z) : Entry :=
  mk_entry i d (Binary64.literal sleep) m p.

(** The same four rows in two orders: their sleep averages to exactly 6
    hours, and to 5.999999999999999 and 6.000000000000002 in doubles. *)
Definition db_rows : Session :=
  mk_session [night 1 day1 (63 # 10) 5 10; night 2 day1 (99 # 10) 5 10;
              night 3 day2 (41 # 10) 5 1; night 4 day3 (37 # 10) 5 5] [].

Definition db_rows' : Session :=
  mk_session [night 2 day1 (99 # 10) 5 10; night 4 day3 (37 # 10) 5 5;
              night 3 day2 (41 # 10) 5 1; night 1 day1 (63 # 10) 5 10] [].

(** Buckets 7.5 (productivities 5 and 6), 8.0 (6) and 6.3 (6): 6.35 is
    the double just below it and rounds down. *)
Definition db_buckets64 : Session :=
  mk_session [night 1 day1 (75 # 10) 6 5; night 2 day2 8 7 6;
              night 3 day3 (635 # 100) 5 6; night 4 day3 (749 # 100) 8 6] [].

(** Entries stored out of date order. *)
Definition db_unordered : Session :=
  mk_session [mk_entry 1 day3 (9 # 2) 5 3; mk_entry 2 day1 8 7 8;
              mk_entry 5 day2 (13 # 2) 6 4] [alice].

Definition cluster_day (c : Z) (s : Q) (p : Z) : value :=
  VDict [("cluster"%string, VInt c); ("sleep_hours"%string, VFloat s);
         ("productivity"%string, VInt p)].

(** A record whose mood cannot be read as a number. *)
Definition broken_days : list value :=
  [day_dict 5 4 3; day_dict 8 7 8;
   VDict [("sleep_hours"%string, VFloat 7); ("mood"%string, VNone);
          ("productivity"%string, VInt 7)]].

End Sample.

(* ================================================================== *)
(** ** Properties *)

Section Lists.
Import Database.

Lemma insert_by_date_length e l :
  length (insert_by_date e l) = S (length l).
Proof.
  induction l as [|x l IH]; simpl; [reflexivity|].
  destruct (date_leb (date x) (date e)); simpl; [now rewrite IH|reflexivity].
Qed.

Lemma order_by_date_length l : length (order_by_date l) = length l.
Proof.
  unfold order_by_date.
  assert (G : forall acc, length (fold_left (fun a e => insert_by_date e a) l acc)
                          = (length l + length acc)%nat).
  { induction l as [|x l IH]; intros acc; simpl; [reflexivity|].
    rewrite IH, insert_by_date_length. lia. }
  rewrite G. simpl. lia.
Qed.

End Lists.

Section ShortHistory.
Import Database Main.
Context {scipy : Scipy}.

(** C4. With fewer than 3 entries, /ai/insights, /analysis/recommendations
    and /analysis/mood-productivity-correlation return their fixed
    responses: one fixed insight, one fixed recommendation, and a null
    correlation with a fixed message.  Two stores with fewer than 3
    entries each get the same responses, whatever the entries hold. *)
Theorem short_history_fixed_responses (db db' : Session) :
  (length (entries db) < 3)%nat ->
  (length (entries db') < 3)%nat ->
  ai_insights db = [Plain insights_not_enough]
  /\ recommendations db = [recommendations_not_enough]
  /\ mood_productivity_correlation db = correlation_not_enough
  /\ correlation correlation_not_enough = None
  /\ ai_insights db = ai_insights db'
  /\ recommendations db = recommendations db'
  /\ mood_productivity_correlation db = mood_productivity_correlation db'.
Proof.
  intros Hn Hn'.
  assert (A : forall d, (length (entries d) < 3)%nat ->
            ai_insights d = [Plain insights_not_enough]).
  { intros d Hd. unfold ai_insights. rewrite order_by_date_length.
    apply Nat.ltb_lt in Hd. now rewrite Hd. }
  assert (B : forall d, (length (entries d) < 3)%nat ->
            recommendations d = [recommendations_not_enough]).
  { intros d Hd. unfold recommendations. rewrite order_by_date_length.
    apply Nat.ltb_lt in Hd. now rewrite Hd. }
  assert (C : forall d, (length (entries d) < 3)%nat ->
            mood_productivity_correlation d = correlation_not_enough).
  { intros d Hd. unfold mood_productivity_correlation.
    apply Nat.ltb_lt in Hd. now rewrite Hd. }
  rewrite !A, !B, !C by assumption. repeat split; reflexivity.
Qed.

End ShortHistory.

Lemma short_history_fixed_responses_witness :
  Main.ai_insights Sample.db0 = [Main.Plain Main.insights_not_enough]
  /\ Main.recommendations Sample.db0 = [Main.recommendations_not_enough].
Proof.
  pose proof (short_history_fixed_responses
                (scipy := Build_Scipy (fun _ _ => Num 0))
                Sample.db0 (Database.mk_session [Sample.e3] [])) as W.
  destruct W as (A & B & _); [simpl; lia | simpl; lia |].
  split; assumption.
Defined.

Section Delete.
Import Database Main.


End Delete.


Section Auth.
Import Database Main.
Context {crypt : CryptContext}.

Lemma first_user_by_email_none em db :
  (forall u, In u (users db) -> email u <> em) ->
  first_user_by_email em db = None.
Proof.
  intros Habs. unfold first_user_by_email.
  destruct (find _ (users db)) as [u|] eqn:F; [|reflexivity].
  apply find_some in F. destruct F as [Hin Heq].
  apply String.eqb_eq in Heq. now apply Habs in Hin.
Qed.

Lemma first_user_by_email_some em db :
  (exists u, In u (users db) /\ email u = em) ->
  exists u, first_user_by_email em db = Some u
            /\ In u (users db) /\ email u = em.
Proof.
  intros [u [Hin Hem]]. unfold first_user_by_email.
  destruct (find _ (users db)) as [v|] eqn:F.
  - exists v. apply find_some in F. destruct F as [Hv Heq].
    apply String.eqb_eq in Heq. auto.
  - apply (find_none _ _ F) in Hin. rewrite Hem, String.eqb_refl in Hin.
    discriminate.
Qed.

Lemma first_user_after_add em hashed db :
  first_user_by_email em db = None ->
  first_user_by_email em (add_user em hashed db)
  = Some (mk_user (next_user_id db) em hashed true).
Proof.
  unfold first_user_by_email, add_user. simpl.
  induction (users db) as [|u us IH]; simpl.
  - now rewrite String.eqb_refl.
  - destruct (String.eqb (email u) em); [discriminate|]. exact IH.
Qed.

(** C9. Registering an email the store already has raises the
    "Email exists" error (status 400) and leaves the store as it was.
    Logging in with an email the store does not have, or with a password
    that does not verify against the stored hash, raises the
    "Invalid credentials" error (status 401).  Logging in with a password
    that verifies returns the email; in particular, when hashes verify
    against their own password, logging in after registering with the same
    password returns the registered email. *)
Theorem register_login_outcomes (db : Session) (em password : string) :
  (forall salt,
      (exists u, In u (users db) /\ email u = em) ->
      register salt em password db
      = (db, Raise (HTTPException 400 "Email exists")))
  /\ ((forall u, In u (users db) -> email u <> em) ->
      login em password db = Raise (HTTPException 401 "Invalid credentials"))
  /\ (forall u,
      first_user_by_email em db = Some u ->
      verify_password password (hashed_password u) = false ->
      login em password db = Raise (HTTPException 401 "Invalid credentials"))
  /\ (forall u,
      first_user_by_email em db = Some u ->
      verify_password password (hashed_password u) = true ->
      login em password db = Ok (mk_login "Login success" em))
  /\ (forall salt,
      (forall u, In u (users db) -> email u <> em) ->
      verify_password password (hash_password salt password) = true ->
      login em password (fst (register salt em password db))
      = Ok (mk_login "Login success" em)).
Proof.
  repeat split.
  - intros salt Hex. unfold register.
    destruct (first_user_by_email_some _ _ Hex) as [u [-> _]]. reflexivity.
  - intros Habs. unfold login.
    now rewrite (first_user_by_email_none _ _ Habs).
  - intros u Hu Hv. unfold login. rewrite Hu, Hv. reflexivity.
  - intros u Hu Hv. unfold login. rewrite Hu, Hv. simpl.
    unfold first_user_by_email in Hu. apply find_some in Hu.
    destruct Hu as [_ Heq]. apply String.eqb_eq in Heq. now rewrite Heq.
  - intros salt Habs Hv. unfold register.
    rewrite (first_user_by_email_none _ _ Habs). simpl.
    unfold login.
    rewrite (first_user_after_add _ _ _ (first_user_by_email_none _ _ Habs)).
    simpl. rewrite Hv. reflexivity.
Qed.

End Auth.

Lemma register_login_outcomes_witness :
  Main.register "salt"%string "alice@example.org" "other" Sample.db0
  = (Sample.db0, Raise (HTTPException 400 "Email exists"))
  /\ Main.login "bob@example.org" "secret" Sample.db0
     = Raise (HTTPException 401 "Invalid credentials")
  /\ Main.login "alice@example.org" "wrong" Sample.db0
     = Raise (HTTPException 401 "Invalid credentials")
  /\ Main.login "alice@example.org" "secret" Sample.db0
     = Ok (Main.mk_login "Login success" "alice@example.org")
  /\ Main.login "bob@example.org" "hunter2"
       (fst (Main.register "salt"%string "bob@example.org" "hunter2"
               Sample.db0))
     = Ok (Main.mk_login "Login success" "bob@example.org").
Proof.
  destruct (register_login_outcomes Sample.db0 "alice@example.org" "other")
    as (R & _).
  destruct (register_login_outcomes Sample.db0 "bob@example.org" "secret")
    as (_ & L1 & _).
  destruct (register_login_outcomes Sample.db0 "alice@example.org" "wrong")
    as (_ & _ & L2 & _).
  destruct (register_login_outcomes Sample.db0 "alice@example.org" "secret")
    as (_ & _ & _ & L3 & _).
  destruct (register_login_outcomes Sample.db0 "bob@example.org" "hunter2")
    as (_ & _ & _ & _ & L4).
  split; [apply R; exists Sample.alice; split; [left|]; reflexivity|].
  split; [apply L1; intros u [<- | []]; discriminate|].
  split; [apply (L2 Sample.alice); reflexivity|].
  split; [apply (L3 Sample.alice); reflexivity|].
  apply L4; [intros u [<- | []]; discriminate | reflexivity].
Defined.

Section Clusters.
Import Clustering AiInsights.
Context {text : FloatText} {sklearn : Sklearn} {out : Stdout}.

Lemma truthy_len (data : value) (n : nat) :
  py_len data = Ok n -> truthy data = negb (n =? 0)%nat.
Proof.
  destruct data as [| | |s|l|d]; try discriminate;
    intros [= <-]; [destruct s|destruct l|destruct d]; reflexivity.
Qed.

(** On a list, with a [print] that returns, the untyped function is
    [cluster_days]. *)
Lemma cluster_days_untyped_list (data : list value) :
  (forall e, print e = Ok tt) ->
  cluster_days_untyped (VList data) = cluster_days data.
Proof.
  intros Hprint. unfold cluster_days_untyped, cluster_days, cluster_days_body.
  destruct data as [|d data]; [reflexivity|].
  cbn [truthy negb py_len bind py_iter orb].
  destruct (length (d :: data) <? 3)%nat; [reflexivity|].
  destruct (cluster_days_try (d :: data)) as [clusters|e]; cbn [bind try_except];
    [reflexivity|].
  now rewrite Hprint.
Qed.


End Clusters.


(** C8 as stated fails: the int 5 is truthy and has no length, so the
    guard raises TypeError before the [try] is entered. *)
Lemma cluster_days_raises_on_int :
  Clustering.cluster_days_untyped (VInt 5) = Raise TypeError.
Proof. reflexivity. Qed.

Section Narration.
Import Clustering AiInsights.
Context {text : FloatText} {sklearn : Sklearn}.

Lemma str_int_head (z : Z) :
  exists c s, Py.str_int z = String c s /\ c <> "m"%char.
Proof.
  unfold Py.str_int.
  destruct z as [|p|p]; simpl.
  - do 2 eexists. split; [reflexivity|discriminate].
  - destruct (Pos.to_uint p); simpl;
      do 2 eexists; (split; [reflexivity|discriminate]).
  - do 2 eexists. split; [reflexivity|discriminate].
Qed.

Lemma str_int_not_message (z : Z) :
  String.eqb (Py.str_int z) "message" = false.
Proof.
  destruct (str_int_head z) as (c & s & -> & Hc).
  apply String.eqb_neq. intros E. inversion E. contradiction.
Qed.

Lemma setdefault_append_label_keys z item clusters :
  label_keys clusters ->
  label_keys (setdefault_append (Py.str_int z) item clusters).
Proof.
  unfold label_keys.
  induction clusters as [|[k items] rest IH]; intros Hk; simpl.
  - constructor; [exists z; reflexivity | constructor].
  - inversion Hk as [|? ? Hhd Htl]; subst.
    destruct (String.eqb k (Py.str_int z)).
    + constructor; assumption.
    + constructor; [assumption | now apply IH].
Qed.

Lemma add_day_label_keys clusters labelled clusters' :
  label_keys clusters ->
  add_day clusters labelled = Ok clusters' ->
  label_keys clusters'.
Proof.
  intros Hk. unfold add_day, bind.
  destruct (subscript (snd labelled) "sleep_hours"); [|discriminate].
  destruct (py_float a); [|discriminate].
  destruct (subscript (snd labelled) "mood"); [|discriminate].
  destruct (py_int a1); [|discriminate].
  destruct (subscript (snd labelled) "productivity"); [|discriminate].
  destruct (py_int a3); [|discriminate].
  intros [= <-]. now apply setdefault_append_label_keys.
Qed.

Lemma foldM_add_day_label_keys l clusters clusters' :
  label_keys clusters ->
  foldM add_day l clusters = Ok clusters' ->
  label_keys clusters'.
Proof.
  revert clusters. induction l as [|x l IH]; intros clusters Hk; simpl.
  - now intros [= <-].
  - unfold bind. destruct (add_day clusters x) as [c1|] eqn:E; [|discriminate].
    apply IH. eapply add_day_label_keys; eassumption.
Qed.

Lemma label_keys_no_message clusters :
  label_keys clusters ->
  dict_get (map (fun kv => (fst kv, VList (snd kv))) clusters) "message"
  = None.
Proof.
  induction 1 as [|[k items] rest [z Hz] _ IH]; simpl; [reflexivity|].
  simpl in Hz. subst k. now rewrite str_int_not_message.
Qed.

Lemma cluster_days_returns_dict (data : list value) :
  exists d, cluster_days data = Ok (VDict d)
            /\ dict_get d "message" = None.
Proof.
  unfold cluster_days. destruct (_ || _).
  - exists []. auto.
  - destruct (cluster_days_try data) as [clusters|e] eqn:E; simpl.
    + eexists. split; [reflexivity|].
      apply label_keys_no_message.
      unfold cluster_days_try, bind in E.
      destruct (mapM feature_row data); [|discriminate].
      destruct (kmeans_fit_predict a); [|discriminate].
      eapply foldM_add_day_label_keys; [|eassumption]. constructor.
    + exists []. auto.
Qed.

(** C10 (as amended).  On a dict, [explain_clusters] returns through its
    first [return]: the value under "message" when the dict has that key,
    a string if that value is one, and the fixed fallback string otherwise;
    it never returns the per-cluster sentences.  [cluster_days] always
    returns a dict, and one without the key "message", so
    [explain_clusters] of its result is the fallback string. *)
Theorem explain_clusters_on_dict (d : dict) (data : list value) :
  (explain_clusters (VDict d)
   = Ok (Message (match dict_get d "message" with
                  | Some v => v
                  | None => VStr not_enough
                  end)))
  /\ (forall l, explain_clusters (VDict d) <> Ok (Insights l))
  /\ (dict_get d "message" = None ->
      result_value (explain_clusters (VDict d)) = Some (VStr not_enough))
  /\ (forall s, dict_get d "message" = Some (VStr s) ->
      result_value (explain_clusters (VDict d)) = Some (VStr s))
  /\ (exists out, cluster_days data = Ok (VDict out)
        /\ explain_clusters (VDict out) = Ok (Message (VStr not_enough))
        /\ forall l, explain_clusters (VDict out) <> Ok (Insights l)).
Proof.
  repeat split.
  - discriminate.
  - intros Hn. simpl. now rewrite Hn.
  - intros s Hs. simpl. now rewrite Hs.
  - destruct (cluster_days_returns_dict data) as (out & Hout & Hmsg).
    exists out. simpl. rewrite Hmsg. repeat split; [assumption|discriminate].
Qed.

End Narration.

Lemma explain_clusters_on_dict_witness :
  result_value
    (AiInsights.explain_clusters (VDict [("message"%string, VStr "failed")]))
  = Some (VStr "failed")
  /\ result_value (AiInsights.explain_clusters (VDict []))
     = Some (VStr AiInsights.not_enough).
Proof.
  destruct (explain_clusters_on_dict
              [("message"%string, VStr "failed")] Sample.three_days)
    as (_ & _ & _ & S1 & _).
  destruct (explain_clusters_on_dict [] Sample.three_days)
    as (_ & _ & S2 & _).
  split; [apply S1 | apply S2]; reflexivity.
Defined.

(** C10 as stated fails: on a dict whose "message" is not a string, what
    [explain_clusters] returns is that value, here the int 5. *)
Lemma explain_clusters_not_always_str :
  result_value
    (AiInsights.explain_clusters (VDict [("message"%string, VInt 5)]))
  = Some (VInt 5)
  /\ ~ (forall d : dict,
          exists s, result_value (AiInsights.explain_clusters (VDict d))
                    = Some (VStr s)).
Proof.
  split; [reflexivity|].
  intros Hall.
  destruct (Hall [("message"%string, VInt 5)]) as [s Hs].
  discriminate Hs.
Qed.

Section Numbers.

Lemma ltb_true a b : Py.ltb a b = true <-> (a < b)%Q.
Proof.
  unfold Py.ltb. rewrite negb_true_iff.
  destruct (Qle_bool b a) eqn:E.
  - apply Qle_bool_iff in E. split; [discriminate|]. intros L. lra.
  - split; [intros _|reflexivity].
    destruct (Qlt_le_dec a b) as [L|L]; [exact L|].
    apply Qle_bool_iff in L. congruence.
Qed.

Lemma ltb_false a b : Py.ltb a b = false <-> (b <= a)%Q.
Proof.
  unfold Py.ltb. rewrite negb_false_iff. apply Qle_bool_iff.
Qed.

Lemma max_min_clamp lo hi x :
  (lo <= hi)%Q -> (Py.max lo (Py.min hi x) == clamp lo hi x)%Q.
Proof.
  intros Hlh. unfold Py.max, Py.min, clamp.
  destruct (Py.ltb x hi) eqn:E1.
  - apply ltb_true in E1.
    destruct (Py.ltb lo x) eqn:E2.
    + apply ltb_true in E2.
      destruct (Qlt_le_dec x lo); [lra|].
      destruct (Qlt_le_dec hi x); [lra|reflexivity].
    + apply ltb_false in E2.
      destruct (Qlt_le_dec x lo); [reflexivity|].
      destruct (Qlt_le_dec hi x); lra.
  - apply ltb_false in E1.
    destruct (Py.ltb lo hi) eqn:E2.
    + apply ltb_true in E2.
      destruct (Qlt_le_dec x lo); [lra|].
      destruct (Qlt_le_dec hi x); lra.
    + apply ltb_false in E2.
      destruct (Qlt_le_dec x lo); [lra|].
      destruct (Qlt_le_dec hi x); lra.
Qed.

Lemma clamp_bounds lo hi x :
  (lo <= hi)%Q -> (lo <= clamp lo hi x <= hi)%Q.
Proof.
  intros Hlh. unfold clamp.
  destruct (Qlt_le_dec x lo); [lra|].
  destruct (Qlt_le_dec hi x); lra.
Qed.

Lemma clamp_monotone lo hi x y :
  (lo <= hi)%Q -> (x <= y)%Q -> (clamp lo hi x <= clamp lo hi y)%Q.
Proof.
  intros Hlh Hxy. unfold clamp.
  destruct (Qlt_le_dec x lo), (Qlt_le_dec y lo); try lra;
    destruct (Qlt_le_dec hi x), (Qlt_le_dec hi y); lra.
Qed.

Lemma int_nonneg q : (0 <= q)%Q -> Py.int q = Qfloor q.
Proof.
  intros Hq. unfold Py.int. apply Qle_bool_iff in Hq. now rewrite Hq.
Qed.

Lemma np_mean_int_div l : (Py.np_mean_int l == Py.div_mean l)%Q.
Proof.
  unfold Py.np_mean_int, Py.np_mean, Py.div_mean.
  assert (E : (Py.sumQ (map inject_Z l) == inject_Z (Py.sumZ l))%Q).
  { induction l as [|z l IH]; simpl; [reflexivity|].
    rewrite IH, inject_Z_plus. reflexivity. }
  unfold Py.lenQ. rewrite length_map, E. reflexivity.
Qed.

End Numbers.

Section Burnout.
Import Database Main.

(** The score is the integer part of the clamped formula. *)
Lemma burnout_score_value (db : Session) :
  entries db <> [] ->
  score (burnout_score db) = Qfloor (clamp 0 100 (burnout_raw db)).
Proof.
  intros Hne. unfold burnout_score.
  destruct (entries db) as [|e es] eqn:E; [contradiction|].
  rewrite <- E.
  set (raw := ((10 - Py.np_mean (map sleep_hours (entries db))) * 8
               + (10 - Py.np_mean_int (map productivity (entries db))) * 6)%Q).
  assert (Hraw : (raw == burnout_raw db)%Q).
  { unfold raw, burnout_raw, avg_sleep, avg_productivity.
    rewrite np_mean_int_div. unfold Py.np_mean, Py.div_mean, Py.lenQ.
    rewrite !length_map. reflexivity. }
  assert (Hc : (Py.max 0 (Py.min 100 raw) == clamp 0 100 (burnout_raw db))%Q).
  { rewrite max_min_clamp by lra.
    unfold clamp.
    destruct (Qlt_le_dec raw 0), (Qlt_le_dec (burnout_raw db) 0); try lra;
      destruct (Qlt_le_dec 100 raw), (Qlt_le_dec 100 (burnout_raw db));
      lra. }
  assert (Hs : Py.int (Py.max 0 (Py.min 100 raw))
               = Qfloor (clamp 0 100 (burnout_raw db))).
  { rewrite int_nonneg.
    - now rewrite Hc.
    - rewrite Hc. apply clamp_bounds. lra. }
  rewrite Hs.
  destruct (_ >? 70); [reflexivity|].
  destruct (_ >? 40); reflexivity.
Qed.

Lemma burnout_score_level (db : Session) :
  entries db <> [] ->
  let r := burnout_score db in
  (70 < score r ->
     level r = "High"%string
     /\ message r = "You're at high risk of burnout. Consider rest and workload adjustment."%string)
  /\ (40 < score r <= 70 ->
     level r = "Moderate"%string
     /\ message r = "Some signs of fatigue detected. Small changes could help."%string)
  /\ (score r <= 40 ->
     level r = "Low"%string
     /\ message r = "Burnout risk is low. You're managing things well."%string).
Proof.
  intros Hne. unfold burnout_score.
  destruct (entries db) as [|e es] eqn:E; [contradiction|].
  set (s := Py.int _).
  destruct (Z.gtb_spec s 70) as [G70|L70]; cbn [score level message].
  - repeat split; intros; try reflexivity; lia.
  - destruct (Z.gtb_spec s 40) as [G40|L40]; cbn [score level message];
      repeat split; intros; try reflexivity; lia.
Qed.

Lemma floor_clamp_range x : 0 <= Qfloor (clamp 0 100 x) <= 100.
Proof.
  destruct (clamp_bounds 0 100 x) as [L U]; [lra|].
  split.
  - change 0 with (Qfloor 0). now apply Qfloor_resp_le.
  - change 100 with (Qfloor 100). now apply Qfloor_resp_le.
Qed.

End Burnout.

Section Rounding.

Lemma round_half_even_comp p q :
  (p == q)%Q -> Py.round_half_even p = Py.round_half_even q.
Proof.
  intros E. unfold Py.round_half_even.
  rewrite (Qfloor_comp _ _ E).
  assert (E' : (p - inject_Z (Qfloor q) == q - inject_Z (Qfloor q))%Q)
    by (rewrite E; reflexivity).
  now rewrite (Qcompare_comp _ _ E' _ _ (Qeq_refl (1 # 2))).
Qed.

Lemma round_comp p q n : (p == q)%Q -> Py.round p n = Py.round q n.
Proof.
  intros E. unfold Py.round.
  rewrite (round_half_even_comp (p * _) (q * inject_Z (Z.pos (Py.pow10 n)))).
  - reflexivity.
  - rewrite E. reflexivity.
Qed.

Lemma round_half_even_lower m x :
  (inject_Z m <= x)%Q -> m <= Py.round_half_even x.
Proof.
  intros L. unfold Py.round_half_even.
  assert (F : m <= Qfloor x).
  { rewrite <- (Qfloor_Z m). now apply Qfloor_resp_le. }
  destruct (Qcompare _ _); [destruct (Z.even _)| |]; lia.
Qed.

Lemma round_half_even_upper m x :
  (x <= inject_Z m)%Q -> Py.round_half_even x <= m.
Proof.
  intros U. unfold Py.round_half_even.
  assert (F : Qfloor x <= m).
  { rewrite <- (Qfloor_Z m). now apply Qfloor_resp_le. }
  destruct (Z.eq_dec (Qfloor x) m) as [E|N].
  - assert (C : Qcompare (x - inject_Z (Qfloor x)) (1 # 2) = Lt).
    { rewrite <- Qlt_alt, E. lra. }
    rewrite C. lia.
  - destruct (Qcompare _ _); [destruct (Z.even _)| |]; lia.
Qed.

(** Rounding to 2 decimals keeps a value inside the integer bounds it
    lies between. *)
Lemma round2_between lo hi x :
  (inject_Z lo <= x <= inject_Z hi)%Q ->
  (inject_Z lo <= Py.round x 2 <= inject_Z hi)%Q.
Proof.
  intros [L U]. unfold Py.round. rewrite Qred_correct.
  change (Py.pow10 2) with 100%positive.
  set (z := Py.round_half_even (x * inject_Z 100)).
  assert (Lz : lo * 100 <= z).
  { apply round_half_even_lower. rewrite inject_Z_mult.
    apply Qmult_le_compat_r; [exact L|discriminate]. }
  assert (Uz : z <= hi * 100).
  { apply round_half_even_upper. rewrite inject_Z_mult.
    apply Qmult_le_compat_r; [exact U|discriminate]. }
  unfold Qle, inject_Z. simpl. lia.
Qed.

End Rounding.

Section Doubles.
Import Binary64.
Local Open Scope Q_scope.

Lemma two_pow_pos (e : Z) : 0 < 2 ^ e.
Proof. apply Qpower_0_lt. reflexivity. Qed.

Lemma two_pow_add (a b : Z) : 2 ^ (a + b) == 2 ^ a * 2 ^ b.
Proof. apply Qpower_plus. discriminate. Qed.

Lemma two_pow_le (a b : Z) : (a <= b)%Z -> 2 ^ a <= 2 ^ b.
Proof. intros H. apply Qpower_le_compat_l; [exact H|discriminate]. Qed.

Lemma two_pow_lt_inv (a b : Z) : 2 ^ a < 2 ^ b -> (a < b)%Z.
Proof. intros H. apply (Qpower_lt_compat_l_inv 2); [exact H|reflexivity]. Qed.

Lemma two_pow_int (n : Z) : (0 <= n)%Z -> 2 ^ n == inject_Z (2 ^ n).
Proof. intros H. now rewrite Zpower_Qpower. Qed.

(** The nearest integer is within a half. *)
Lemma round_half_even_near (q : Q) :
  inject_Z (Py.round_half_even q) - (1 # 2) <= q
  /\ q <= inject_Z (Py.round_half_even q) + (1 # 2).
Proof.
  unfold Py.round_half_even.
  pose proof (Qfloor_le q) as L. pose proof (Qlt_floor q) as U.
  rewrite inject_Z_plus in U. change (inject_Z 1) with 1 in U.
  destruct (Qcompare (q - inject_Z (Qfloor q)) (1 # 2)) eqn:C.
  - apply Qeq_alt in C.
    destruct (Z.even (Qfloor q)); [|rewrite inject_Z_plus; change (inject_Z 1) with 1];
      split; lra.
  - apply Qlt_alt in C. split; lra.
  - apply Qgt_alt in C. rewrite inject_Z_plus. change (inject_Z 1) with 1.
    split; lra.
Qed.

Lemma round_half_even_monotone (x y : Q) :
  x <= y -> (Py.round_half_even x <= Py.round_half_even y)%Z.
Proof.
  intros H.
  destruct (Z.le_gt_cases (Py.round_half_even x) (Py.round_half_even y))
    as [L|G]; [exact L|].
  destruct (round_half_even_near x) as [Lx _].
  destruct (round_half_even_near y) as [_ Uy].
  assert (G' : inject_Z (Py.round_half_even y) + 1
               <= inject_Z (Py.round_half_even x)).
  { change 1 with (inject_Z 1). rewrite <- inject_Z_plus, <- Zle_Qle. lia. }
  assert (E : x == y) by lra.
  rewrite (round_half_even_comp _ _ E) in G. lia.
Qed.

(** The binade of a non-zero number. *)
Lemma ilog2_spec (q : Q) :
  ~ q == 0 -> 2 ^ ilog2 q <= Qabs q /\ Qabs q < 2 ^ (ilog2 q + 1).
Proof.
  intros Hq. unfold ilog2.
  set (n := Z.abs (Qnum q)). set (d := Zpos (Qden q)).
  set (e := (Z.log2 n - Z.log2 d)%Z).
  assert (Hn : (0 < n)%Z).
  { unfold n. destruct q as [[|p|p] dq]; simpl; try lia.
    exfalso. apply Hq. reflexivity. }
  assert (Hd : (0 < d)%Z) by (unfold d; lia).
  assert (Habs : Qabs q == inject_Z n / inject_Z d).
  { unfold n, d. destruct q as [a b]. unfold Qabs, Qeq, Qdiv, Qmult, Qinv.
    simpl. lia. }
  destruct (Z.log2_spec n Hn) as [Ln Un].
  destruct (Z.log2_spec d Hd) as [Ld Ud].
  pose proof (Z.log2_nonneg n) as Nn. pose proof (Z.log2_nonneg d) as Nd.
  assert (Ln' : 2 ^ Z.log2 n <= inject_Z n).
  { rewrite two_pow_int by lia. now rewrite <- Zle_Qle. }
  assert (Un' : inject_Z n < 2 ^ (Z.log2 n + 1)).
  { rewrite two_pow_int by lia. rewrite <- Zlt_Qlt. exact Un. }
  assert (Ld' : 2 ^ Z.log2 d <= inject_Z d).
  { rewrite two_pow_int by lia. now rewrite <- Zle_Qle. }
  assert (Ud' : inject_Z d < 2 ^ (Z.log2 d + 1)).
  { rewrite two_pow_int by lia. rewrite <- Zlt_Qlt. exact Ud. }
  assert (Dpos : 0 < inject_Z d).
  { change 0 with (inject_Z 0). now rewrite <- Zlt_Qlt. }
  (* |q| < 2^(e+1) and 2^(e-1) < |q| *)
  assert (Hup : Qabs q < 2 ^ (e + 1)).
  { rewrite Habs. apply Qlt_shift_div_r; [exact Dpos|].
    apply Qlt_le_trans with (2 ^ (Z.log2 n + 1)); [exact Un'|].
    replace (Z.log2 n + 1)%Z with ((e + 1) + Z.log2 d)%Z by (unfold e; lia).
    rewrite two_pow_add.
    apply Qmult_le_l; [apply two_pow_pos|exact Ld']. }
  assert (Hlow : 2 ^ (e - 1) < Qabs q).
  { rewrite Habs. apply Qlt_shift_div_l; [exact Dpos|].
    apply Qlt_le_trans with (2 ^ Z.log2 n); [|exact Ln'].
    replace (Z.log2 n) with ((e - 1) + (Z.log2 d + 1))%Z by (unfold e; lia).
    rewrite two_pow_add.
    apply Qmult_lt_l; [apply two_pow_pos|exact Ud']. }
  destruct (Qle_bool (2 ^ e) (Qabs q)) eqn:T.
  - apply Qle_bool_iff in T. split; [exact T|exact Hup].
  - split; [apply Qlt_le_weak, Hlow|].
    replace (e - 1 + 1)%Z with e by lia.
    destruct (Qlt_le_dec (Qabs q) (2 ^ e)) as [L|L]; [exact L|].
    apply Qle_bool_iff in L. congruence.
Qed.

Lemma ilog2_monotone (a b : Q) :
  ~ a == 0 -> ~ b == 0 -> Qabs a <= Qabs b -> (ilog2 a <= ilog2 b)%Z.
Proof.
  intros Ha Hb H.
  destruct (ilog2_spec a Ha) as [La _]. destruct (ilog2_spec b Hb) as [_ Ub].
  assert (L : 2 ^ ilog2 a < 2 ^ (ilog2 b + 1)) by lra.
  apply two_pow_lt_inv in L. lia.
Qed.

Lemma ilog2_comp (a b : Q) : ~ a == 0 -> a == b -> ilog2 a = ilog2 b.
Proof.
  intros Ha E.
  assert (Hb : ~ b == 0) by (rewrite <- E; exact Ha).
  assert (Eabs : Qabs a == Qabs b) by (rewrite E; reflexivity).
  apply Z.le_antisymm; apply ilog2_monotone; try assumption; rewrite Eabs;
    apply Qle_refl.
Qed.

Lemma rnd_zero (q : Q) : q == 0 -> rnd q = 0.
Proof.
  intros E. unfold rnd. apply Qeq_bool_iff in E. now rewrite E.
Qed.

Lemma rnd_nonzero (q : Q) :
  ~ q == 0 ->
  rnd q == inject_Z (Py.round_half_even (q / 2 ^ ulp_exponent q))
           * 2 ^ ulp_exponent q.
Proof.
  intros H. unfold rnd.
  destruct (Qeq_bool q 0) eqn:E.
  - apply Qeq_bool_iff in E. contradiction.
  - cbv zeta. apply Qred_correct.
Qed.

Lemma rnd_comp (a b : Q) : a == b -> rnd a = rnd b.
Proof.
  intros E. unfold rnd.
  destruct (Qeq_bool a 0) eqn:Ea.
  - apply Qeq_bool_iff in Ea.
    assert (Eb : Qeq_bool b 0 = true) by (apply Qeq_bool_iff; rewrite <- E; exact Ea).
    now rewrite Eb.
  - assert (Ha : ~ a == 0) by (now apply Qeq_bool_neq).
    assert (Eb : Qeq_bool b 0 = false).
    { destruct (Qeq_bool b 0) eqn:Eb; [|reflexivity].
      apply Qeq_bool_iff in Eb. exfalso. apply Ha. rewrite E. exact Eb. }
    rewrite Eb. cbv zeta. unfold ulp_exponent.
    rewrite (ilog2_comp a b Ha E).
    apply Qred_complete.
    rewrite (round_half_even_comp (a / _) (b / 2 ^ Z.max (ilog2 b - 52) (-1074))).
    + reflexivity.
    + rewrite E. reflexivity.
Qed.

(** Scaling by a positive unit. *)
Lemma scaled_le_int (x u : Q) (k : Z) :
  0 < u -> x <= inject_Z k * u -> x / u <= inject_Z k.
Proof.
  intros Hu H. apply Qle_shift_div_r; [exact Hu|exact H].
Qed.

Lemma scaled_ge_int (x u : Q) (k : Z) :
  0 < u -> inject_Z k * u <= x -> inject_Z k <= x / u.
Proof.
  intros Hu H. apply Qle_shift_div_l; [exact Hu|exact H].
Qed.

(** A value at most a multiple of the unit rounds to at most it. *)
Lemma rnd_le_grid (x : Q) (k : Z) :
  ~ x == 0 -> x <= inject_Z k * 2 ^ ulp_exponent x ->
  rnd x <= inject_Z k * 2 ^ ulp_exponent x.
Proof.
  intros Hx H. rewrite (rnd_nonzero x Hx).
  apply Qmult_le_compat_r; [|apply Qlt_le_weak, two_pow_pos].
  rewrite <- Zle_Qle. apply round_half_even_upper.
  apply scaled_le_int; [apply two_pow_pos|exact H].
Qed.

Lemma rnd_ge_grid (x : Q) (k : Z) :
  ~ x == 0 -> inject_Z k * 2 ^ ulp_exponent x <= x ->
  inject_Z k * 2 ^ ulp_exponent x <= rnd x.
Proof.
  intros Hx H. rewrite (rnd_nonzero x Hx).
  apply Qmult_le_compat_r; [|apply Qlt_le_weak, two_pow_pos].
  rewrite <- Zle_Qle. apply round_half_even_lower.
  apply scaled_ge_int; [apply two_pow_pos|exact H].
Qed.

(** A power of two no finer than the unit is a multiple of it. *)
Lemma two_pow_on_grid (g e : Z) :
  (e <= g)%Z -> 2 ^ g == inject_Z (2 ^ (g - e)) * 2 ^ e.
Proof.
  intros H. rewrite <- two_pow_int by lia. rewrite <- two_pow_add.
  replace (g - e + e)%Z with g by lia. reflexivity.
Qed.

Lemma rnd_nonneg (x : Q) : 0 <= x -> 0 <= rnd x.
Proof.
  intros H. destruct (Qeq_dec x 0) as [E|N].
  - rewrite (rnd_zero x E). apply Qle_refl.
  - pose proof (rnd_ge_grid x 0 N) as G.
    rewrite Qmult_0_l in G. apply G. exact H.
Qed.

Lemma rnd_nonpos (x : Q) : x <= 0 -> rnd x <= 0.
Proof.
  intros H. destruct (Qeq_dec x 0) as [E|N].
  - rewrite (rnd_zero x E). apply Qle_refl.
  - pose proof (rnd_le_grid x 0 N) as G.
    rewrite Qmult_0_l in G. apply G. exact H.
Qed.

Lemma ulp_exponent_monotone (a b : Q) :
  ~ a == 0 -> ~ b == 0 -> Qabs a <= Qabs b ->
  (ulp_exponent a <= ulp_exponent b)%Z.
Proof.
  intros Ha Hb H. unfold ulp_exponent.
  pose proof (ilog2_monotone a b Ha Hb H). lia.
Qed.

(** Rounding two positive numbers keeps their order. *)
Lemma rnd_monotone_pos (x y : Q) : 0 < x -> x <= y -> rnd x <= rnd y.
Proof.
  intros Hx Hxy.
  assert (Nx : ~ x == 0) by (intros E; rewrite E in Hx; discriminate Hx).
  assert (Hy : 0 < y) by lra.
  assert (Ny : ~ y == 0) by (intros E; rewrite E in Hy; discriminate Hy).
  assert (Habs : Qabs x <= Qabs y).
  { rewrite !Qabs_pos by lra. exact Hxy. }
  pose proof (ulp_exponent_monotone x y Nx Ny Habs) as HE.
  destruct (Z.eq_dec (ulp_exponent x) (ulp_exponent y)) as [E|NE].
  - rewrite (rnd_nonzero x Nx), (rnd_nonzero y Ny), E.
    apply Qmult_le_compat_r; [|apply Qlt_le_weak, two_pow_pos].
    rewrite <- Zle_Qle. apply round_half_even_monotone.
    apply Qmult_le_compat_r; [exact Hxy|].
    apply Qlt_le_weak, Qinv_lt_0_compat, two_pow_pos.
  - (* the binade boundary 2^(ilog2 y) separates them *)
    destruct (ilog2_spec x Nx) as [_ Ux]. destruct (ilog2_spec y Ny) as [Ly _].
    rewrite Qabs_pos in Ux by lra. rewrite Qabs_pos in Ly by lra.
    assert (Hlog : (ilog2 x + 1 <= ilog2 y)%Z) by (unfold ulp_exponent in *; lia).
    assert (Ey : (ulp_exponent y <= ilog2 y)%Z) by (unfold ulp_exponent in *; lia).
    assert (Ex : (ulp_exponent x <= ilog2 y)%Z) by lia.
    apply Qle_trans with (2 ^ ilog2 y).
    + rewrite (two_pow_on_grid _ _ Ex). apply rnd_le_grid; [exact Nx|].
      rewrite <- (two_pow_on_grid _ _ Ex).
      apply Qle_trans with (2 ^ (ilog2 x + 1)); [lra|now apply two_pow_le].
    + rewrite (two_pow_on_grid _ _ Ey). apply rnd_ge_grid; [exact Ny|].
      rewrite <- (two_pow_on_grid _ _ Ey). exact Ly.
Qed.

Lemma rnd_monotone_neg (x y : Q) : y < 0 -> x <= y -> rnd x <= rnd y.
Proof.
  intros Hy Hxy.
  assert (Ny : ~ y == 0) by (intros E; rewrite E in Hy; discriminate Hy).
  assert (Hx : x < 0) by lra.
  assert (Nx : ~ x == 0) by (intros E; rewrite E in Hx; discriminate Hx).
  assert (Habs : Qabs y <= Qabs x).
  { rewrite !Qabs_neg by lra. lra. }
  pose proof (ulp_exponent_monotone y x Ny Nx Habs) as HE.
  destruct (Z.eq_dec (ulp_exponent x) (ulp_exponent y)) as [E|NE].
  - rewrite (rnd_nonzero x Nx), (rnd_nonzero y Ny), E.
    apply Qmult_le_compat_r; [|apply Qlt_le_weak, two_pow_pos].
    rewrite <- Zle_Qle. apply round_half_even_monotone.
    apply Qmult_le_compat_r; [exact Hxy|].
    apply Qlt_le_weak, Qinv_lt_0_compat, two_pow_pos.
  - destruct (ilog2_spec x Nx) as [Lx _]. destruct (ilog2_spec y Ny) as [_ Uy].
    rewrite Qabs_neg in Lx by lra. rewrite Qabs_neg in Uy by lra.
    assert (Hlog : (ilog2 y + 1 <= ilog2 x)%Z) by (unfold ulp_exponent in *; lia).
    assert (Ex : (ulp_exponent x <= ilog2 x)%Z) by (unfold ulp_exponent in *; lia).
    assert (Ey : (ulp_exponent y <= ilog2 x)%Z) by lia.
    pose proof (two_pow_le _ _ Hlog) as P.
    apply Qle_trans with (- 2 ^ ilog2 x).
    + setoid_replace (- 2 ^ ilog2 x)
        with (inject_Z (- 2 ^ (ilog2 x - ulp_exponent x)) * 2 ^ ulp_exponent x).
      * apply rnd_le_grid; [exact Nx|].
        rewrite inject_Z_opp.
        setoid_replace (- inject_Z (2 ^ (ilog2 x - ulp_exponent x)) * 2 ^ ulp_exponent x)
          with (- (inject_Z (2 ^ (ilog2 x - ulp_exponent x)) * 2 ^ ulp_exponent x))
          by ring.
        rewrite <- (two_pow_on_grid _ _ Ex). lra.
      * rewrite inject_Z_opp, (two_pow_on_grid _ _ Ex) at 1. ring.
    + setoid_replace (- 2 ^ ilog2 x)
        with (inject_Z (- 2 ^ (ilog2 x - ulp_exponent y)) * 2 ^ ulp_exponent y).
      * apply rnd_ge_grid; [exact Ny|].
        rewrite inject_Z_opp.
        setoid_replace (- inject_Z (2 ^ (ilog2 x - ulp_exponent y)) * 2 ^ ulp_exponent y)
          with (- (inject_Z (2 ^ (ilog2 x - ulp_exponent y)) * 2 ^ ulp_exponent y))
          by ring.
        rewrite <- (two_pow_on_grid _ _ Ey). lra.
      * rewrite inject_Z_opp, (two_pow_on_grid _ _ Ey) at 1. ring.
Qed.

(** Rounding to the nearest double keeps the order. *)
Lemma rnd_monotone (x y : Q) : x <= y -> rnd x <= rnd y.
Proof.
  intros H.
  destruct (Qlt_le_dec 0 x) as [Px|Nx].
  - now apply rnd_monotone_pos.
  - destruct (Qlt_le_dec y 0) as [Ny|Py].
    + now apply rnd_monotone_neg.
    + apply Qle_trans with 0; [now apply rnd_nonpos|now apply rnd_nonneg].
Qed.

(** An int below 2^53 in size is a double. *)
Lemma rnd_int_exact (z : Z) :
  (Z.abs z < 2 ^ 53)%Z -> rnd (inject_Z z) == inject_Z z.
Proof.
  intros Hz. destruct (Z.eq_dec z 0) as [->|Nz]; [reflexivity|].
  assert (Nq : ~ inject_Z z == 0).
  { intros E. apply Nz. apply (inject_Z_injective z 0). exact E. }
  destruct (ilog2_spec _ Nq) as [L U].
  assert (Habs : Qabs (inject_Z z) == inject_Z (Z.abs z)).
  { unfold Qabs, inject_Z. simpl. reflexivity. }
  rewrite Habs in L, U.
  assert (H53 : inject_Z (Z.abs z) < 2 ^ 53).
  { rewrite (two_pow_int 53) by lia. now rewrite <- Zlt_Qlt. }
  assert (H1 : 2 ^ 0 <= inject_Z (Z.abs z)).
  { change (2 ^ 0) with (inject_Z 1). rewrite <- Zle_Qle. lia. }
  assert (Lo : (ilog2 (inject_Z z) < 53)%Z) by (apply two_pow_lt_inv; lra).
  assert (Hi : (0 < ilog2 (inject_Z z) + 1)%Z) by (apply two_pow_lt_inv; lra).
  set (E := ulp_exponent (inject_Z z)).
  assert (HE : (-52 <= E <= 0)%Z) by (unfold E, ulp_exponent; lia).
  assert (G : inject_Z z == inject_Z (z * 2 ^ (- E)) * 2 ^ E).
  { rewrite inject_Z_mult, <- two_pow_int by lia.
    rewrite <- Qmult_assoc, <- two_pow_add.
    replace (- E + E)%Z with 0%Z by lia. change (2 ^ 0) with 1. ring. }
  apply Qle_antisym.
  - rewrite G at 2. apply rnd_le_grid; [exact Nq|]. fold E. rewrite <- G.
    apply Qle_refl.
  - rewrite G at 1. apply rnd_ge_grid; [exact Nq|]. fold E. rewrite <- G.
    apply Qle_refl.
Qed.

(** [round(x, n)] keeps the order, and keeps a value between the ints
    that bound it. *)
Lemma round64_monotone (x y : Q) (n : nat) :
  x <= y -> round x n <= round y n.
Proof.
  intros H. unfold round. apply rnd_monotone.
  assert (P : 0 < inject_Z (10 ^ Z.of_nat n)).
  { change 0 with (inject_Z 0). rewrite <- Zlt_Qlt.
    apply Z.pow_pos_nonneg; lia. }
  apply Qmult_le_compat_r; [|apply Qlt_le_weak, Qinv_lt_0_compat, P].
  rewrite <- Zle_Qle. apply round_half_even_monotone.
  apply Qmult_le_compat_r; [exact H|apply Qlt_le_weak, P].
Qed.

Lemma round64_comp (x y : Q) (n : nat) : x == y -> round x n = round y n.
Proof.
  intros E. unfold round. apply rnd_comp.
  rewrite (round_half_even_comp (x * _) (y * inject_Z (10 ^ Z.of_nat n))).
  - reflexivity.
  - rewrite E. reflexivity.
Qed.

Lemma round64_int (z : Z) (n : nat) :
  (Z.abs z < 2 ^ 53)%Z -> round (inject_Z z) n == inject_Z z.
Proof.
  intros Hz. unfold round.
  set (s := (10 ^ Z.of_nat n)%Z).
  assert (P : (0 < s)%Z) by (apply Z.pow_pos_nonneg; lia).
  assert (E : Py.round_half_even (inject_Z z * inject_Z s) = (z * s)%Z).
  { rewrite <- inject_Z_mult. apply Z.le_antisymm.
    - apply round_half_even_upper, Qle_refl.
    - apply round_half_even_lower, Qle_refl. }
  rewrite E.
  assert (D : inject_Z (z * s) / inject_Z s == inject_Z z).
  { rewrite inject_Z_mult. field. intros Z0.
    apply (inject_Z_injective s 0) in Z0. lia. }
  rewrite (rnd_comp _ _ D). now apply rnd_int_exact.
Qed.

Lemma round64_between (lo hi : Z) (x : Q) (n : nat) :
  (Z.abs lo < 2 ^ 53)%Z -> (Z.abs hi < 2 ^ 53)%Z ->
  inject_Z lo <= x <= inject_Z hi ->
  inject_Z lo <= round x n <= inject_Z hi.
Proof.
  intros Hlo Hhi [L U]. split.
  - rewrite <- (round64_int lo n Hlo). now apply round64_monotone.
  - rewrite <- (round64_int hi n Hhi). now apply round64_monotone.
Qed.

(** [int(x)] keeps the order. *)
Lemma int_monotone (x y : Q) : x <= y -> (Py.int x <= Py.int y)%Z.
Proof.
  intros H. unfold Py.int.
  destruct (Qle_bool 0 x) eqn:Ex, (Qle_bool 0 y) eqn:Ey.
  - now apply Qfloor_resp_le.
  - apply Qle_bool_iff in Ex.
    assert (N : ~ 0 <= y) by (intros P; apply Qle_bool_iff in P; congruence).
    exfalso. apply N. lra.
  - apply Z.le_trans with 0%Z.
    + change 0%Z with (Qceiling 0). apply Qceiling_resp_le.
      destruct (Qlt_le_dec x 0) as [L|L]; [lra|].
      apply Qle_bool_iff in L. congruence.
    + change 0%Z with (Qfloor 0). apply Qfloor_resp_le.
      now apply Qle_bool_iff.
  - now apply Qceiling_resp_le.
Qed.

Lemma ilog2_unique (q : Q) (e : Z) :
  2 ^ e <= Qabs q -> Qabs q < 2 ^ (e + 1) -> ilog2 q = e.
Proof.
  intros L U.
  assert (N : ~ q == 0).
  { intros E. rewrite E in L. pose proof (two_pow_pos e). simpl in L. lra. }
  destruct (ilog2_spec q N) as [L' U'].
  assert (A : 2 ^ e < 2 ^ (ilog2 q + 1)) by lra.
  assert (B : 2 ^ ilog2 q < 2 ^ (e + 1)) by lra.
  apply two_pow_lt_inv in A. apply two_pow_lt_inv in B. lia.
Qed.

(** A non-zero multiple of its own unit is a double. *)
Lemma rnd_on_grid (y : Q) (k : Z) :
  ~ y == 0 -> y == inject_Z k * 2 ^ ulp_exponent y -> rnd y == y.
Proof.
  intros N G. apply Qle_antisym.
  - rewrite G at 2. apply rnd_le_grid; [exact N|]. rewrite <- G. apply Qle_refl.
  - rewrite G at 1. apply rnd_ge_grid; [exact N|]. rewrite <- G. apply Qle_refl.
Qed.

(** Rounding stays within the binade of the number, ends included. *)
Lemma rnd_binade (x : Q) :
  ~ x == 0 -> (ulp_exponent x <= ilog2 x)%Z ->
  2 ^ ilog2 x <= Qabs (rnd x) /\ Qabs (rnd x) <= 2 ^ (ilog2 x + 1).
Proof.
  intros N HE. destruct (ilog2_spec x N) as [L U].
  assert (HE1 : (ulp_exponent x <= ilog2 x + 1)%Z) by lia.
  pose proof (two_pow_pos (ilog2 x)) as P.
  destruct (Qlt_le_dec 0 x) as [Px|Nx].
  - rewrite Qabs_pos in L, U by lra.
    assert (A : 2 ^ ilog2 x <= rnd x).
    { rewrite (two_pow_on_grid _ _ HE). apply rnd_ge_grid; [exact N|].
      rewrite <- (two_pow_on_grid _ _ HE). exact L. }
    assert (B : rnd x <= 2 ^ (ilog2 x + 1)).
    { rewrite (two_pow_on_grid _ _ HE1). apply rnd_le_grid; [exact N|].
      rewrite <- (two_pow_on_grid _ _ HE1). lra. }
    rewrite Qabs_pos by lra. split; assumption.
  - assert (Nx' : x < 0).
    { destruct (Qeq_dec x 0) as [E|E]; [contradiction|]. lra. }
    rewrite Qabs_neg in L, U by lra.
    assert (A : rnd x <= - 2 ^ ilog2 x).
    { setoid_replace (- 2 ^ ilog2 x)
        with (inject_Z (- 2 ^ (ilog2 x - ulp_exponent x)) * 2 ^ ulp_exponent x).
      - apply rnd_le_grid; [exact N|].
        rewrite inject_Z_opp.
        setoid_replace (- inject_Z (2 ^ (ilog2 x - ulp_exponent x))
                        * 2 ^ ulp_exponent x)
          with (- (inject_Z (2 ^ (ilog2 x - ulp_exponent x))
                   * 2 ^ ulp_exponent x)) by ring.
        rewrite <- (two_pow_on_grid _ _ HE). lra.
      - rewrite inject_Z_opp, (two_pow_on_grid _ _ HE) at 1. ring. }
    assert (B : - 2 ^ (ilog2 x + 1) <= rnd x).
    { setoid_replace (- 2 ^ (ilog2 x + 1))
        with (inject_Z (- 2 ^ (ilog2 x + 1 - ulp_exponent x))
              * 2 ^ ulp_exponent x).
      - apply rnd_ge_grid; [exact N|].
        rewrite inject_Z_opp.
        setoid_replace (- inject_Z (2 ^ (ilog2 x + 1 - ulp_exponent x))
                        * 2 ^ ulp_exponent x)
          with (- (inject_Z (2 ^ (ilog2 x + 1 - ulp_exponent x))
                   * 2 ^ ulp_exponent x)) by ring.
        rewrite <- (two_pow_on_grid _ _ HE1). lra.
      - rewrite inject_Z_opp, (two_pow_on_grid _ _ HE1) at 1. ring. }
    rewrite Qabs_neg by lra. split; lra.
Qed.

Lemma Qabs_int_unit (k : Z) (u : Q) :
  0 < u -> Qabs (inject_Z k * u) == inject_Z (Z.abs k) * u.
Proof.
  intros Hu. rewrite Qabs_Qmult, (Qabs_pos u) by lra.
  assert (E : Qabs (inject_Z k) == inject_Z (Z.abs k)).
  { unfold Qabs, inject_Z. simpl. reflexivity. }
  now rewrite E.
Qed.

(** A double rounds to itself. *)
Lemma rnd_idempotent (x : Q) : rnd (rnd x) == rnd x.
Proof.
  destruct (Qeq_dec (rnd x) 0) as [Z0|N].
  - rewrite (rnd_comp _ _ Z0). rewrite Z0. reflexivity.
  - assert (Nx : ~ x == 0).
    { intros E. apply N. now rewrite (rnd_zero x E). }
    pose proof (rnd_nonzero x Nx) as G.
    set (M := Py.round_half_even (x / 2 ^ ulp_exponent x)) in G.
    set (E := ulp_exponent x) in *.
    pose proof (two_pow_pos E) as PE.
    destruct (Z.le_gt_cases E (ilog2 x)) as [HE|HE].
    + destruct (rnd_binade x Nx HE) as [L U].
      destruct (Qlt_le_dec (Qabs (rnd x)) (2 ^ (ilog2 x + 1))) as [Lt|Ge].
      * (* same binade, same unit *)
        assert (I : ilog2 (rnd x) = ilog2 x) by (now apply ilog2_unique).
        apply (rnd_on_grid _ M N). unfold ulp_exponent. rewrite I. exact G.
      * (* rounded up to the next power of two *)
        assert (Eq : Qabs (rnd x) == 2 ^ (ilog2 x + 1)) by lra.
        assert (I : ilog2 (rnd x) = (ilog2 x + 1)%Z).
        { apply ilog2_unique; [lra|]. rewrite Eq.
          apply Qpower_lt_compat_l; [lia|reflexivity]. }
        assert (HE' : (ulp_exponent (rnd x) <= ilog2 x + 1)%Z).
        { unfold ulp_exponent. rewrite I. unfold E, ulp_exponent in HE. lia. }
        destruct (Qlt_le_dec (rnd x) 0) as [Neg|Pos].
        -- apply (rnd_on_grid _ (- 2 ^ (ilog2 x + 1 - ulp_exponent (rnd x))) N).
           rewrite Qabs_neg in Eq by lra.
           rewrite inject_Z_opp.
           setoid_replace (- inject_Z (2 ^ (ilog2 x + 1 - ulp_exponent (rnd x)))
                           * 2 ^ ulp_exponent (rnd x))
             with (- (inject_Z (2 ^ (ilog2 x + 1 - ulp_exponent (rnd x)))
                      * 2 ^ ulp_exponent (rnd x))) by ring.
           rewrite <- (two_pow_on_grid _ _ HE'). lra.
        -- apply (rnd_on_grid _ (2 ^ (ilog2 x + 1 - ulp_exponent (rnd x))) N).
           rewrite Qabs_pos in Eq by lra.
           rewrite <- (two_pow_on_grid _ _ HE'). exact Eq.
    + (* below the smallest unit: the result is one unit in size *)
      assert (E1074 : E = (-1074)%Z) by (unfold E, ulp_exponent in *; lia).
      destruct (ilog2_spec x Nx) as [_ Ux].
      assert (Ux' : Qabs x <= 2 ^ E).
      { apply Qle_trans with (2 ^ (ilog2 x + 1)); [lra|].
        apply two_pow_le. lia. }
      assert (HM : (Z.abs M <= 1)%Z).
      { apply Qabs_Qle_condition in Ux'. destruct Ux' as [Lx Hx].
        assert (M <= 1)%Z.
        { apply round_half_even_upper. apply Qle_shift_div_r; [exact PE|].
          change (inject_Z 1) with 1. lra. }
        assert (-1 <= M)%Z.
        { apply round_half_even_lower. apply Qle_shift_div_l; [exact PE|].
          change (inject_Z (-1)) with (-1). lra. }
        lia. }
      assert (M0 : M <> 0%Z).
      { intros Z0. apply N. rewrite G, Z0. ring. }
      assert (A : Qabs (rnd x) == 2 ^ E).
      { rewrite G, (Qabs_int_unit M _ PE).
        replace (Z.abs M) with 1%Z by lia. ring. }
      assert (I : ilog2 (rnd x) = E).
      { apply ilog2_unique; [lra|]. rewrite A.
        apply Qpower_lt_compat_l; [lia|reflexivity]. }
      apply (rnd_on_grid _ M N). unfold ulp_exponent. rewrite I, E1074.
      change (Z.max (-1074 - 52) (-1074)) with (-1074)%Z.
      rewrite <- E1074. exact G.
Qed.

End Doubles.

Section Lengths.
Local Open Scope Q_scope.

Lemma lenQ_pos {A} (l : list A) : l <> [] -> 0 < Py.lenQ l.
Proof.
  intros Hne. unfold Py.lenQ. change 0 with (inject_Z 0).
  rewrite <- Zlt_Qlt. destruct l; [contradiction|]. simpl length. lia.
Qed.

End Lengths.

Section Prediction.
Import Predict.

Lemma data_of_spec (entries : list entry) (s : Q) (p : Z) :
  In (s, p) (data_of entries)
  <-> exists e, In e entries
                /\ sleep_hours e = Some s /\ productivity e = Some p.
Proof.
  induction entries as [|e rest IH]; simpl.
  - split; [intros []|intros [e [[] _]]].
  - destruct (sleep_hours e) as [s0|] eqn:Es;
      [destruct (productivity e) as [p0|] eqn:Ep|]; simpl; rewrite ?IH.
    + split.
      * intros [[= <- <-]|[e' [Hin He']]].
        -- exists e. auto.
        -- exists e'. tauto.
      * intros [e' [[<-|Hin] [Hs Hp]]].
        -- left. congruence.
        -- right. exists e'. auto.
    + split.
      * intros [e' [Hin He']]. exists e'. tauto.
      * intros [e' [[<-|Hin] [Hs Hp]]]; [congruence|]. exists e'. auto.
    + split.
      * intros [e' [Hin He']]. exists e'. tauto.
      * intros [e' [[<-|Hin] [Hs Hp]]]; [congruence|]. exists e'. auto.
Qed.

End Prediction.

Section Burnout64.
Import Database Main.
Context {np : Numpy}.
Local Open Scope Q_scope.

(** Lower averages give a formula value no smaller: each operation
    rounds to the nearest double, and rounding keeps the order. *)
Lemma burnout_formula64_monotone (a1 p1 a2 p2 : Q) :
  a2 <= a1 -> p2 <= p1 ->
  burnout_formula64 a1 p1 <= burnout_formula64 a2 p2.
Proof.
  intros Ha Hp. unfold burnout_formula64, Binary64.add, Binary64.mul,
    Binary64.sub.
  assert (A : Binary64.rnd (10 - a1) <= Binary64.rnd (10 - a2))
    by (apply rnd_monotone; lra).
  assert (P : Binary64.rnd (10 - p1) <= Binary64.rnd (10 - p2))
    by (apply rnd_monotone; lra).
  assert (A8 : Binary64.rnd (Binary64.rnd (10 - a1) * 8)
               <= Binary64.rnd (Binary64.rnd (10 - a2) * 8))
    by (apply rnd_monotone; lra).
  assert (P6 : Binary64.rnd (Binary64.rnd (10 - p1) * 6)
               <= Binary64.rnd (Binary64.rnd (10 - p2) * 6))
    by (apply rnd_monotone; lra).
  apply rnd_monotone. lra.
Qed.

(** The score is the integer part of the clamped formula. *)
Lemma burnout_score64_value (db : Session) :
  entries db <> [] ->
  score (Main64.burnout_score db)
  = Qfloor (clamp 0 100
              (burnout_formula64 (np_mean (map sleep_hours (entries db)))
                                 (np_mean_int (map productivity (entries db))))).
Proof.
  intros Hne. unfold Main64.burnout_score.
  destruct (entries db) as [|e es] eqn:E; [contradiction|].
  rewrite <- E.
  fold (burnout_formula64 (np_mean (map sleep_hours (entries db)))
                          (np_mean_int (map productivity (entries db)))).
  set (raw := burnout_formula64 _ _).
  assert (Hc : Py.max 0 (Py.min 100 raw) == clamp 0 100 raw)
    by (apply max_min_clamp; lra).
  assert (Hs : Py.int (Py.max 0 (Py.min 100 raw)) = Qfloor (clamp 0 100 raw)).
  { rewrite int_nonneg.
    - now rewrite Hc.
    - rewrite Hc. apply clamp_bounds. lra. }
  rewrite Hs.
  destruct (_ >? 70)%Z; [reflexivity|].
  destruct (_ >? 40)%Z; reflexivity.
Qed.

Lemma burnout_score64_level (db : Session) :
  entries db <> [] ->
  let r := Main64.burnout_score db in
  ((70 < score r)%Z ->
     level r = "High"%string
     /\ message r = "You're at high risk of burnout. Consider rest and workload adjustment."%string)
  /\ ((40 < score r <= 70)%Z ->
     level r = "Moderate"%string
     /\ message r = "Some signs of fatigue detected. Small changes could help."%string)
  /\ ((score r <= 40)%Z ->
     level r = "Low"%string
     /\ message r = "Burnout risk is low. You're managing things well."%string).
Proof.
  intros Hne. unfold Main64.burnout_score.
  destruct (entries db) as [|e es] eqn:E; [contradiction|].
  set (s := Py.int _).
  destruct (Z.gtb_spec s 70) as [G70|L70]; cbn [score level message].
  - repeat split; intros; try reflexivity; lia.
  - destruct (Z.gtb_spec s 40) as [G40|L40]; cbn [score level message];
      repeat split; intros; try reflexivity; lia.
Qed.

(** C2 (as amended).  For a non-empty list of entries the score is the
    integer part of clamp(0, 100, (10 - avg_sleep) * 8
    + (10 - avg_productivity) * 6), where the two averages are what
    [np.mean] returns and the formula is evaluated in doubles; the level is
    "High" when that integer exceeds 70, "Moderate" when it exceeds 40 and
    "Low" otherwise, each with its fixed message. *)
Theorem burnout_score_formula (db : Session) :
  entries db <> [] ->
  let avg_sleep := np_mean (map sleep_hours (entries db)) in
  let avg_productivity := np_mean_int (map productivity (entries db)) in
  let r := Main64.burnout_score db in
  score r
  = Qfloor (clamp 0 100
              (Binary64.add
                 (Binary64.mul (Binary64.sub 10 avg_sleep) 8)
                 (Binary64.mul (Binary64.sub 10 avg_productivity) 6)))
  /\ ((70 < score r)%Z ->
        level r = "High"%string
        /\ message r = "You're at high risk of burnout. Consider rest and workload adjustment."%string)
  /\ ((40 < score r <= 70)%Z ->
        level r = "Moderate"%string
        /\ message r = "Some signs of fatigue detected. Small changes could help."%string)
  /\ ((score r <= 40)%Z ->
        level r = "Low"%string
        /\ message r = "Burnout risk is low. You're managing things well."%string).
Proof.
  intros Hne avg_sleep avg_productivity r. split.
  - now apply burnout_score64_value.
  - now apply burnout_score64_level.
Qed.

(** C3.  When the averages [np.mean] returns for a second non-empty list
    are no greater than those it returns for the first, the burnout score
    of the second is no smaller; and the score of a non-empty list lies
    between 0 and 100. *)
Theorem burnout_score_monotone (db1 db2 : Session) :
  entries db1 <> [] ->
  entries db2 <> [] ->
  (np_mean (map sleep_hours (entries db2))
   <= np_mean (map sleep_hours (entries db1)) ->
   np_mean_int (map productivity (entries db2))
   <= np_mean_int (map productivity (entries db1)) ->
   (score (Main64.burnout_score db1) <= score (Main64.burnout_score db2))%Z)
  /\ (0 <= score (Main64.burnout_score db1) <= 100)%Z.
Proof.
  intros H1 H2.
  rewrite !burnout_score64_value by assumption.
  split.
  - intros Hs Hp. apply Qfloor_resp_le, clamp_monotone; [lra|].
    now apply burnout_formula64_monotone.
  - apply floor_clamp_range.
Qed.

End Burnout64.

Lemma burnout_score_formula_witness :
  Main.score (Main64.burnout_score Sample.db_quarter) = 44
  /\ Main.level (Main64.burnout_score Sample.db_tired) = "High"%string.
Proof.
  split.
  - rewrite (proj1 (burnout_score_formula Sample.db_quarter
                      ltac:(discriminate))).
    vm_compute. reflexivity.
  - apply (burnout_score_formula Sample.db_tired ltac:(discriminate)).
    vm_compute. reflexivity.
Defined.

(** C2 as stated fails: with four nights of 8 hours and productivity
    5, 5, 5, 6 the two averages are 8 and 5.25, the clamped formula is
    44.5, and the score is 44. *)
Lemma burnout_score_not_the_clamp :
  (@np_mean Sample.in_order
     (map Database.sleep_hours (Database.entries Sample.db_quarter)) == 8)%Q
  /\ (@np_mean_int Sample.in_order
        (map Database.productivity (Database.entries Sample.db_quarter))
      == 21 # 4)%Q
  /\ (clamp 0 100 ((10 - 8) * 8 + (10 - (21 # 4)) * 6) == 89 # 2)%Q
  /\ Main.score (Main64.burnout_score Sample.db_quarter) = 44
  /\ ~ (inject_Z (Main.score (Main64.burnout_score Sample.db_quarter))
        == 89 # 2)%Q.
Proof.
  repeat split.
  intros E. vm_compute in E. discriminate.
Qed.

Lemma burnout_score_monotone_witness :
  Main.score (Main64.burnout_score Sample.db_rows')
  <= Main.score (Main64.burnout_score Sample.db_rows)
  /\ 0 <= Main.score (Main64.burnout_score Sample.db_rows') <= 100.
Proof.
  destruct (burnout_score_monotone Sample.db_rows' Sample.db_rows)
    as [M R]; try discriminate.
  split; [apply M; vm_compute; discriminate | exact R].
Defined.

Section Prediction64.
Import Predict.
Context {np : Numpy} {lm : LinearModel}.

(** C1 (as amended).  [train_and_predict] works on the pairs
    (sleep_hours, productivity) of the entries that have both fields.
    With no pair it returns 5.0, "no-data", 20.  With 1 to 3 pairs it
    returns mode "average", the mean [np.mean] gives for the productivity
    values rounded to 2 decimals, and confidence min(60, 30 + 10 * count).
    With 4 or more pairs it returns mode "regression", confidence 75, and
    the prediction of scikit-learn's least-squares fit at the target,
    clamped to [1, 10] and then rounded to 2 decimals, which lies in
    [1, 10]. *)
Theorem train_and_predict_modes (entries : list entry) (target : Q) :
  let data := data_of entries in
  let n := length data in
  let r := Predict64.train_and_predict entries target in
  (forall s p,
      In (s, p) data
      <-> exists e, In e entries
                    /\ sleep_hours e = Some s /\ productivity e = Some p)
  /\ (n = 0%nat -> r = mk_prediction 5 "no-data" 20)
  /\ ((1 <= n <= 3)%nat ->
      mode r = "average"%string
      /\ predicted_productivity r
         = Binary64.round (np_mean_int (map snd data)) 2
      /\ confidence r = Z.min 60 (30 + 10 * Z.of_nat n))
  /\ ((4 <= n)%nat ->
      mode r = "regression"%string
      /\ confidence r = 75
      /\ predicted_productivity r
         = Binary64.round
             (clamp 1 10 (fit_predict (map fst data) (map snd data) target)) 2
      /\ (1 <= predicted_productivity r <= 10)%Q).
Proof.
  intros data n r. split; [apply data_of_spec|].
  subst r. unfold Predict64.train_and_predict. fold data. fold n.
  split; [|split].
  - intros ->. reflexivity.
  - intros [L U].
    destruct (Nat.eqb_spec n 0) as [E|_]; [lia|].
    destruct (Nat.ltb_spec n 4) as [_|G]; [|lia].
    cbn [mode predicted_productivity confidence].
    repeat split. f_equal. lia.
  - intros G.
    destruct (Nat.eqb_spec n 0) as [E|_]; [lia|].
    destruct (Nat.ltb_spec n 4) as [L|_]; [lia|].
    cbn [mode predicted_productivity confidence].
    set (p := fit_predict _ _ _).
    assert (C : (Py.max 1 (Py.min 10 p) == clamp 1 10 p)%Q)
      by (apply max_min_clamp; lra).
    rewrite (round64_comp _ _ 2 C).
    repeat split;
      apply (round64_between 1 10); try (simpl; lia);
      apply (clamp_bounds 1 10); lra.
Qed.

End Prediction64.

Lemma train_and_predict_modes_witness :
  Predict64.train_and_predict [] 7 = Predict.mk_prediction 5 "no-data" 20
  /\ Predict64.train_and_predict Sample.two_pairs 7
     = Predict.mk_prediction 5 "average" 50
  /\ Predict.mode (Predict64.train_and_predict Sample.on_a_line (17 # 16))
     = "regression"%string.
Proof.
  destruct (train_and_predict_modes [] 7) as (_ & N & _).
  destruct (train_and_predict_modes Sample.two_pairs 7) as (_ & _ & A & _).
  destruct (train_and_predict_modes Sample.on_a_line (17 # 16))
    as (_ & _ & _ & R).
  split; [apply N; reflexivity|].
  split.
  - destruct A as (Am & Ap & Ac); [simpl; lia|].
    destruct (Predict64.train_and_predict Sample.two_pairs 7) as [p m c].
    simpl in Am, Ap, Ac. subst m p c. vm_compute. reflexivity.
  - apply R. simpl. lia.
Defined.

(** C1 as stated fails in the regression mode: the four pairs (0,1),
    (1,2), (2,3), (3,4) lie on the line y = x + 1, whose value at 1.0625
    is 2.0625, inside [1, 10]; what is returned is 2.06. *)
Lemma regression_prediction_is_rounded :
  (@fit_predict Sample.normal_equations
     (map fst (Predict.data_of Sample.on_a_line))
     (map snd (Predict.data_of Sample.on_a_line)) (17 # 16) == 33 # 16)%Q
  /\ (clamp 1 10 (33 # 16) == 33 # 16)%Q
  /\ Predict.predicted_productivity
       (Predict64.train_and_predict Sample.on_a_line (17 # 16))
     = Binary64.literal (206 # 100)
  /\ ~ (Predict.predicted_productivity
          (Predict64.train_and_predict Sample.on_a_line (17 # 16))
        == 33 # 16)%Q.
Proof.
  repeat split.
  intros E. vm_compute in E. discriminate.
Qed.

Section MaxBy.
Context {A : Type} (key : A -> Q).

(** [max] returns the first element among those of greatest key: what
    precedes it is strictly smaller, what follows is no greater. *)
Lemma max_by_from_split (l pre mid : list A) (x : A) :
  (forall b, In b pre -> (key b < key x)%Q) ->
  (forall b, In b mid -> (key b <= key x)%Q) ->
  exists pre' post,
    pre ++ x :: mid ++ l = pre' ++ Py.max_by_from key x l :: post
    /\ (forall b, In b pre' -> (key b < key (Py.max_by_from key x l))%Q)
    /\ (forall b, In b post -> (key b <= key (Py.max_by_from key x l))%Q).
Proof.
  revert pre mid x.
  induction l as [|z l IH]; intros pre mid x Hpre Hmid; simpl.
  - exists pre, mid. rewrite app_nil_r. auto.
  - destruct (Py.ltb (key x) (key z)) eqn:E.
    + apply ltb_true in E.
      destruct (IH (pre ++ x :: mid) [] z) as (pre' & post & Heq & H1 & H2).
      * intros b Hb. apply in_app_or in Hb.
        destruct Hb as [Hb|[<-|Hb]]; [apply Hpre in Hb; lra | exact E |].
        apply Hmid in Hb. lra.
      * intros b [].
      * exists pre', post. split; [|auto].
        rewrite <- Heq. rewrite <- app_assoc. reflexivity.
    + apply ltb_false in E.
      destruct (IH pre (mid ++ [z]) x Hpre) as (pre' & post & Heq & H1 & H2).
      * intros b Hb. apply in_app_or in Hb.
        destruct Hb as [Hb|[<-|[]]]; [now apply Hmid | exact E].
      * exists pre', post. split; [|auto].
        rewrite <- Heq. rewrite <- app_assoc. reflexivity.
Qed.

Lemma max_by_split (l : list A) :
  l <> [] ->
  exists pre best post,
    Py.max_by key l = Some best
    /\ l = pre ++ best :: post
    /\ (forall b, In b pre -> (key b < key best)%Q)
    /\ (forall b, In b post -> (key b <= key best)%Q).
Proof.
  destruct l as [|x l]; [contradiction|intros _]. simpl.
  destruct (max_by_from_split l [] [] x) as (pre & post & Heq & H1 & H2);
    try (intros b []).
  exists pre, (Py.max_by_from key x l), post. auto.
Qed.

End MaxBy.

Section Buckets.
Import Database Main.

Lemma Qeq_bool_comm a b : Qeq_bool a b = Qeq_bool b a.
Proof.
  destruct (Qeq_bool a b) eqn:E1, (Qeq_bool b a) eqn:E2; try reflexivity.
  - apply Qeq_bool_sym in E1. congruence.
  - apply Qeq_bool_sym in E2. congruence.
Qed.

Lemma Qeq_bool_same a b c :
  Qeq_bool a b = true -> Qeq_bool a c = Qeq_bool b c.
Proof.
  intros E.
  destruct (Qeq_bool a c) eqn:E1, (Qeq_bool b c) eqn:E2; try reflexivity.
  - apply Qeq_bool_sym in E.
    rewrite (Qeq_bool_trans _ _ _ E E1) in E2. discriminate.
  - rewrite (Qeq_bool_trans _ _ _ E E2) in E1. discriminate.
Qed.

Lemma existsb_false_in {B} (f : B -> bool) (l : list B) (x : B) :
  existsb f l = false -> In x l -> f x = false.
Proof.
  intros Hf Hin. destruct (f x) eqn:E; [|reflexivity].
  assert (T : existsb f l = true) by (apply existsb_exists; eauto).
  congruence.
Qed.

(** Appending to a dict whose keys are [ks] and whose lists are [f k]. *)
Lemma bucket_append_map (f : Q -> list Z) (kx : Q) (p : Z) (ks : list Q) :
  distinct ks ->
  bucket_append kx p (map (fun k => (k, f k)) ks)
  = map (fun k => (k, f k ++ (if Qeq_bool k kx then [p] else []))) ks
    ++ (if existsb (Qeq_bool kx) ks then [] else [(kx, [p])]).
Proof.
  induction 1 as [|k ks Hk Hd IH]; simpl; [reflexivity|].
  rewrite (Qeq_bool_comm kx k).
  destruct (Qeq_bool k kx) eqn:E; simpl.
  - f_equal. rewrite app_nil_r.
    apply map_ext_in. intros k' Hin.
    assert (N : Qeq_bool k' kx = false).
    { rewrite Qeq_bool_comm, <- (Qeq_bool_same _ _ _ E).
      destruct (Qeq_bool k k') eqn:E'; [|reflexivity].
      rewrite (existsb_false_in _ _ _ Hk Hin) in E'. discriminate. }
    rewrite N, app_nil_r. reflexivity.
  - rewrite IH, app_nil_r. reflexivity.
Qed.

End Buckets.

Section Grouping.
Import Database Main.

Lemma existsb_false_intro {B} (f : B -> bool) (l : list B) :
  (forall x, In x l -> f x = false) -> existsb f l = false.
Proof.
  induction l as [|y l IH]; intros Hf; simpl; [reflexivity|].
  rewrite (Hf y (or_introl eq_refl)), IH; [reflexivity|].
  intros x Hx. apply Hf. now right.
Qed.

(** A key equal to a seen one is seen. *)
Lemma existsb_Qeq_same a b l :
  Qeq_bool a b = true ->
  existsb (Qeq_bool a) l = existsb (Qeq_bool b) l.
Proof.
  intros E. induction l as [|y l IH]; simpl; [reflexivity|].
  now rewrite IH, (Qeq_bool_same _ _ _ E).
Qed.

Lemma first_occurrences_snoc (seen l : list Q) (x : Q) :
  first_occurrences seen (l ++ [x])
  = first_occurrences seen l
    ++ (if existsb (Qeq_bool x) (seen ++ l) then [] else [x]).
Proof.
  revert seen. induction l as [|k l IH]; intros seen; simpl.
  - rewrite app_nil_r. destruct (existsb (Qeq_bool x) seen); reflexivity.
  - assert (P : forall s, existsb (Qeq_bool x) (s ++ k :: l)
                          = Qeq_bool x k || existsb (Qeq_bool x) (s ++ l)).
    { intros s. rewrite !existsb_app. simpl.
      destruct (existsb (Qeq_bool x) s), (Qeq_bool x k); reflexivity. }
    destruct (existsb (Qeq_bool k) seen) eqn:Ek.
    + rewrite IH, P.
      destruct (Qeq_bool x k) eqn:Exk; [|reflexivity]. simpl.
      rewrite existsb_app, (existsb_Qeq_same _ _ _ Exk), Ek. reflexivity.
    + rewrite IH. simpl. rewrite P. reflexivity.
Qed.

Lemma first_occurrences_unseen (seen l : list Q) (k : Q) :
  In k (first_occurrences seen l) -> existsb (Qeq_bool k) seen = false.
Proof.
  revert seen. induction l as [|y l IH]; intros seen; simpl; [intros []|].
  destruct (existsb (Qeq_bool y) seen) eqn:Ey.
  - apply IH.
  - intros [<-|Hin]; [exact Ey|].
    apply IH in Hin. simpl in Hin. apply orb_false_iff in Hin. tauto.
Qed.

Lemma first_occurrences_distinct (seen l : list Q) :
  distinct (first_occurrences seen l).
Proof.
  revert seen. induction l as [|y l IH]; intros seen; simpl.
  - constructor.
  - destruct (existsb (Qeq_bool y) seen); [apply IH|].
    constructor; [|apply IH].
    apply existsb_false_intro. intros k Hk.
    apply first_occurrences_unseen in Hk. simpl in Hk.
    apply orb_false_iff in Hk. rewrite Qeq_bool_comm. tauto.
Qed.

Lemma first_occurrences_covers (seen l : list Q) (x : Q) :
  existsb (Qeq_bool x) seen || existsb (Qeq_bool x) (first_occurrences seen l)
  = existsb (Qeq_bool x) seen || existsb (Qeq_bool x) l.
Proof.
  revert seen. induction l as [|y l IH]; intros seen; simpl; [reflexivity|].
  destruct (existsb (Qeq_bool y) seen) eqn:Ey.
  - rewrite IH. destruct (Qeq_bool x y) eqn:Exy; [|reflexivity].
    rewrite (existsb_Qeq_same _ _ _ Exy), Ey. reflexivity.
  - simpl. specialize (IH (y :: seen)). simpl in IH.
    destruct (Qeq_bool x y), (existsb (Qeq_bool x) seen); simpl in *;
      auto.
Qed.

End Grouping.

Section GroupingBy.
Import Database Main.
Variable key : Entry -> Q.

Lemma members_by_snoc (k : Q) (pre : list Entry) (e : Entry) :
  members_by key k (pre ++ [e])
  = members_by key k pre
    ++ (if Qeq_bool k (key e) then [productivity e] else []).
Proof.
  unfold members_by. rewrite filter_app, map_app. simpl.
  rewrite (Qeq_bool_comm k). destruct (Qeq_bool (key e) k); reflexivity.
Qed.

Lemma members_by_unseen (k : Q) (pre : list Entry) :
  existsb (Qeq_bool k) (map key pre) = false ->
  members_by key k pre = [].
Proof.
  intros Hk. unfold members_by.
  induction pre as [|e pre IH]; simpl in *; [reflexivity|].
  apply orb_false_iff in Hk. destruct Hk as [H1 H2].
  rewrite Qeq_bool_comm, H1. now apply IH.
Qed.

(** One turn of the loop of [best_sleep_range] extends the grouping by
    one entry. *)
Lemma bucket_append_grouped_by (pre : list Entry) (e : Entry) :
  bucket_append (key e) (productivity e) (grouped_by key pre)
  = grouped_by key (pre ++ [e]).
Proof.
  unfold grouped_by.
  rewrite (bucket_append_map (fun k => members_by key k pre))
    by apply first_occurrences_distinct.
  replace (map key (pre ++ [e])) with (map key pre ++ [key e])
    by (rewrite map_app; reflexivity).
  rewrite first_occurrences_snoc.
  change ([] ++ map key pre) with (map key pre).
  pose proof (first_occurrences_covers [] (map key pre) (key e)) as Hc.
  simpl in Hc. rewrite Hc.
  rewrite map_app. f_equal.
  - apply map_ext. intros k. now rewrite members_by_snoc.
  - destruct (existsb (Qeq_bool (key e)) (map key pre)) eqn:Ee; simpl;
      [reflexivity|].
    rewrite members_by_snoc, (members_by_unseen _ _ Ee).
    now rewrite Qeq_bool_refl.
Qed.

(** The dict the loop builds is the grouping of the entries. *)
Lemma fold_bucket_append_grouped_by (entries : list Entry) :
  fold_left
    (fun buckets e => bucket_append (key e) (productivity e) buckets)
    entries []
  = grouped_by key entries.
Proof.
  assert (G : forall suf pre,
             fold_left
               (fun buckets e =>
                  bucket_append (key e) (productivity e) buckets)
               suf (grouped_by key pre)
             = grouped_by key (pre ++ suf)).
  { induction suf as [|e suf IH]; intros pre; simpl.
    - now rewrite app_nil_r.
    - rewrite bucket_append_grouped_by, IH, <- app_assoc. reflexivity. }
  apply (G entries []).
Qed.

Lemma grouped_by_nonempty (entries : list Entry) :
  entries <> [] -> grouped_by key entries <> [].
Proof.
  unfold grouped_by. destruct entries as [|e es]; [contradiction|].
  simpl. discriminate.
Qed.

End GroupingBy.

Section Buckets64.
Import Database Main.

Lemma buckets_of_grouped (entries : list Entry) :
  buckets_of entries = grouped entries.
Proof. exact (fold_bucket_append_grouped_by sleep_bucket entries). Qed.

Lemma buckets_of64_grouped (entries : list Entry) :
  Main64.buckets_of entries = grouped_by sleep_bucket64 entries.
Proof. exact (fold_bucket_append_grouped_by sleep_bucket64 entries). Qed.

(** C6.  For a non-empty list of entries, the dict built by
    /analysis/best-sleep-range is the grouping of the entries by sleep
    hours rounded to one decimal, buckets in first-encountered order; the
    endpoint returns a bucket of that grouping and its mean productivity
    rounded to 2 decimals; every bucket before it has a strictly smaller
    mean and every bucket after it a mean no greater, so among the buckets
    of highest mean the first-encountered one is returned.  Rounding and
    means are those of the code: [round] on the stored double, and the
    quotient [sum / len] as a double. *)
Theorem best_sleep_range_first_maximum (db : Session) :
  entries db <> [] ->
  Main64.buckets_of (entries db) = grouped_by sleep_bucket64 (entries db)
  /\ exists before k members after,
       grouped_by sleep_bucket64 (entries db) = before ++ (k, members) :: after
       /\ members = members_by sleep_bucket64 k (entries db)
       /\ Main64.best_sleep_range db
          = Ok (Best k (Binary64.round (mean64 members) 2))
       /\ (forall b, In b before -> (mean64 (snd b) < mean64 members)%Q)
       /\ (forall b, In b after -> (mean64 (snd b) <= mean64 members)%Q).
Proof.
  intros Hne. split; [apply buckets_of64_grouped|].
  pose proof (grouped_by_nonempty sleep_bucket64 _ Hne) as Hg.
  destruct (max_by_split Main64.bucket_mean _ Hg)
    as (before & [k members] & after & Hmax & Hsplit & Hlt & Hle).
  exists before, k, members, after.
  split; [exact Hsplit|]. split; [|split; [|split]].
  - assert (Hin : In (k, members) (grouped_by sleep_bucket64 (entries db))).
    { rewrite Hsplit. apply in_or_app. right. now left. }
    unfold grouped_by in Hin. apply in_map_iff in Hin.
    destruct Hin as (k' & [= <- <-] & _). reflexivity.
  - unfold Main64.best_sleep_range. rewrite buckets_of64_grouped, Hmax.
    destruct (entries db); [contradiction|]. reflexivity.
  - exact Hlt.
  - exact Hle.
Qed.

End Buckets64.

Lemma best_sleep_range_first_maximum_witness :
  Main64.best_sleep_range Sample.db_buckets64 = Ok (Main.Best 8 6)
  /\ exists before k members after,
       grouped_by sleep_bucket64 (Database.entries Sample.db_buckets64)
       = before ++ (k, members) :: after
       /\ Main64.best_sleep_range Sample.db_buckets64
          = Ok (Main.Best k (Binary64.round (mean64 members) 2)).
Proof.
  split; [vm_compute; reflexivity|].
  destruct (best_sleep_range_first_maximum Sample.db_buckets64)
    as (_ & before & k & members & after & Hs & _ & Hb & _);
    [discriminate|].
  exists before, k, members, after. split; assumption.
Defined.

Section Text.
Local Open Scope string_scope.

Lemma string_app_assoc (a b c : string) : (a ++ b) ++ c = a ++ (b ++ c).
Proof. induction a as [|x a IH]; simpl; [reflexivity|now rewrite IH]. Qed.

Lemma string_app_nil_r (a : string) : a ++ "" = a.
Proof. induction a as [|x a IH]; simpl; [reflexivity|now rewrite IH]. Qed.

Lemma all_chars_app p (a b : string) :
  all_chars p (a ++ b) = all_chars p a && all_chars p b.
Proof.
  induction a as [|x a IH]; simpl; [reflexivity|].
  rewrite IH. now rewrite andb_assoc.
Qed.

Lemma all_chars_impl (p q : ascii -> bool) (s : string) :
  (forall c, p c = true -> q c = true) ->
  all_chars p s = true -> all_chars q s = true.
Proof.
  intros Hpq. induction s as [|x s IH]; simpl; [reflexivity|].
  intros H. apply andb_true_iff in H. destruct H as [Hx Hs].
  now rewrite (Hpq _ Hx), IH.
Qed.

Lemma digit_plain (c : ascii) :
  is_digit c = true -> negb (Csv.special c) = true.
Proof.
  destruct c as [[|] [|] [|] [|] [|] [|] [|] [|]];
    intros H; try discriminate H; reflexivity.
Qed.

Lemma digit_not_dash (c : ascii) :
  is_digit c = true -> Ascii.eqb c "-" = false.
Proof.
  destruct c as [[|] [|] [|] [|] [|] [|] [|] [|]];
    intros H; try discriminate H; reflexivity.
Qed.

Lemma string_of_uint_digits (d : Decimal.uint) :
  all_chars is_digit (NilEmpty.string_of_uint d) = true.
Proof. induction d; simpl; auto. Qed.

Lemma to_uint_nonnil (n : nat) : Nat.to_uint n <> Decimal.Nil.
Proof.
  rewrite <- (DecimalNat.Unsigned.of_to n) at 1.
  rewrite DecimalNat.Unsigned.to_of. apply DecimalFacts.unorm_nonnil.
Qed.

Lemma str_nat_nil_empty (n : nat) :
  Py.str_nat n = NilEmpty.string_of_uint (Nat.to_uint n).
Proof.
  unfold Py.str_nat, NilZero.string_of_uint.
  pose proof (to_uint_nonnil n) as N.
  destruct (Nat.to_uint n); [contradiction|..]; reflexivity.
Qed.

Lemma str_nat_digits (n : nat) : all_chars is_digit (Py.str_nat n) = true.
Proof. rewrite str_nat_nil_empty. apply string_of_uint_digits. Qed.

Lemma zeros_digits (k : nat) : all_chars is_digit (Main.zeros k) = true.
Proof. induction k; simpl; auto. Qed.

Lemma zero_padded_digits (w n : nat) :
  all_chars is_digit (Main.zero_padded w n) = true.
Proof.
  unfold Main.zero_padded.
  now rewrite all_chars_app, zeros_digits, str_nat_digits.
Qed.

Lemma uint_of_zeros (k : nat) (s : string) :
  NilEmpty.uint_of_string (Main.zeros k ++ s)
  = option_map (Nat.iter k Decimal.D0) (NilEmpty.uint_of_string s).
Proof.
  induction k as [|k IH]; simpl.
  - destruct (NilEmpty.uint_of_string s); reflexivity.
  - rewrite IH. destruct (NilEmpty.uint_of_string s); reflexivity.
Qed.

Lemma of_uint_leading_zeros (k : nat) (d : Decimal.uint) :
  Nat.of_uint (Nat.iter k Decimal.D0 d) = Nat.of_uint d.
Proof.
  induction k as [|k IH]; simpl; [reflexivity|].
  rewrite <- IH. reflexivity.
Qed.

(** A zero-padded number reads back. *)
Lemma parse_nat_zero_padded (w n : nat) :
  parse_nat (Main.zero_padded w n) = Some n.
Proof.
  unfold parse_nat, Main.zero_padded, NilZero.uint_of_string.
  set (k := (w - String.length (Py.str_nat n))%nat).
  assert (E : NilEmpty.uint_of_string (Main.zeros k ++ Py.str_nat n)
              = Some (Nat.iter k Decimal.D0 (Nat.to_uint n))).
  { rewrite uint_of_zeros, str_nat_nil_empty, NilEmpty.usu. reflexivity. }
  destruct (Main.zeros k ++ Py.str_nat n) eqn:Es.
  - exfalso. destruct k; simpl in Es; [|discriminate].
    rewrite str_nat_nil_empty in Es.
    pose proof (to_uint_nonnil n) as N.
    destruct (Nat.to_uint n); [contradiction|..]; discriminate.
  - rewrite E. simpl.
    now rewrite of_uint_leading_zeros, DecimalNat.Unsigned.of_to.
Qed.

(** The text of an int is digits after an optional sign, and reads back. *)
Lemma str_int_plain (z : Z) : plain (Py.str_int z) = true.
Proof.
  unfold plain, Py.str_int.
  assert (D : forall d, all_chars (fun c => negb (Csv.special c))
                          (NilZero.string_of_uint d) = true).
  { intros d. unfold NilZero.string_of_uint.
    destruct d; try reflexivity;
      apply (all_chars_impl is_digit); try apply digit_plain;
      apply string_of_uint_digits. }
  destruct z; simpl; try apply D. reflexivity.
Qed.

Lemma parse_int_str_int (z : Z) : parse_int (Py.str_int z) = Some z.
Proof.
  unfold parse_int, Py.str_int.
  rewrite NilZero.isi.
  - simpl. now rewrite DecimalZ.of_to.
  - destruct z; simpl; try discriminate.
    intros [= E]. now apply DecimalPos.Unsigned.to_uint_nonnil in E.
  - destruct z; simpl; try discriminate.
    intros [= E]. now apply DecimalPos.Unsigned.to_uint_nonnil in E.
Qed.

Lemma split_on_none (c : ascii) (s : string) :
  all_chars (fun a => negb (Ascii.eqb a c)) s = true ->
  split_on c s = [s].
Proof.
  induction s as [|a s IH]; simpl; [reflexivity|].
  intros H. apply andb_true_iff in H. destruct H as [Ha Hs].
  apply negb_true_iff in Ha. rewrite Ha, (IH Hs). reflexivity.
Qed.

Lemma split_on_app (c : ascii) (s rest : string) :
  all_chars (fun a => negb (Ascii.eqb a c)) s = true ->
  split_on c (s ++ String c rest) = s :: split_on c rest.
Proof.
  induction s as [|a s IH]; simpl.
  - now rewrite Ascii.eqb_refl.
  - intros H. apply andb_true_iff in H. destruct H as [Ha Hs].
    apply negb_true_iff in Ha. rewrite Ha, (IH Hs). reflexivity.
Qed.

Lemma zero_padded_no_dash (w n : nat) :
  all_chars (fun a => negb (Ascii.eqb a "-")) (Main.zero_padded w n) = true.
Proof.
  apply (all_chars_impl is_digit); [|apply zero_padded_digits].
  intros c Hc. now rewrite (digit_not_dash _ Hc).
Qed.

(** The ISO text of a date is plain and reads back. *)
Lemma parse_date_date_str (d : Database.Date) :
  parse_date (Main.date_str d) = Some d.
Proof.
  unfold parse_date, Main.date_str.
  change ("-" ++ ?x) with (String "-" x).
  rewrite split_on_app by apply zero_padded_no_dash.
  change (("-" ++ Main.zero_padded 2 (Database.day d)))
    with (String "-" (Main.zero_padded 2 (Database.day d))).
  rewrite split_on_app by apply zero_padded_no_dash.
  rewrite split_on_none by apply zero_padded_no_dash.
  rewrite !parse_nat_zero_padded. now destruct d.
Qed.

Lemma date_str_plain (d : Database.Date) : plain (Main.date_str d) = true.
Proof.
  unfold plain, Main.date_str.
  assert (P : forall w n, all_chars (fun c => negb (Csv.special c))
                            (Main.zero_padded w n) = true).
  { intros w n. apply (all_chars_impl is_digit);
      [apply digit_plain | apply zero_padded_digits]. }
  rewrite !all_chars_app, !P. reflexivity.
Qed.

End Text.

Section CsvReading.
Import Csv.
Local Open Scope string_scope.

Lemma plain_cons (c : ascii) (s : string) :
  plain (String c s) = true ->
  is_newline c = false /\ Ascii.eqb c quotechar = false
  /\ Ascii.eqb c delimiter = false /\ plain s = true.
Proof.
  unfold plain. simpl. intros H.
  apply andb_true_iff in H. destruct H as [Hc Hs].
  apply negb_true_iff in Hc. unfold special in Hc.
  repeat (apply orb_false_iff in Hc; destruct Hc as [Hc ?]).
  unfold is_newline. repeat split; try assumption.
  apply orb_false_iff. split; assumption.
Qed.

Lemma write_field_plain (s : string) : plain s = true -> write_field s = s.
Proof.
  intros Hp. unfold write_field.
  assert (N : has_special s = false).
  { induction s as [|c s IH]; simpl; [reflexivity|].
    unfold plain in Hp. simpl in Hp.
    apply andb_true_iff in Hp. destruct Hp as [Hc Hs].
    apply negb_true_iff in Hc. rewrite Hc. now apply IH. }
  now rewrite N.
Qed.

(** After the line terminator the reader is at the start of a record. *)
Lemma eat_is_start (input : string) :
  reader_go EatCRNL "" [] input = reader_go StartRecord "" [] input.
Proof.
  destruct input as [|c rest]; simpl; [reflexivity|].
  destruct (is_newline c); [reflexivity|].
  destruct (Ascii.eqb c quotechar); [reflexivity|].
  destruct (Ascii.eqb c delimiter); reflexivity.
Qed.

Lemma read_in_field (s acc : string) (fields : list string) (rest : string) :
  plain s = true ->
  reader_go InField acc fields (s ++ rest)
  = reader_go InField (acc ++ s) fields rest.
Proof.
  revert acc. induction s as [|c s IH]; intros acc Hp; simpl.
  - now rewrite string_app_nil_r.
  - apply plain_cons in Hp. destruct Hp as (Hn & _ & Hd & Hs).
    rewrite Hn, Hd, (IH _ Hs). unfold snoc.
    now rewrite string_app_assoc.
Qed.

(** Reading a plain field from the start of a record or of a field. *)
Lemma read_field_start (st : state) (c : ascii) (s : string)
    (fields : list string) (rest : string) :
  st = StartRecord \/ st = StartField ->
  plain (String c s) = true ->
  reader_go st "" fields (String c s ++ rest)
  = reader_go InField (String c s) fields rest.
Proof.
  intros Hst Hp. pose proof Hp as Hp'.
  apply plain_cons in Hp'. destruct Hp' as (Hn & Hq & Hd & Hs).
  destruct Hst as [-> | ->]; simpl; rewrite Hn, Hq, Hd;
    now rewrite (read_in_field _ _ _ _ Hs).
Qed.

Lemma read_field_then_delimiter (st : state) (s : string)
    (fields : list string) (rest : string) :
  st = StartRecord \/ st = StartField ->
  plain s = true ->
  reader_go st "" fields (s ++ String delimiter rest)
  = reader_go StartField "" (fields ++ [s])%list rest.
Proof.
  intros Hst Hp. destruct s as [|c s].
  - destruct Hst as [-> | ->]; reflexivity.
  - rewrite (read_field_start _ _ _ _ _ Hst Hp). reflexivity.
Qed.

Lemma read_field_then_newline (s : string) (fields : list string)
    (rest : string) :
  plain s = true ->
  reader_go StartField "" fields (s ++ lineterminator ++ rest)
  = (fields ++ [s])%list :: reader_go StartRecord "" [] rest.
Proof.
  intros Hp. destruct s as [|c s].
  - simpl. now rewrite eat_is_start.
  - rewrite (read_field_start StartField _ _ _ _ (or_intror eq_refl) Hp).
    simpl. now rewrite eat_is_start.
Qed.

(** The rest of a row, read from the start of a field. *)
Lemma read_row_from_field (fs : list string) (fields : list string)
    (rest : string) :
  fs <> [] ->
  Forall (fun f => plain f = true) fs ->
  reader_go StartField "" fields (join_fields fs ++ lineterminator ++ rest)
  = (fields ++ fs)%list :: reader_go StartRecord "" [] rest.
Proof.
  intros Hne Hp. revert fields.
  induction Hp as [|f fs Hf Hfs IH]; [contradiction|]. intros fields.
  destruct fs as [|f2 more].
  - simpl join_fields. rewrite (write_field_plain _ Hf).
    now apply read_field_then_newline.
  - change (join_fields (f :: f2 :: more))
      with (write_field f ++ String delimiter (join_fields (f2 :: more))).
    rewrite (write_field_plain _ Hf), string_app_assoc.
    change (String delimiter (join_fields (f2 :: more))
            ++ lineterminator ++ rest)
      with (String delimiter
              (join_fields (f2 :: more) ++ lineterminator ++ rest)).
    rewrite (read_field_then_delimiter StartField _ _ _
               (or_intror eq_refl) Hf).
    rewrite IH by discriminate. now rewrite <- app_assoc.
Qed.

Lemma writerow_two (f f2 : string) (more : list string) :
  writerow (f :: f2 :: more) = join_fields (f :: f2 :: more) ++ lineterminator.
Proof. destruct f; reflexivity. Qed.

(** A written row of two or more plain fields reads back as itself. *)
Lemma read_written_row (f f2 : string) (more : list string) (rest : string) :
  Forall (fun x => plain x = true) (f :: f2 :: more) ->
  reader_go StartRecord "" [] (writerow (f :: f2 :: more) ++ rest)
  = (f :: f2 :: more) :: reader_go StartRecord "" [] rest.
Proof.
  intros Hp. inversion Hp as [|? ? Hf Hrest]; subst.
  rewrite writerow_two, string_app_assoc.
  change (join_fields (f :: f2 :: more))
    with (write_field f ++ String delimiter (join_fields (f2 :: more))).
  rewrite (write_field_plain _ Hf), string_app_assoc.
  change (String delimiter (join_fields (f2 :: more))
          ++ lineterminator ++ rest)
    with (String delimiter
            (join_fields (f2 :: more) ++ lineterminator ++ rest)).
  rewrite (read_field_then_delimiter StartRecord _ _ _
             (or_introl eq_refl) Hf).
  now rewrite read_row_from_field by (assumption || discriminate).
Qed.

Lemma fold_left_append {A} (g : A -> string) (l : list A) (init : string) :
  fold_left (fun output x => output ++ g x) l init
  = init ++ concat_text (map g l).
Proof.
  revert init. induction l as [|x l IH]; intros init; simpl.
  - now rewrite string_app_nil_r.
  - now rewrite IH, string_app_assoc.
Qed.

End CsvReading.

Section CsvExport.
Import Database Main.
Context {text : FloatText}.

Lemma csv_row_plain (e : Entry) :
  float_text_ok e -> Forall (fun x => plain x = true) (csv_row e).
Proof.
  intros [Hp _]. unfold csv_row.
  repeat constructor;
    [apply date_str_plain | exact Hp | apply str_int_plain
     | apply str_int_plain].
Qed.

Lemma parse_row_csv_row (e : Entry) :
  float_text_ok e -> parse_row (csv_row e) = Some (entry_tuple e).
Proof.
  intros [_ Hf]. unfold parse_row, csv_row.
  now rewrite parse_date_date_str, Hf, !parse_int_str_int.
Qed.

Lemma read_written_rows (es : list Entry) :
  Forall float_text_ok es ->
  Csv.reader_go Csv.StartRecord EmptyString []
    (concat_text (map (fun e => Csv.writerow (csv_row e)) es))
  = map csv_row es.
Proof.
  induction 1 as [|e es He Hes IH]; [reflexivity|].
  cbn [map concat_text fold_right].
  change (fold_right String.append EmptyString) with concat_text.
  pose proof (csv_row_plain e He) as Hp.
  unfold csv_row in Hp |- * at 1.
  rewrite (read_written_row _ _ _ _ Hp).
  now rewrite IH.
Qed.

(** C7.  The text produced by /export/csv reads back as the header row
    Date, Sleep Hours, Mood, Productivity followed by one row per entry,
    in the order of the query, and each data row parses to the
    (date, sleep_hours, mood, productivity) tuple of its entry; this for
    every entry set whose floats print to plain text that reads back. *)
Theorem export_csv_round_trip (db : Session) :
  Forall float_text_ok (entries db) ->
  exists rows,
    Csv.reader (export_csv db)
    = ["Date"; "Sleep Hours"; "Mood"; "Productivity"]%string :: rows
    /\ map parse_row rows
       = map (fun e => Some (entry_tuple e)) (entries db).
Proof.
  intros Hok. exists (map csv_row (entries db)). split.
  - unfold export_csv, Csv.reader.
    rewrite (fold_left_append (fun e => Csv.writerow (csv_row e))).
    unfold csv_header.
    rewrite read_written_row by (repeat constructor).
    now rewrite read_written_rows.
  - rewrite map_map. apply map_ext_in. intros e He.
    apply parse_row_csv_row.
    rewrite Forall_forall in Hok. now apply Hok.
Qed.

End CsvExport.

Lemma export_csv_round_trip_witness :
  exists rows,
    Csv.reader (Main.export_csv Sample.db0)
    = ["Date"; "Sleep Hours"; "Mood"; "Productivity"]%string :: rows
    /\ map parse_row rows
       = [Some (entry_tuple Sample.e1); Some (entry_tuple Sample.e2)].
Proof.
  apply (export_csv_round_trip Sample.db0).
  repeat constructor.
Defined.

(* ================================================================== *)
(** ** Further properties of the endpoints *)

Section Chronology.
Import Database Main.

Lemma date_leb_total a b : date_leb a b = false -> date_leb b a = true.
Proof.
  unfold date_leb.
  destruct (Nat.ltb_spec (year a) (year b)); [discriminate|].
  destruct (Nat.ltb_spec (year b) (year a)); [reflexivity|].
  destruct (Nat.ltb_spec (month a) (month b)); [discriminate|].
  destruct (Nat.ltb_spec (month b) (month a)); [reflexivity|].
  intros L. apply Nat.leb_gt in L. apply Nat.leb_le. lia.
Qed.

Lemma date_leb_trans a b c :
  date_leb a b = true -> date_leb b c = true -> date_leb a c = true.
Proof.
  unfold date_leb.
  destruct (Nat.ltb_spec (year a) (year b));
    destruct (Nat.ltb_spec (year b) (year a));
    destruct (Nat.ltb_spec (year b) (year c));
    destruct (Nat.ltb_spec (year c) (year b));
    destruct (Nat.ltb_spec (year a) (year c));
    destruct (Nat.ltb_spec (year c) (year a));
    try discriminate; try reflexivity; try lia;
    destruct (Nat.ltb_spec (month a) (month b));
    destruct (Nat.ltb_spec (month b) (month a));
    destruct (Nat.ltb_spec (month b) (month c));
    destruct (Nat.ltb_spec (month c) (month b));
    destruct (Nat.ltb_spec (month a) (month c));
    destruct (Nat.ltb_spec (month c) (month a));
    try discriminate; try reflexivity; try lia;
    rewrite !Nat.leb_le; lia.
Qed.

Lemma insert_by_date_permutation e l :
  Permutation (e :: l) (insert_by_date e l).
Proof.
  induction l as [|x l IH]; simpl; [reflexivity|].
  destruct (date_leb (date x) (date e)); [|reflexivity].
  rewrite perm_swap. now apply perm_skip.
Qed.

Lemma insert_by_date_sorted e l :
  Sorted by_date l -> Sorted by_date (insert_by_date e l).
Proof.
  induction 1 as [|x l Hs IH Hhd]; simpl.
  - repeat constructor.
  - destruct (date_leb (date x) (date e)) eqn:E.
    + constructor; [exact IH|].
      destruct l as [|y l]; simpl.
      * constructor. exact E.
      * inversion Hhd; subst.
        destruct (date_leb (date y) (date e)); constructor; assumption.
    + constructor; [now constructor|].
      constructor. now apply date_leb_total.
Qed.

Lemma order_by_date_permutation l : Permutation l (order_by_date l).
Proof.
  unfold order_by_date.
  assert (G : forall acc,
             Permutation (acc ++ l)
               (fold_left (fun a e => insert_by_date e a) l acc)).
  { induction l as [|x l IH]; intros acc; simpl.
    - now rewrite app_nil_r.
    - apply (Permutation_trans (l' := insert_by_date x acc ++ l));
        [|apply IH].
      apply (Permutation_trans (l' := (x :: acc) ++ l));
        [symmetry; apply Permutation_middle|].
      apply Permutation_app_tail, insert_by_date_permutation. }
  apply (G []).
Qed.

Lemma order_by_date_sorted l : Sorted by_date (order_by_date l).
Proof.
  unfold order_by_date.
  assert (G : forall acc, Sorted by_date acc ->
             Sorted by_date (fold_left (fun a e => insert_by_date e a) l acc)).
  { induction l as [|x l IH]; intros acc Hacc; simpl; [exact Hacc|].
    apply IH. now apply insert_by_date_sorted. }
  apply G. constructor.
Qed.

(** X1.  GET /entries returns the stored entries, each exactly once, in
    an order where no entry is dated later than any entry after it. *)
Theorem get_entries_chronological (db : Session) :
  Permutation (entries db) (get_entries db)
  /\ StronglySorted by_date (get_entries db).
Proof.
  split; [apply order_by_date_permutation|].
  apply Sorted_StronglySorted; [|apply order_by_date_sorted].
  intros a b c. apply date_leb_trans.
Qed.

End Chronology.

Section EntryStore.
Import Database Main.
Context {dt : Datetime}.

Lemma id_below_next (db : Session) (e : Entry) :
  In e (entries db) -> id e < next_entry_id db.
Proof.
  unfold next_entry_id.
  induction (entries db) as [|x l IH]; cbn [map fold_right In].
  - intros [].
  - intros [<-|Hin]; [lia|]. apply IH in Hin. lia.
Qed.


Lemma delete_entry_entries (entry_id : Z) (db : Session) :
  entries (fst (delete_entry entry_id db))
  = filter (fun e => negb (id e =? entry_id)) (entries db).
Proof.
  unfold delete_entry, first_entry_by_id. simpl.
  destruct (find _ (entries db)) as [e|] eqn:F; simpl.
  - apply find_some in F. destruct F as [_ Heq].
    apply Z.eqb_eq in Heq. now rewrite Heq.
  - symmetry. apply forallb_filter_id. apply forallb_forall.
    intros e He. now rewrite (find_none _ _ F e He).
Qed.

(** Dropping rows keeps the remaining keys distinct. *)
Lemma kept_ids_distinct (keep : Entry -> bool) (rows : list Entry) :
  NoDup (map id rows) -> NoDup (map id (filter keep rows)).
Proof.
  intros Hn. induction rows as [|row rows IH]; simpl; [constructor|].
  simpl in Hn. apply NoDup_cons_iff in Hn. destruct Hn as [Hnew Hrest].
  destruct (keep row); simpl; [|now apply IH].
  apply NoDup_cons; [|now apply IH].
  intros Hin. apply Hnew. apply in_map_iff in Hin.
  destruct Hin as (other & Hid & Hkept). apply filter_In in Hkept.
  apply in_map_iff. exists other. tauto.
Qed.

(** X3.  The entries keep pairwise different keys: POST /add-entry,
    whether it stores or rejects, DELETE /entries/{id} and DELETE /entries
    all turn a store with distinct keys into one with distinct keys. *)
Theorem entry_ids_stay_unique (entry : EntryCreate) (entry_id : Z)
    (db : Session) :
  unique_ids db ->
  unique_ids (fst (add_entry entry db))
  /\ unique_ids (fst (delete_entry entry_id db))
  /\ unique_ids (fst (delete_all db)).
Proof.
  unfold unique_ids. intros Hn. repeat split.
  - unfold add_entry. destruct (strptime_ymd (new_date entry)); simpl;
      [|exact Hn].
    destruct (sqlite_integer (new_mood entry)
              && sqlite_integer (new_productivity entry)); simpl;
      [|exact Hn].
    rewrite map_app. simpl.
    apply NoDup_app; [exact Hn | repeat constructor; intros [] |].
    intros i Hi [<-|[]]. apply in_map_iff in Hi.
    destruct Hi as (e & He & Hin). apply id_below_next in Hin. lia.
  - rewrite delete_entry_entries. now apply kept_ids_distinct.
  - simpl. constructor.
Qed.

Lemma filter_out_one (l : list Entry) (e : Entry) :
  NoDup (map id l) -> In e l ->
  S (length (filter (fun x => negb (id x =? id e)) l)) = length l.
Proof.
  induction l as [|x l IH]; simpl; [intros _ []|].
  intros Hn Hin. inversion Hn as [|? ? Hnot Hrest]; subst.
  destruct Hin as [->|Hin].
  - rewrite Z.eqb_refl. simpl. f_equal. f_equal.
    apply forallb_filter_id. apply forallb_forall. intros y Hy.
    apply negb_true_iff, Z.eqb_neq. intros E. apply Hnot.
    rewrite <- E. now apply in_map.
  - destruct (id x =? id e) eqn:E; simpl.
    + apply Z.eqb_eq in E. exfalso. apply Hnot. rewrite E. now apply in_map.
    + f_equal. now apply IH.
Qed.


End EntryStore.


Lemma entry_ids_stay_unique_witness :
  unique_ids
    (fst (Main.add_entry (Main.mk_entry_create "2024-01-06" 7 6 5)
            Sample.db_unordered))
  /\ unique_ids (fst (Main.delete_entry 5 Sample.db_unordered)).
Proof.
  destruct (entry_ids_stay_unique
              (Main.mk_entry_create "2024-01-06" 7 6 5) 5 Sample.db_unordered)
    as (A & D & _).
  - unfold unique_ids. simpl.
    repeat constructor; simpl; intuition discriminate.
  - split; assumption.
Defined.


Section Heatmap.
Import Database Main.

Lemma heatmap_get_incr (k k' : Z) (h : list (Z * Z)) :
  heatmap_get k' (heatmap_incr k h)
  = heatmap_get k' h + (if k' =? k then 1 else 0).
Proof.
  induction h as [|[k0 v] h IH]; simpl.
  - destruct (Z.eqb_spec k k'), (Z.eqb_spec k' k); congruence || lia.
  - destruct (Z.eqb_spec k0 k); simpl;
      destruct (Z.eqb_spec k0 k'), (Z.eqb_spec k' k);
      try congruence; try lia; exact IH || (rewrite IH; lia).
Qed.

Lemma heatmap_incr_keys (k k' : Z) (h : list (Z * Z)) :
  In k' (map fst (heatmap_incr k h)) <-> k' = k \/ In k' (map fst h).
Proof.
  induction h as [|[k0 v] h IH]; simpl.
  - intuition.
  - destruct (k0 =? k) eqn:E0; simpl.
    + apply Z.eqb_eq in E0. subst k0. intuition.
    + rewrite IH. intuition.
Qed.

Lemma heatmap_incr_NoDup (k : Z) (h : list (Z * Z)) :
  NoDup (map fst h) -> NoDup (map fst (heatmap_incr k h)).
Proof.
  induction h as [|[k0 v] h IH]; simpl; intros Hn.
  - repeat constructor. intros [].
  - inversion Hn as [|? ? Hnot Hrest]; subst.
    destruct (k0 =? k) eqn:E0; simpl.
    + now constructor.
    + constructor; [|now apply IH].
      rewrite heatmap_incr_keys. intros [->|Hin]; [|contradiction].
      rewrite Z.eqb_refl in E0. discriminate.
Qed.

Lemma heatmap_incr_sum (k : Z) (h : list (Z * Z)) :
  Py.sumZ (map snd (heatmap_incr k h)) = Py.sumZ (map snd h) + 1.
Proof.
  induction h as [|[k0 v] h IH]; simpl; [reflexivity|].
  destruct (k0 =? k); simpl; lia.
Qed.

Lemma heatmap_get_in (k v : Z) (h : list (Z * Z)) :
  NoDup (map fst h) -> In (k, v) h -> heatmap_get k h = v.
Proof.
  induction h as [|[k0 v0] h IH]; simpl; [intros _ []|].
  intros Hn Hin. inversion Hn as [|? ? Hnot Hrest]; subst.
  destruct Hin as [[= -> ->]|Hin].
  - now rewrite Z.eqb_refl.
  - destruct (k0 =? k) eqn:E0; [|now apply IH].
    apply Z.eqb_eq in E0. subst k0. exfalso. apply Hnot.
    apply in_map_iff. exists (k, v). auto.
Qed.

Lemma heatmap_in_get (k : Z) (h : list (Z * Z)) :
  In k (map fst h) -> In (k, heatmap_get k h) h.
Proof.
  induction h as [|[k0 v0] h IH]; simpl; [intros []|].
  destruct (k0 =? k) eqn:E0.
  - apply Z.eqb_eq in E0. subst k0. auto.
  - intros [E|Hin]; [subst; rewrite Z.eqb_refl in E0; discriminate|].
    right. now apply IH.
Qed.

Lemma cell_count_snoc (k : Z) (pre : list Entry) (e : Entry) :
  cell_count k (pre ++ [e])
  = cell_count k pre + (if k =? sleep_cell e then 1 else 0).
Proof.
  unfold cell_count. rewrite filter_app, length_app. simpl.
  rewrite (Z.eqb_sym k). destruct (sleep_cell e =? k); simpl; lia.
Qed.

Lemma cell_count_positive (k : Z) (l : list Entry) :
  0 < cell_count k l <-> exists e, In e l /\ sleep_cell e = k.
Proof.
  unfold cell_count. split.
  - intros Hpos.
    destruct (filter (fun e => sleep_cell e =? k) l) as [|e f] eqn:F;
      [simpl in Hpos; lia|].
    assert (Hin : In e (filter (fun e => sleep_cell e =? k) l))
      by (rewrite F; now left).
    apply filter_In in Hin. exists e. rewrite <- Z.eqb_eq. tauto.
  - intros (e & Hin & Hk).
    assert (Hf : In e (filter (fun e => sleep_cell e =? k) l)).
    { apply filter_In. split; [exact Hin|]. now apply Z.eqb_eq. }
    destruct (filter _ l); [destruct Hf|]. simpl. lia.
Qed.

(** The dict after the loop over the entries. *)
Lemma heatmap_loop (l : list Entry) :
  let h := fold_left (fun heatmap e => heatmap_incr (sleep_cell e) heatmap)
                     l [] in
  NoDup (map fst h)
  /\ (forall k, heatmap_get k h = cell_count k l)
  /\ (forall k, In k (map fst h) <-> exists e, In e l /\ sleep_cell e = k)
  /\ Py.sumZ (map snd h) = Z.of_nat (length l).
Proof.
  assert (G : forall suf pre h,
             (NoDup (map fst h)
              /\ (forall k, heatmap_get k h = cell_count k pre)
              /\ (forall k, In k (map fst h)
                            <-> exists e, In e pre /\ sleep_cell e = k)
              /\ Py.sumZ (map snd h) = Z.of_nat (length pre)) ->
             let h' := fold_left
                         (fun heatmap e => heatmap_incr (sleep_cell e) heatmap)
                         suf h in
             NoDup (map fst h')
             /\ (forall k, heatmap_get k h' = cell_count k (pre ++ suf))
             /\ (forall k, In k (map fst h')
                           <-> exists e, In e (pre ++ suf) /\ sleep_cell e = k)
             /\ Py.sumZ (map snd h') = Z.of_nat (length (pre ++ suf))).
  { induction suf as [|e suf IH]; intros pre h Inv; simpl.
    - now rewrite app_nil_r.
    - replace (pre ++ e :: suf) with ((pre ++ [e]) ++ suf)
        by (rewrite <- app_assoc; reflexivity).
      apply IH. destruct Inv as (I1 & I2 & I3 & I4).
      split; [now apply heatmap_incr_NoDup|].
      split; [|split].
      + intros k. now rewrite heatmap_get_incr, I2, cell_count_snoc.
      + intros k. rewrite heatmap_incr_keys, I3. split.
        * intros [->|(x & Hx & Hk)].
          -- exists e. split; [apply in_or_app; right; now left|reflexivity].
          -- exists x. split; [apply in_or_app; now left|exact Hk].
        * intros (x & Hx & Hk). apply in_app_or in Hx.
          destruct Hx as [Hx|[<-|[]]]; [right; eauto|left; now symmetry].
      + rewrite heatmap_incr_sum, I4, length_app. simpl. lia. }
  apply (G l [] []). simpl. repeat split; try constructor.
  - intros [].
  - intros (e & [] & _).
Qed.

Lemma item_leb_false (x y : Z * Z) :
  item_leb x y = false -> fst y < fst x \/ (fst y = fst x /\ snd y < snd x).
Proof.
  unfold item_leb. intros H. apply orb_false_iff in H. destruct H as [H1 H2].
  apply Z.ltb_ge in H1. apply andb_false_iff in H2.
  destruct H2 as [H2|H2]; [apply Z.eqb_neq in H2 | apply Z.leb_gt in H2]; lia.
Qed.

Lemma insert_item_permutation (x : Z * Z) (l : list (Z * Z)) :
  Permutation (x :: l) (insert_item x l).
Proof.
  induction l as [|y l IH]; simpl; [reflexivity|].
  destruct (item_leb x y); [reflexivity|].
  rewrite perm_swap. now apply perm_skip.
Qed.

Lemma sorted_items_permutation (l : list (Z * Z)) :
  Permutation l (sorted_items l).
Proof.
  induction l as [|x l IH]; simpl; [reflexivity|].
  rewrite <- insert_item_permutation. now apply perm_skip.
Qed.

Lemma insert_item_sorted (x : Z * Z) (l : list (Z * Z)) :
  ~ In (fst x) (map fst l) ->
  Sorted key_lt l -> Sorted key_lt (insert_item x l).
Proof.
  intros Hnot Hs. induction Hs as [|y l Hs IH Hhd]; simpl.
  - repeat constructor.
  - simpl in Hnot.
    destruct (item_leb x y) eqn:E.
    + constructor; [now constructor|]. constructor. unfold key_lt.
      unfold item_leb in E. apply orb_true_iff in E.
      destruct E as [E|E]; [now apply Z.ltb_lt|].
      apply andb_true_iff in E. destruct E as [E _].
      apply Z.eqb_eq in E. exfalso. apply Hnot. left. now symmetry.
    + constructor; [apply IH; tauto|].
      assert (Hyx : key_lt y x).
      { unfold key_lt. apply item_leb_false in E.
        destruct E as [E|[E _]]; [exact E|]. exfalso. apply Hnot. now left. }
      destruct l as [|z l]; simpl; [now constructor|].
      inversion Hhd; subst.
      destruct (item_leb x z); constructor; assumption.
Qed.

Lemma sorted_items_sorted (l : list (Z * Z)) :
  NoDup (map fst l) -> Sorted key_lt (sorted_items l).
Proof.
  induction l as [|x l IH]; simpl; intros Hn; [constructor|].
  inversion Hn as [|? ? Hnot Hrest]; subst.
  apply insert_item_sorted; [|now apply IH].
  intros Hin. apply Hnot.
  eapply Permutation_in; [|exact Hin].
  apply Permutation_map. symmetry. apply sorted_items_permutation.
Qed.

Lemma sumZ_permutation (l l' : list Z) :
  Permutation l l' -> Py.sumZ l = Py.sumZ l'.
Proof. induction 1; simpl; lia. Qed.

(** X5.  The heatmap lists its cells by strictly increasing sleep value;
    a pair (k, v) is listed exactly when v > 0 entries have sleep hours
    that round to k and v is their number; the counts add up to the
    number of entries. *)
Theorem heatmap_counts_entries (db : Session) :
  let h := sleep_productivity_heatmap db in
  StronglySorted key_lt h
  /\ (forall k v,
        In (k, v) h <-> v = cell_count k (entries db) /\ 0 < v)
  /\ Py.sumZ (map snd h) = Z.of_nat (length (entries db)).
Proof.
  intros h. subst h. unfold sleep_productivity_heatmap.
  destruct (heatmap_loop (entries db)) as (N & G & K & S).
  set (raw := fold_left _ (entries db) []) in *.
  pose proof (sorted_items_permutation raw) as P.
  split; [|split].
  - apply Sorted_StronglySorted; [|now apply sorted_items_sorted].
    intros a b c. unfold key_lt. lia.
  - intros k v. split.
    + intros Hin. apply (Permutation_in _ (Permutation_sym P)) in Hin.
      pose proof (heatmap_get_in _ _ _ N Hin) as Hv. rewrite G in Hv.
      split; [now symmetry|]. rewrite <- Hv. apply cell_count_positive.
      apply K. apply in_map_iff. exists (k, v). auto.
    + intros [-> Hpos]. apply (Permutation_in _ P).
      rewrite <- G. apply heatmap_in_get. apply K.
      now apply cell_count_positive.
  - rewrite <- S. apply sumZ_permutation, Permutation_map.
    now apply Permutation_sym.
Qed.

End Heatmap.

Section Comparisons.
Local Open Scope Q_scope.

Lemma ltb_comp a a' b b' : a == a' -> b == b' -> Py.ltb a b = Py.ltb a' b'.
Proof.
  intros Ea Eb. unfold Py.ltb. now rewrite (Qleb_comp _ _ Eb _ _ Ea).
Qed.

Lemma int_comp (a a' : Q) : a == a' -> Py.int a = Py.int a'.
Proof.
  intros E. unfold Py.int.
  now rewrite (Qleb_comp 0 0 (Qeq_refl 0) _ _ E), (Qfloor_comp _ _ E),
    (Qceiling_comp _ _ E).
Qed.

End Comparisons.

Section PredictionOrder.
Import Predict.

Lemma data_of_complete (l : list Database.Entry) :
  data_of (map (fun e => mk_entry (Some (Database.sleep_hours e))
                                  (Some (Database.productivity e))) l)
  = map (fun e => (Database.sleep_hours e, Database.productivity e)) l.
Proof. induction l as [|e l IH]; simpl; [reflexivity|now rewrite IH]. Qed.

Lemma sumZ_bounds (lo hi : Z) (l : list Z) :
  (forall z, In z l -> lo <= z <= hi)%Z ->
  (Z.of_nat (length l) * lo <= Py.sumZ l <= Z.of_nat (length l) * hi)%Z.
Proof.
  induction l as [|x l IH]; intros Hb; [simpl; lia|].
  cbn [Py.sumZ fold_right length].
  assert (Hx : (lo <= x <= hi)%Z) by (apply Hb; now left).
  assert (Hl : forall z, In z l -> (lo <= z <= hi)%Z)
    by (intros z Hz; apply Hb; now right).
  specialize (IH Hl). change (fold_right Z.add 0%Z l) with (Py.sumZ l).
  lia.
Qed.

(** The mean of a non-empty list of ints lies between its bounds. *)
Lemma div_mean_bounds (lo hi : Z) (l : list Z) :
  l <> [] ->
  (forall z, In z l -> lo <= z <= hi)%Z ->
  (inject_Z lo <= Py.div_mean l <= inject_Z hi)%Q.
Proof.
  intros Hne Hb. unfold Py.div_mean.
  pose proof (lenQ_pos l Hne) as Hpos.
  destruct (sumZ_bounds lo hi l Hb) as [L U].
  unfold Py.lenQ in *. split.
  - apply Qle_shift_div_l; [exact Hpos|].
    rewrite <- inject_Z_mult, <- Zle_Qle. lia.
  - apply Qle_shift_div_r; [exact Hpos|].
    rewrite <- inject_Z_mult, <- Zle_Qle. lia.
Qed.


End PredictionOrder.


Section BurnoutEndpoints.
Import Database Main.

Lemma np_mean_avg_sleep (db : Session) :
  (Py.np_mean (map sleep_hours (entries db)) == avg_sleep db)%Q.
Proof.
  unfold Py.np_mean, avg_sleep, Py.lenQ. now rewrite length_map.
Qed.

Lemma np_mean_avg_productivity (db : Session) :
  (Py.np_mean_int (map productivity (entries db)) == avg_productivity db)%Q.
Proof.
  rewrite np_mean_int_div.
  unfold Py.div_mean, avg_productivity, Py.lenQ. now rewrite length_map.
Qed.

(** X9.  The two burnout endpoints agree: whenever /analysis/burnout
    reports the high-risk message, /analysis/burnout-score gives a score
    of at least 62 and the level "Moderate" or "High", never "Low". *)
Theorem burnout_high_risk_scores_high (db : Session) (a p : Q) :
  burnout_analysis db = Analysis a p burnout_high_risk ->
  62 <= score (burnout_score db)
  /\ (level (burnout_score db) = "Moderate"%string
      \/ level (burnout_score db) = "High"%string).
Proof.
  intros Ha.
  assert (Hne : entries db <> []).
  { intros E. unfold burnout_analysis in Ha. rewrite E in Ha. discriminate. }
  assert (Hc : (avg_sleep db < 6)%Q /\ (avg_productivity db < 5)%Q).
  { unfold burnout_analysis in Ha.
    destruct (entries db) as [|e es] eqn:E; [contradiction|].
    rewrite <- E in Ha.
    rewrite (ltb_comp _ _ 6 6 (np_mean_avg_sleep db) (Qeq_refl 6)) in Ha.
    rewrite (ltb_comp _ _ 5 5 (np_mean_avg_productivity db) (Qeq_refl 5))
      in Ha.
    destruct (Py.ltb (avg_sleep db) 6) eqn:E1;
      destruct (Py.ltb (avg_productivity db) 5) eqn:E2;
      simpl in Ha; try (injection Ha as _ _ Hm; discriminate Hm).
    split; now apply ltb_true. }
  destruct Hc as [Hs Hp].
  assert (Hscore : 62 <= score (burnout_score db)).
  { rewrite burnout_score_value by exact Hne.
    change 62 with (Qfloor 62). apply Qfloor_resp_le.
    unfold clamp, burnout_raw.
    destruct (Qlt_le_dec _ 0); [lra|].
    destruct (Qlt_le_dec 100 _); lra. }
  split; [exact Hscore|].
  destruct (burnout_score_level db Hne) as (Hh & Hm & _).
  destruct (Z_lt_le_dec 70 (score (burnout_score db))) as [G|G].
  - right. now apply Hh.
  - left. apply Hm. lia.
Qed.

End BurnoutEndpoints.

Lemma burnout_high_risk_scores_high_witness :
  62 <= Main.score (Main.burnout_score Sample.db_tired).
Proof.
  apply (burnout_high_risk_scores_high Sample.db_tired (9 # 2) (5 # 2)).
  reflexivity.
Defined.

Section Trend64.
Import Database Main.
Local Open Scope Q_scope.

Lemma int_of_int (z : Z) : Py.int (inject_Z z) = z.
Proof.
  unfold Py.int. destruct (Qle_bool 0 (inject_Z z)).
  - apply Qfloor_Z.
  - apply Qceiling_Z.
Qed.

Lemma int_value_of (score : Main64.number) :
  Main64.int score = Py.int (value_of score).
Proof. destruct score; simpl; [now rewrite int_of_int|reflexivity]. Qed.

Lemma sleep_penalty_nonneg (e : Entry) :
  sleep_hours e <= 6 -> 0 <= sleep_penalty e.
Proof.
  intros H. unfold sleep_penalty, Binary64.mul, Binary64.sub.
  apply rnd_nonneg.
  assert (0 <= Binary64.rnd (6 - sleep_hours e)) by (apply rnd_nonneg; lra).
  lra.
Qed.

Lemma sleep_penalty_monotone (e1 e2 : Entry) :
  sleep_hours e2 <= sleep_hours e1 -> sleep_penalty e1 <= sleep_penalty e2.
Proof.
  intros H. unfold sleep_penalty, Binary64.mul, Binary64.sub.
  apply rnd_monotone.
  assert (Binary64.rnd (6 - sleep_hours e1) <= Binary64.rnd (6 - sleep_hours e2))
    by (apply rnd_monotone; lra).
  lra.
Qed.

(** Adding the penalty to the int 0 gives the penalty. *)
Lemma zero_plus_penalty (e : Entry) :
  Binary64.add (Binary64.of_int 0) (sleep_penalty e) == sleep_penalty e.
Proof.
  unfold Binary64.add. change (Binary64.of_int 0) with 0.
  assert (E : 0 + sleep_penalty e == sleep_penalty e) by ring.
  rewrite (rnd_comp _ _ E). unfold sleep_penalty, Binary64.mul.
  apply rnd_idempotent.
Qed.

(** The running score of an entry, case by case. *)
Lemma trend_value (e : Entry) :
  value_of (Main64.trend_penalty e)
  == (if Py.ltb (sleep_hours e) 6
      then if (productivity e <? 5)%Z
           then Binary64.add (sleep_penalty e)
                             (Binary64.of_int ((5 - productivity e) * 10))
           else sleep_penalty e
      else if (productivity e <? 5)%Z
           then inject_Z ((5 - productivity e) * 10)
           else 0).
Proof.
  unfold Main64.trend_penalty.
  destruct (Py.ltb (sleep_hours e) 6); destruct (productivity e <? 5)%Z;
    cbn [Main64.plus_float Main64.plus_int value_of].
  - fold (sleep_penalty e). unfold Binary64.add at 1 3.
    rewrite (rnd_comp (Binary64.add (Binary64.of_int 0) (sleep_penalty e)
                       + Binary64.of_int ((5 - productivity e) * 10))
                      (sleep_penalty e
                       + Binary64.of_int ((5 - productivity e) * 10))).
    + reflexivity.
    + rewrite zero_plus_penalty. reflexivity.
  - fold (sleep_penalty e). apply zero_plus_penalty.
  - reflexivity.
  - reflexivity.
Qed.

(** An int no greater than [k] and below 2^53 in size is no greater
    than [float(k)]. *)
Lemma of_int_lower (m k : Z) :
  (Z.abs m < 2 ^ 53)%Z -> (m <= k)%Z -> inject_Z m <= Binary64.of_int k.
Proof.
  intros Hm Hk. unfold Binary64.of_int.
  rewrite <- (rnd_int_exact m Hm). apply rnd_monotone.
  now rewrite <- Zle_Qle.
Qed.

Lemma trend_value_nonneg (e : Entry) : 0 <= value_of (Main64.trend_penalty e).
Proof.
  rewrite trend_value.
  destruct (Py.ltb (sleep_hours e) 6) eqn:Es;
    destruct (Z.ltb_spec (productivity e) 5) as [Lp|Lp].
  - apply ltb_true in Es. unfold Binary64.add. apply rnd_nonneg.
    pose proof (sleep_penalty_nonneg e ltac:(lra)).
    pose proof (of_int_lower 0 ((5 - productivity e) * 10) ltac:(simpl; lia)
                  ltac:(lia)) as K.
    change (inject_Z 0) with 0 in K. lra.
  - apply ltb_true in Es. apply sleep_penalty_nonneg. lra.
  - change 0 with (inject_Z 0). rewrite <- Zle_Qle. lia.
  - apply Qle_refl.
Qed.

(** A score is decided by the size of the running value. *)
Lemma trend_score64_value (e : Entry) :
  trend_score64 e = Z.min 100 (Py.int (value_of (Main64.trend_penalty e))).
Proof. unfold trend_score64. now rewrite int_value_of. Qed.

Lemma capped_int_le (m : Z) (v : Q) :
  (m <= 100)%Z -> inject_Z m <= v -> (m <= Z.min 100 (Py.int v))%Z.
Proof.
  intros Hm H. apply Z.min_glb; [exact Hm|].
  rewrite <- (int_of_int m). now apply int_monotone.
Qed.

Lemma capped_below_value (v : Q) :
  0 <= v -> inject_Z (Z.min 100 (Py.int v)) <= v.
Proof.
  intros Hv. rewrite (int_nonneg v Hv).
  apply Qle_trans with (inject_Z (Qfloor v)); [|apply Qfloor_le].
  rewrite <- Zle_Qle. lia.
Qed.

(** Less sleep and lower productivity never lower the score. *)
Lemma trend_score64_monotone (e1 e2 : Entry) :
  sleep_hours e2 <= sleep_hours e1 ->
  (productivity e2 <= productivity e1)%Z ->
  (trend_score64 e1 <= trend_score64 e2)%Z.
Proof.
  intros Hs Hp. rewrite !trend_score64_value.
  pose proof (trend_value_nonneg e1) as N1.
  pose proof (trend_value_nonneg e2) as N2.
  apply capped_int_le; [lia|].
  revert N1 N2.
  rewrite (int_comp _ _ (trend_value e1)), (trend_value e1), (trend_value e2).
  pose proof (sleep_penalty_monotone e1 e2 Hs) as M.
  assert (K : forall k, (0 <= k)%Z -> 0 <= Binary64.of_int k).
  { intros k Hk. apply (of_int_lower 0 k); [simpl; lia|exact Hk]. }
  destruct (Py.ltb (sleep_hours e1) 6) eqn:E1;
    [apply ltb_true in E1 | apply ltb_false in E1].
  - (* e1 short of sleep: so is e2 *)
    assert (E2 : Py.ltb (sleep_hours e2) 6 = true) by (apply ltb_true; lra).
    rewrite E2.
    destruct (Z.ltb_spec (productivity e1) 5) as [L1|L1].
    + destruct (Z.ltb_spec (productivity e2) 5) as [L2|L2]; [|lia].
      intros N1 N2.
      apply Qle_trans with (1 := capped_below_value _ N1).
      unfold Binary64.add. apply rnd_monotone.
      assert (Binary64.of_int ((5 - productivity e1) * 10)
              <= Binary64.of_int ((5 - productivity e2) * 10)).
      { unfold Binary64.of_int. apply rnd_monotone. rewrite <- Zle_Qle. lia. }
      lra.
    + intros N1 N2.
      apply Qle_trans with (1 := capped_below_value _ N1).
      destruct (Z.ltb_spec (productivity e2) 5) as [L2|L2]; [|exact M].
      apply Qle_trans with (1 := M).
      unfold Binary64.add.
      assert (I : Binary64.rnd (sleep_penalty e2) == sleep_penalty e2)
        by (unfold sleep_penalty, Binary64.mul; apply rnd_idempotent).
      rewrite <- I at 1. apply rnd_monotone.
      pose proof (K ((5 - productivity e2) * 10)%Z ltac:(lia)). lra.
  - destruct (Z.ltb_spec (productivity e1) 5) as [L1|L1].
    + (* e1 slept enough and has low productivity: so has e2 *)
      destruct (Z.ltb_spec (productivity e2) 5) as [L2|L2]; [|lia].
      rewrite int_of_int. intros _ _.
      set (m := Z.min 100 ((5 - productivity e1) * 10)).
      assert (Hm : (0 <= m <= 100)%Z) by (unfold m; lia).
      assert (Hk : (m <= (5 - productivity e2) * 10)%Z) by (unfold m; lia).
      destruct (Py.ltb (sleep_hours e2) 6) eqn:E2.
      * apply ltb_true in E2. unfold Binary64.add.
        rewrite <- (rnd_int_exact m) by (simpl; lia). apply rnd_monotone.
        pose proof (of_int_lower m _ ltac:(simpl; lia) Hk).
        pose proof (sleep_penalty_nonneg e2 ltac:(lra)). lra.
      * rewrite <- Zle_Qle. exact Hk.
    + change (Py.int 0) with 0%Z. intros _ N2. exact N2.
Qed.


End Trend64.

Lemma burnout_trend_points_example :
  map Main.point_burnout_score
      (Main64.burnout_trend
         (Database.mk_session
            [Sample.night 1 Sample.day1 (59 # 10) 5 5;
             Sample.night 2 Sample.day2 (1 # 10) 5 5;
             Sample.night 3 Sample.day3 8 5 2] []))
  = [0; 59; 30].
Proof. vm_compute. reflexivity. Qed.

Ltac split_conditions :=
  repeat match goal with
         | |- context [Py.ltb ?a ?b] => destruct (Py.ltb a b)
         | |- context [Py.leb ?a ?b] => destruct (Py.leb a b)
         end.

Section Advice.
Import Database Main.

(** X11.  /analysis/recommendations never answers with an empty list and
    never with more than three messages; the "balanced" message and the
    "track a few more days" message only ever appear alone, the latter
    only with fewer than 3 entries. *)
Theorem recommendations_shape (db : Session) :
  let recs := recommendations db in
  (1 <= length recs <= 3)%nat
  /\ (In rec_balanced recs -> recs = [rec_balanced])
  /\ (In recommendations_not_enough recs ->
      recs = [recommendations_not_enough]
      /\ (length (entries db) < 3)%nat).
Proof.
  intros recs. subst recs. unfold recommendations.
  rewrite order_by_date_length.
  destruct (Nat.ltb_spec (length (entries db)) 3) as [L|G].
  - simpl. split; [lia|]. split.
    + intros [E|[]]. discriminate E.
    + intros _. split; [reflexivity|exact L].
  - split_conditions; simpl; (split; [lia|]); split;
      intros Hin; repeat (destruct Hin as [Hin|Hin]; try discriminate Hin);
      try reflexivity; try contradiction.
Qed.

(** X13.  /ai/insights always answers with between 1 and 5 insights;
    with 3 or more entries the last one is the closing reminder and the
    "just getting started" message does not appear. *)
Theorem ai_insights_shape (db : Session) :
  (1 <= length (ai_insights db) <= 5)%nat
  /\ ((3 <= length (entries db))%nat ->
      last (ai_insights db) (Plain EmptyString) = Plain insights_closing
      /\ ~ In (Plain insights_not_enough) (ai_insights db)).
Proof.
  unfold ai_insights. rewrite order_by_date_length.
  destruct (Nat.ltb_spec (length (entries db)) 3) as [L|G].
  - simpl. split; [lia|]. intros G. lia.
  - split_conditions; simpl; (split; [lia|]); intros _;
      (split; [reflexivity|]);
      intros Hin; repeat (destruct Hin as [Hin|Hin]; try discriminate Hin);
      contradiction.
Qed.

End Advice.

Section ClusterContents.
Import Clustering AiInsights.
Context {text : FloatText} {sklearn : Sklearn}.

Lemma mapM_length {A B} (f : A -> Exc B) (l : list A) (ys : list B) :
  mapM f l = Ok ys -> length ys = length l.
Proof.
  revert ys. induction l as [|x l IH]; simpl; intros ys.
  - now intros [= <-].
  - unfold bind. destruct (f x); [|discriminate].
    destruct (mapM f l) as [zs|]; [|discriminate].
    intros [= <-]. simpl. now rewrite (IH zs).
Qed.

(** What one append keeps and changes in the dict of clusters. *)
Lemma setdefault_append_invariant (key : string) (item : value)
    (clusters : list (string * list value)) :
  NoDup (map fst clusters) ->
  Forall (fun kv => snd kv <> []) clusters ->
  Forall (fun kv => Forall stored_record (snd kv)) clusters ->
  stored_record item ->
  let clusters' := setdefault_append key item clusters in
  NoDup (map fst clusters')
  /\ Forall (fun kv => snd kv <> []) clusters'
  /\ Forall (fun kv => Forall stored_record (snd kv)) clusters'
  /\ total_size clusters' = S (total_size clusters)
  /\ (forall k, In k (map fst clusters') <-> k = key \/ In k (map fst clusters)).
Proof.
  intros Hn Hne Hst Hitem.
  induction clusters as [|[k items] rest IH]; simpl.
  - split; [repeat constructor; intros []|].
    split; [repeat constructor; discriminate|].
    split; [repeat constructor; assumption|].
    split; [reflexivity|]. intros k0. intuition.
  - inversion Hn as [|? ? Hnot Hrest]; subst.
    inversion Hne as [|? ? Hhd Htl]; subst.
    inversion Hst as [|? ? Shd Stl]; subst.
    destruct (String.eqb_spec k key) as [->|Hk]; simpl.
    + split; [now constructor|].
      split; [constructor; [simpl; now destruct items|assumption]|].
      split.
      { constructor; [|assumption]. simpl. apply Forall_app.
        split; [assumption|now repeat constructor]. }
      split; [rewrite length_app; simpl; lia|].
      intros k0. intuition.
    + destruct (IH Hrest Htl Stl) as (I1 & I2 & I3 & I4 & I5).
      split.
      { constructor; [|assumption]. rewrite I5.
        intros [E|Hin]; [now apply Hk|contradiction]. }
      split; [now constructor|].
      split; [now constructor|].
      split; [rewrite I4; lia|].
      intros k0. rewrite I5. intuition.
Qed.

Lemma add_day_stores (clusters : list (string * list value))
    (labelled : Z * value) (clusters' : list (string * list value)) :
  add_day clusters labelled = Ok clusters' ->
  exists item,
    stored_record item
    /\ clusters' = setdefault_append (Py.str_int (fst labelled)) item clusters.
Proof.
  unfold add_day, bind.
  destruct (subscript (snd labelled) "sleep_hours"); [|discriminate].
  destruct (py_float a) as [s|]; [|discriminate].
  destruct (subscript (snd labelled) "mood"); [|discriminate].
  destruct (py_int a0) as [m|]; [|discriminate].
  destruct (subscript (snd labelled) "productivity"); [|discriminate].
  destruct (py_int a1) as [p|]; [|discriminate].
  intros [= <-]. eexists. split; [|reflexivity]. now exists s, m, p.
Qed.

Lemma foldM_add_day_invariant (l : list (Z * value))
    (clusters clusters' : list (string * list value)) :
  NoDup (map fst clusters) ->
  Forall (fun kv => snd kv <> []) clusters ->
  Forall (fun kv => Forall stored_record (snd kv)) clusters ->
  foldM add_day l clusters = Ok clusters' ->
  NoDup (map fst clusters')
  /\ Forall (fun kv => snd kv <> []) clusters'
  /\ Forall (fun kv => Forall stored_record (snd kv)) clusters'
  /\ total_size clusters' = (total_size clusters + length l)%nat.
Proof.
  revert clusters. induction l as [|x l IH]; intros clusters Hn Hne Hst; simpl.
  - intros [= <-]. repeat split; auto.
  - unfold bind. destruct (add_day clusters x) as [c1|] eqn:E; [|discriminate].
    destruct (add_day_stores _ _ _ E) as (item & Hitem & ->).
    destruct (setdefault_append_invariant (Py.str_int (fst x)) item clusters
                Hn Hne Hst Hitem) as (I1 & I2 & I3 & I4 & _).
    intros F. destruct (IH _ I1 I2 I3 F) as (J1 & J2 & J3 & J4).
    repeat split; auto. rewrite J4, I4. lia.
Qed.

(** X14.  When the clustering goes through, and k-means gives one label
    per row, every day ends up in exactly one cluster: the clusters have
    pairwise different labels, none is empty, each record holds exactly
    sleep_hours, mood and productivity, and the records number as many as
    the days given. *)
Theorem cluster_days_partitions (data : list value)
    (clusters : list (string * list value)) :
  (forall X labels, kmeans_fit_predict X = Ok labels ->
                    length labels = length X) ->
  cluster_days_try data = Ok clusters ->
  NoDup (map fst clusters)
  /\ Forall (fun kv => snd kv <> []) clusters
  /\ Forall (fun kv => Forall stored_record (snd kv)) clusters
  /\ total_size clusters = length data
  /\ ((3 <= length data)%nat ->
      cluster_days data = Ok (clusters_value clusters)).
Proof.
  intros Hk Htry. pose proof Htry as Htry'.
  unfold cluster_days_try, bind in Htry.
  destruct (mapM feature_row data) as [X|] eqn:EX; [|discriminate].
  destruct (kmeans_fit_predict X) as [labels|] eqn:EL; [|discriminate].
  destruct (foldM_add_day_invariant _ [] clusters
              ltac:(constructor) ltac:(constructor) ltac:(constructor) Htry)
    as (I1 & I2 & I3 & I4).
  repeat split; auto.
  - rewrite I4. simpl. rewrite length_combine, (Hk _ _ EL),
      (mapM_length _ _ _ EX). lia.
  - intros G. unfold cluster_days. rewrite Htry'. simpl.
    destruct data as [|d data]; [simpl in G; lia|].
    destruct (Nat.ltb_spec (length (d :: data)) 3); [lia|]. reflexivity.
Qed.

(** X15.  The records [cluster_days] stores carry no "cluster" key, so
    they cannot be fed back to the narrator as a list: on two or more
    records of one of its clusters, [explain_clusters] raises
    KeyError("cluster"). *)
Theorem stored_records_not_narratable (data : list value)
    (clusters : list (string * list value)) (label : string)
    (days : list value) :
  cluster_days_try data = Ok clusters ->
  In (label, days) clusters ->
  (2 <= length days)%nat ->
  explain_clusters (VList days) = Raise (KeyError "cluster").
Proof.
  intros Htry Hin Hlen.
  unfold cluster_days_try, bind in Htry.
  destruct (mapM feature_row data) as [X|]; [|discriminate].
  destruct (kmeans_fit_predict X) as [labels|]; [|discriminate].
  destruct (foldM_add_day_invariant _ [] clusters
              ltac:(constructor) ltac:(constructor) ltac:(constructor) Htry)
    as (_ & _ & I3 & _).
  rewrite Forall_forall in I3. specialize (I3 _ Hin). simpl in I3.
  destruct days as [|d1 rest]; [simpl in Hlen; lia|].
  inversion I3 as [|? ? (s & m & p & ->) _]; subst.
  unfold explain_clusters. cbn [py_len bind].
  destruct (Nat.ltb_spec (length (VDict
              [("sleep_hours"%string, VFloat s); ("mood"%string, VInt m);
               ("productivity"%string, VInt p)] :: rest)) 2) as [L|_];
    [lia|].
  reflexivity.
Qed.

End ClusterContents.

Lemma cluster_days_partitions_witness :
  total_size [("0"%string, [Sample.day_dict 5 4 3]);
              ("1"%string, [Sample.day_dict 8 7 8;
                            Sample.day_dict (15 # 2) 6 7])]
  = length Sample.three_days.
Proof.
  apply (cluster_days_partitions Sample.three_days).
  - intros X labels [= <-]. apply length_map.
  - reflexivity.
Defined.

Lemma stored_records_not_narratable_witness :
  AiInsights.explain_clusters
    (VList [Sample.day_dict 8 7 8; Sample.day_dict (15 # 2) 6 7])
  = Raise (KeyError "cluster").
Proof.
  apply (stored_records_not_narratable Sample.three_days
           [("0"%string, [Sample.day_dict 5 4 3]);
            ("1"%string, [Sample.day_dict 8 7 8;
                          Sample.day_dict (15 # 2) 6 7])]
           "1"%string).
  - reflexivity.
  - right. now left.
  - simpl. lia.
Defined.

Section Narrating.
Import AiInsights.
Context {text : FloatText}.

Local Abbreviation numbers_only S :=
  (Forall (fun item : value * (list value * list value) =>
             forallb is_number (fst (snd item)) = true
             /\ forallb is_number (snd (snd item)) = true) S).

Lemma key_eqb_refl (c : value) : hashable c = true -> key_eqb c c = true.
Proof.
  destruct c; simpl; intros H; try discriminate H; try reflexivity.
  - apply Z.eqb_refl.
  - apply Qeq_bool_refl.
  - apply String.eqb_refl.
Qed.

Lemma summary_setdefault_shape (c : value) (S : summary) :
  numbers_only S ->
  numbers_only (summary_setdefault c S)
  /\ (length S <= length (summary_setdefault c S) <= Datatypes.S (length S))%nat
  /\ summary_setdefault c S <> [].
Proof.
  induction 1 as [|[k v] rest Hhd Htl IH]; simpl.
  - split; [repeat constructor|]. split; [lia|discriminate].
  - destruct (key_eqb k c).
    + split; [now constructor|]. split; [simpl; lia|discriminate].
    + destruct IH as (I1 & I2 & _).
      split; [now constructor|]. split; [simpl; lia|discriminate].
Qed.

Lemma summary_append_sleep_shape (c x : value) (S : summary) :
  is_number x = true -> numbers_only S ->
  numbers_only (summary_append_sleep c x S)
  /\ length (summary_append_sleep c x S) = length S.
Proof.
  intros Hx. induction 1 as [|[k [sl pr]] rest [H1 H2] Htl IH]; simpl.
  - split; [constructor|reflexivity].
  - destruct (key_eqb k c); simpl.
    + split; [|reflexivity]. constructor; [|assumption]. simpl in *.
      split; [|assumption]. rewrite forallb_app, H1. simpl. now rewrite Hx.
    + destruct IH as [I1 I2]. split; [|now rewrite I2].
      constructor; [|assumption]. simpl in *. auto.
Qed.

Lemma summary_append_productivity_shape (c x : value) (S : summary) :
  is_number x = true -> numbers_only S ->
  numbers_only (summary_append_productivity c x S)
  /\ length (summary_append_productivity c x S) = length S.
Proof.
  intros Hx. induction 1 as [|[k [sl pr]] rest [H1 H2] Htl IH]; simpl.
  - split; [constructor|reflexivity].
  - destruct (key_eqb k c); simpl.
    + split; [|reflexivity]. constructor; [|assumption]. simpl in *.
      split; [assumption|]. rewrite forallb_app, H2. simpl. now rewrite Hx.
    + destruct IH as [I1 I2]. split; [|now rewrite I2].
      constructor; [|assumption]. simpl in *. auto.
Qed.

Lemma summarise_narratable (S : summary) (day : value) :
  narratable day = true -> numbers_only S ->
  exists S', summarise S day = Ok S'
             /\ numbers_only S'
             /\ (length S <= length S' <= Datatypes.S (length S))%nat
             /\ S' <> [].
Proof.
  intros Hday HS. destruct day as [| | | | |d]; try discriminate Hday.
  simpl in Hday.
  destruct (dict_get d "cluster") as [c|] eqn:Ec; [|discriminate].
  destruct (dict_get d "sleep_hours") as [s|] eqn:Es; [|discriminate].
  destruct (dict_get d "productivity") as [p|] eqn:Ep; [|discriminate].
  apply andb_true_iff in Hday. destruct Hday as [Hday Hp].
  apply andb_true_iff in Hday. destruct Hday as [Hc Hs].
  unfold summarise, subscript, bind. rewrite Ec, Hc, Es, Ep. simpl.
  destruct (summary_setdefault_shape c S HS) as (A1 & A2 & A3).
  destruct (summary_append_sleep_shape c s _ Hs A1) as (B1 & B2).
  destruct (summary_append_productivity_shape c p _ Hp B1) as (C1 & C2).
  eexists. split; [reflexivity|]. split; [exact C1|].
  split; [rewrite C2, B2; exact A2|].
  intros E. apply (f_equal (@length _)) in E. rewrite C2, B2 in E.
  destruct (summary_setdefault c S); [now apply A3|discriminate].
Qed.

Lemma foldM_summarise_narratable (days : list value) (S : summary) :
  forallb narratable days = true -> numbers_only S ->
  exists S', foldM summarise days S = Ok S'
             /\ numbers_only S'
             /\ (length S <= length S' <= length S + length days)%nat
             /\ (days <> [] -> S' <> []).
Proof.
  revert S. induction days as [|d days IH]; intros S Hd HS; simpl.
  - exists S. split; [reflexivity|]. split; [exact HS|].
    split; [lia|]. intros H. now contradiction H.
  - simpl in Hd. apply andb_true_iff in Hd. destruct Hd as [H1 H2].
    destruct (summarise_narratable S d H1 HS) as (S1 & E1 & N1 & L1 & Z1).
    unfold bind. rewrite E1.
    destruct (IH S1 H2 N1) as (S2 & E2 & N2 & L2 & Z2).
    exists S2. split; [exact E2|]. split; [exact N2|].
    split; [lia|].
    intros _ E. subst S2. destruct S1; [now apply Z1|simpl in L2; lia].
Qed.

Lemma py_sum_numbers (l : list value) :
  forallb is_number l = true -> exists q, py_sum l = Ok q.
Proof.
  induction l as [|v l IH]; simpl; [eauto|].
  intros H. apply andb_true_iff in H. destruct H as [Hv Hl].
  destruct (IH Hl) as [q Hq].
  destruct v; try discriminate Hv; unfold bind; rewrite Hq; eauto.
Qed.

Lemma string_prefix_app (a b : string) : prefix a (a ++ b) = true.
Proof.
  induction a as [|c a IH]; simpl; [now destruct b|].
  destruct (ascii_dec c c); [exact IH|contradiction].
Qed.

Lemma narrate_numbers (item : value * (list value * list value)) :
  forallb is_number (fst (snd item)) = true ->
  forallb is_number (snd (snd item)) = true ->
  exists s, narrate item = Ok s /\ prefix "Cluster " s = true.
Proof.
  intros H1 H2. unfold narrate, bind.
  destruct (py_sum_numbers _ H1) as [q1 ->].
  destruct (py_sum_numbers _ H2) as [q2 ->].
  destruct (Py.ltb _ 6); eexists; (split; [reflexivity|]);
    apply (string_prefix_app "Cluster ").
Qed.

Lemma mapM_narrate (S : summary) :
  numbers_only S ->
  exists l, mapM narrate S = Ok l
            /\ length l = length S
            /\ Forall (fun s => prefix "Cluster " s = true) l.
Proof.
  induction 1 as [|item rest [H1 H2] _ IH]; simpl.
  - exists []. repeat split. constructor.
  - destruct (narrate_numbers item H1 H2) as (s & Es & Ps).
    destruct IH as (l & El & Ll & Pl).
    unfold bind. rewrite Es, El. exists (s :: l).
    repeat split; [simpl; now rewrite Ll | now constructor].
Qed.


End Narrating.


Section Accounts.
Import Database Main.
Context {crypt : CryptContext}.

Lemma first_user_none_not_in (em : string) (db : Session) :
  first_user_by_email em db = None -> ~ In em (map email (users db)).
Proof.
  unfold first_user_by_email. intros F Hin.
  apply in_map_iff in Hin. destruct Hin as (u & Hu & Hin).
  apply (find_none _ _ F) in Hin. rewrite Hu, String.eqb_refl in Hin.
  discriminate.
Qed.

(** X17.  POST /auth/register never touches the entries and keeps the
    emails pairwise different; a new email is stored once, active, with
    the hash and not the password it was given; and whatever the first
    call did, registering the same email again fails with "Email exists"
    and changes nothing. *)
Theorem register_keeps_emails_unique (salt salt' : Salt)
    (em password password' : string) (db : Session) :
  unique_emails db ->
  let db' := fst (register salt em password db) in
  unique_emails db'
  /\ entries db' = entries db
  /\ (first_user_by_email em db = None ->
      users db'
      = users db ++ [mk_user (next_user_id db) em
                             (hash_password salt password) true])
  /\ register salt' em password' db'
     = (db', Raise (HTTPException 400 "Email exists")).
Proof.
  intros Hu db'. subst db'.
  destruct (first_user_by_email em db) as [u|] eqn:F.
  - assert (E : forall s p, register s em p db
                            = (db, Raise (HTTPException 400 "Email exists")))
      by (intros s p; unfold register; now rewrite F).
    rewrite !E. simpl.
    split; [exact Hu|]. split; [reflexivity|]. split; [discriminate|].
    reflexivity.
  - assert (E : register salt em password db
                = (add_user em (hash_password salt password) db,
                   Ok "Registered"%string))
      by (unfold register; now rewrite F).
    rewrite !E. simpl. split.
    + unfold unique_emails. simpl. rewrite map_app. simpl.
      apply NoDup_app; [exact Hu | repeat constructor; intros [] |].
      intros x Hx [<-|[]]. now apply (first_user_none_not_in _ _ F).
    + split; [reflexivity|]. split; [reflexivity|].
      unfold register. now rewrite (first_user_after_add _ _ _ F).
Qed.

End Accounts.

Lemma register_keeps_emails_unique_witness :
  unique_emails
    (fst (Main.register "salt"%string "bob@example.org" "hunter2" Sample.db0))
  /\ Main.register "pepper"%string "bob@example.org" "other"
       (fst (Main.register "salt"%string "bob@example.org" "hunter2"
               Sample.db0))
     = (fst (Main.register "salt"%string "bob@example.org" "hunter2"
               Sample.db0),
        Raise (HTTPException 400 "Email exists")).
Proof.
  pose proof (register_keeps_emails_unique
                "salt"%string "pepper"%string "bob@example.org" "hunter2"
                "other" Sample.db0) as W.
  cbv zeta in W. destruct W as (U & _ & _ & R).
  - unfold unique_emails. simpl. repeat constructor. intros [].
  - split; assumption.
Defined.

Section BestBucket.
Import Database Main.

Lemma first_occurrences_subset (seen l : list Q) (k : Q) :
  In k (first_occurrences seen l) -> In k l.
Proof.
  revert seen. induction l as [|y l IH]; intros seen; simpl; [auto|].
  destruct (existsb (Qeq_bool y) seen).
  - intros H. right. now apply (IH seen).
  - intros [->|H]; [now left|]. right. now apply (IH (y :: seen)).
Qed.


End BestBucket.


Section EmptyStore.
Import Database Main.
Context {dt : Datetime} {text : FloatText}.

(** X19.  After DELETE /entries the users are as before and every
    analytics endpoint gives its empty answer: no entries, score 0 with
    level "Unknown", no best range, no burnout analysis, an empty heatmap
    and trend, the no-data prediction, the "just getting started"
    insight, and an export holding only the header row. *)
Theorem delete_all_empties (db : Session) (sleep : Q) :
  let db' := fst (delete_all db) in
  users db' = users db
  /\ get_entries db' = []
  /\ burnout_score db' = mk_burnout 0 "Unknown" "Not enough data"
  /\ best_sleep_range db' = Ok NoEntries
  /\ burnout_analysis db' = NoAnalysis
  /\ sleep_productivity_heatmap db' = []
  /\ burnout_trend db' = []
  /\ predict sleep db' = Predict.mk_prediction 5 "no-data" 20
  /\ ai_insights db' = [Plain insights_not_enough]
  /\ recommendations db' = [recommendations_not_enough]
  /\ export_json db' = []
  /\ Csv.reader (export_csv db') = [csv_header].
Proof. repeat split. Qed.

Lemma date_eqb_eq (a b : Date) : date_eqb a b = true <-> a = b.
Proof.
  unfold date_eqb. rewrite !andb_true_iff, !Nat.eqb_eq.
  destruct a, b; simpl. split.
  - intros [[-> ->] ->]. reflexivity.
  - intros [= -> -> ->]. auto.
Qed.

(** X20.  When the date parses, GET /entries/by-date/{date} returns
    exactly the stored entries with that date, in table order; an entry
    that POST /add-entry has just stored under the same date text is
    among them. *)
Theorem get_entries_by_date_selects (date_text : string) (d : Date)
    (entry : EntryCreate) (db : Session) :
  strptime_ymd date_text = inl d ->
  get_entries_by_date date_text db
  = Ok (filter (fun e => date_eqb (date e) d) (entries db))
  /\ (forall e, In e (filter (fun e => date_eqb (date e) d) (entries db))
                <-> In e (entries db) /\ date e = d)
  /\ (forall added,
        new_date entry = date_text ->
        snd (add_entry entry db) = Ok added ->
        exists l,
          get_entries_by_date date_text (fst (add_entry entry db)) = Ok l
          /\ In (mk_entry (added_id added) d (new_sleep_hours entry)
                          (new_mood entry) (new_productivity entry)) l).
Proof.
  intros Hd. unfold get_entries_by_date. rewrite Hd.
  split; [reflexivity|]. split.
  - intros e. rewrite filter_In, date_eqb_eq. reflexivity.
  - intros added Hnew. unfold add_entry. rewrite Hnew, Hd.
    destruct (sqlite_integer (new_mood entry)
              && sqlite_integer (new_productivity entry)); simpl;
      [|discriminate].
    intros [= <-]. eexists. split; [reflexivity|]. simpl.
    apply filter_In. split.
    + apply in_or_app. right. now left.
    + simpl. now apply date_eqb_eq.
Qed.

End EmptyStore.

Lemma get_entries_by_date_selects_witness :
  Main.get_entries_by_date "2024-01-06" Sample.db_unordered
  = Ok [Database.mk_entry 5 Sample.day2 (13 # 2) 6 4]
  /\ exists l,
       Main.get_entries_by_date "2024-01-06"
         (fst (Main.add_entry (Main.mk_entry_create "2024-01-06" 7 6 5)
                 Sample.db_unordered)) = Ok l
       /\ In (Database.mk_entry 6 Sample.day2 7 6 5) l.
Proof.
  destruct (get_entries_by_date_selects "2024-01-06" Sample.day2
              (Main.mk_entry_create "2024-01-06" 7 6 5) Sample.db_unordered)
    as (A & _ & C); [reflexivity|].
  split; [exact A|].
  apply (C (Main.mk_entry_added "Entry added" 6)); reflexivity.
Defined.

Section AddThenDelete.
Import Database Main.
Context {dt : Datetime}.

(** X21.  Adding an entry and then deleting it under the key that
    POST /add-entry answered gives back the store as it was. *)
Theorem add_then_delete_restores (entry : EntryCreate) (db : Session)
    (added : EntryAdded) :
  snd (add_entry entry db) = Ok added ->
  delete_entry (added_id added) (fst (add_entry entry db))
  = (db, "Entry deleted"%string).
Proof.
  unfold add_entry.
  destruct (strptime_ymd (new_date entry)) as [d|msg]; simpl;
    [|discriminate].
  destruct (sqlite_integer (new_mood entry)
            && sqlite_integer (new_productivity entry)); simpl;
    [|discriminate].
  intros [= <-]. simpl.
  set (row := mk_entry (next_entry_id db) d (new_sleep_hours entry)
                       (new_mood entry) (new_productivity entry)).
  unfold delete_entry, first_entry_by_id. simpl.
  assert (Hold : forall e, In e (entries db)
                           -> (id e =? next_entry_id db) = false).
  { intros e He. apply Z.eqb_neq. apply id_below_next in He. lia. }
  assert (Hfind : find (fun e => id e =? next_entry_id db)
                       (entries db ++ [row]) = Some row).
  { induction (entries db) as [|x l IH]; simpl.
    - now rewrite Z.eqb_refl.
    - rewrite (Hold x (or_introl eq_refl)). apply IH.
      intros e He. apply Hold. now right. }
  rewrite Hfind. unfold delete. simpl. f_equal.
  rewrite filter_app. simpl. rewrite Z.eqb_refl. simpl.
  rewrite app_nil_r.
  assert (Hkeep : filter (fun x => negb (id x =? next_entry_id db))
                         (entries db) = entries db).
  { apply forallb_filter_id, forallb_forall. intros e He.
    now rewrite (Hold e He). }
  rewrite Hkeep. now destruct db.
Qed.

End AddThenDelete.

Lemma add_then_delete_restores_witness :
  Main.delete_entry 6
    (fst (Main.add_entry (Main.mk_entry_create "2024-01-06" 7 6 5)
            Sample.db_unordered))
  = (Sample.db_unordered, "Entry deleted"%string).
Proof.
  apply (add_then_delete_restores
           (Main.mk_entry_create "2024-01-06" 7 6 5) Sample.db_unordered
           (Main.mk_entry_added "Entry added" 6)).
  reflexivity.
Defined.

Section InsightsAndAdvice.
Import Database Main.

Lemma round2_lower (m : Z) (x : Q) :
  (inject_Z m <= x)%Q -> (inject_Z m <= Py.round x 2)%Q.
Proof.
  intros L.
  apply (round2_between m (Z.max m (Qceiling x))).
  split; [exact L|].
  apply (Qle_trans _ (inject_Z (Qceiling x))); [apply Qle_ceiling|].
  rewrite <- Zle_Qle. lia.
Qed.

(** X22.  The insights and the recommendations agree on short sleep:
    whenever /ai/insights carries the below-the-recommended-range
    warning, the average it quotes is under 6 and
    /analysis/recommendations carries the advice to sleep earlier. *)
Theorem low_sleep_insight_implies_advice (db : Session) (a : Q)
    (after : string) :
  In (WithNumber "Your average sleep is around " a after) (ai_insights db) ->
  (a < 6)%Q /\ In rec_sleep_less (recommendations db).
Proof.
  unfold ai_insights, recommendations. rewrite order_by_date_length.
  destruct (Nat.ltb_spec (length (entries db)) 3) as [L|G].
  - intros [H|[]]. discriminate H.
  - set (avg := Py.np_mean (map sleep_hours (order_by_date (entries db)))).
    destruct (Py.ltb (Py.round avg 2) 6) eqn:E.
    + intros Hin.
      assert (Ha : Py.ltb avg 6 = true).
      { destruct (Py.ltb avg 6) eqn:E'; [reflexivity|].
        apply ltb_false in E'. apply ltb_true in E.
        pose proof (round2_lower 6 avg E'). change (inject_Z 6) with 6%Q in *.
        lra. }
      rewrite Ha. split.
      * destruct Hin as [Hin|Hin].
        -- injection Hin as <- _. now apply ltb_true.
        -- exfalso. revert Hin. split_conditions; simpl; intros Hin;
             repeat (destruct Hin as [Hin|Hin]; try discriminate Hin);
             contradiction.
      * simpl. now left.
    + intros Hin. exfalso. revert Hin.
      split_conditions; simpl; intros Hin;
        repeat (destruct Hin as [Hin|Hin]; try discriminate Hin);
        contradiction.
Qed.

End InsightsAndAdvice.

Lemma low_sleep_insight_implies_advice_witness :
  In Main.rec_sleep_less (Main.recommendations Sample.db_tired')
  /\ ((9 # 2) < 6)%Q.
Proof.
  destruct (low_sleep_insight_implies_advice Sample.db_tired' (9 # 2)
              " hours, which is below the recommended range. This could be quietly impacting your focus and energy levels.")
    as [A B].
  - vm_compute. left. reflexivity.
  - split; assumption.
Defined.

Section Correlation.
Import Database Main.
Context {scipy : Scipy}.


End Correlation.


Section RecentSleep.
Import Database Main.

(** X24.  The "sleep has dipped recently" advice compares the last three
    entries with all of them, so it is only ever given with four or more
    entries. *)
Theorem recent_advice_needs_four_entries (db : Session) :
  In rec_sleep_dipped (recommendations db) ->
  (4 <= length (entries db))%nat.
Proof.
  intros Hin.
  destruct (Nat.le_gt_cases 4 (length (entries db))) as [G|L]; [exact G|].
  exfalso. revert Hin. unfold recommendations.
  rewrite order_by_date_length.
  destruct (Nat.ltb_spec (length (entries db)) 3) as [L3|G3].
  - intros [H|[]]. discriminate H.
  - assert (E : Py.last_n 3 (order_by_date (entries db))
                = order_by_date (entries db)).
    { unfold Py.last_n. rewrite order_by_date_length.
      replace (length (entries db) - 3)%nat with 0%nat by lia. reflexivity. }
    rewrite E.
    set (avg := Py.np_mean (map sleep_hours (order_by_date (entries db)))).
    assert (F : Py.ltb avg avg = false) by (apply ltb_false; lra).
    rewrite F.
    split_conditions; simpl; intros Hin;
      repeat (destruct Hin as [Hin|Hin]; try discriminate Hin);
      contradiction.
Qed.

End RecentSleep.

Lemma recent_advice_needs_four_entries_witness :
  (4 <= length (Database.entries Sample.db_dip))%nat.
Proof.
  apply recent_advice_needs_four_entries.
  vm_compute. tauto.
Defined.
